(** * ASD binary codec: a shallow embedding of [asdFileHandle_1.py]

    The development follows the Python source function by function.
    Python values that the code stores are given the types [read] gives
    them; places where the code lets [None] (or the decorator's pair
    [(None, None)]) flow into a variable are typed with [option] or with a
    small inductive of the possible shapes.  Exceptions are a sum type and
    every [try ... except Exception] of the source is an explicit handler.

    Host conventions fixed by the model: native byte order is
    little-endian, [datetime.fromtimestamp] and [datetime.timestamp] are
    mutually inverse on integral seconds, and the width of the native
    C [long] together with the regular-expression and ElementTree calls of
    the audit-log section are fields of the [Host] record. *)

From Stdlib Require Import ZArith List Bool Lia String Ascii.
From Stdlib Require Import Strings.Byte.
From Stdlib Require Import SpecFloat.
Import ListNotations.
Local Open Scope Z_scope.


(** ** Bytes, lengths and Python slices *)

Definition bytes := list byte.

Definition b2z (b : byte) : Z := Z.of_N (Byte.to_N b).

Definition z2b (z : Z) : byte :=
  match Byte.of_N (Z.to_N (z mod 256)) with
  | Some b => b
  | None => x00
  end.

Definition len {A : Type} (l : list A) : Z := Z.of_nat (List.length l).

(** Python's normalisation of one slice bound against a sequence of
    length [n]: negative bounds count from the end, everything clamps. *)
Definition norm_index (n i : Z) : Z :=
  if i <? 0 then Z.max 0 (i + n) else Z.min i n.

(** [s[a:b]] *)
Definition slice {A : Type} (s : list A) (a b : Z) : list A :=
  let a' := norm_index (len s) a in
  let b' := norm_index (len s) b in
  firstn (Z.to_nat (b' - a')) (skipn (Z.to_nat a') s).

(** [s[a:]], also the value of [s[a:None]] *)
Definition slice_from {A : Type} (s : list A) (a : Z) : list A :=
  skipn (Z.to_nat (norm_index (len s) a)) s.

(** [s[:b]] *)
Definition slice_to {A : Type} (s : list A) (b : Z) : list A :=
  firstn (Z.to_nat (norm_index (len s) b)) s.

(** [s[a:e]] where [e] is an int or [None] *)
Definition slice_opt {A : Type} (s : list A) (a : Z) (e : option Z) : list A :=
  match e with
  | Some b => slice s a b
  | None => slice_from s a
  end.

Fixpoint bytes_eqb (x y : bytes) : bool :=
  match x, y with
  | [], [] => true
  | a :: x', b :: y' => Byte.eqb a b && bytes_eqb x' y'
  | _, _ => false
  end.

Definition zeros (n : nat) : bytes := repeat x00 n.

(** [b.strip(b'\x00')]: zero bytes removed at both ends *)
Fixpoint lstrip0 (b : bytes) : bytes :=
  match b with
  | x00 :: r => lstrip0 r
  | _ => b
  end.

Definition strip0 (b : bytes) : bytes := rev (lstrip0 (rev (lstrip0 b))).

(** [b.ljust(n, b'\x00')] *)
Definition ljust0 (n : nat) (b : bytes) : bytes := b ++ zeros (n - List.length b).

(** ** Exceptions and the error monad *)

Inductive exn : Type :=
| struct_error
| TypeError
| ValueError (msg : string)
| AttributeError
| UnicodeDecodeError
| UnicodeEncodeError
| OverflowError
| ZeroDivisionError
| UnboundLocalError
| IndexError.

Definition M (A : Type) : Type := (exn + A)%type.

Definition ret {A : Type} (a : A) : M A := inr a.
Definition raise {A : Type} (e : exn) : M A := inl e.
Definition bind {A B : Type} (c : M A) (k : A -> M B) : M B :=
  match c with
  | inl e => inl e
  | inr a => k a
  end.

(** [try: c except Exception: h] *)
Definition try_except {A : Type} (c : M A) (h : A) : A :=
  match c with
  | inl _ => h
  | inr a => a
  end.

Declare Scope py_scope.
Delimit Scope py_scope with py.
Notation "x <- c ;; k" := (bind c (fun x => k))
  (at level 61, c at next level, right associativity) : py_scope.
Notation "' p <- c ;; k" := (bind c (fun x => let 'p := x in k))
  (at level 61, p pattern, c at next level, right associativity) : py_scope.
Local Open Scope py_scope.

(** An operand that must be an int: [None] makes the library call or the
    arithmetic raise [TypeError]. *)
Definition need_int (o : option Z) : M Z :=
  match o with
  | Some z => ret z
  | None => raise TypeError
  end.

(** ** IEEE-754 values

    A Python [float] (and a numpy [float64]) is a binary64 value of
    [SpecFloat]; arithmetic is the library's correctly rounded software
    implementation at [prec = 53], [emax = 1024]. *)

Definition float := spec_float.

Definition fdiv (x y : float) : float := SFdiv 53 1024 x y.
Definition fmul (x y : float) : float := SFmul 53 1024 x y.
Definition fadd (x y : float) : float := SFadd 53 1024 x y.
Definition fsub (x y : float) : float := SFsub 53 1024 x y.

(** [float(z)] for a Python int *)
Definition float_of_Z (z : Z) : float := binary_normalize 53 1024 z 0 false.

Definition is_zero (x : float) : bool :=
  match x with
  | S754_zero _ => true
  | _ => false
  end.

(** [int(x)]: truncation toward zero; NaN and the infinities raise. *)
Definition int_of_float (x : float) : M Z :=
  match x with
  | S754_zero _ => ret 0
  | S754_finite s m e =>
      let v := if 0 <=? e then Zpos m * 2 ^ e else Zpos m / 2 ^ (- e) in
      ret (if s then - v else v)
  | S754_nan => raise (ValueError "cannot convert float NaN to integer")
  | S754_infinity _ => raise OverflowError
  end.

(** Bit patterns of the interchange formats with [mbits] stored mantissa
    bits and [ebits] exponent bits. *)
Definition ieee_decode (mbits ebits : Z) (u : Z) : float :=
  let mant := u mod 2 ^ mbits in
  let expo := (u / 2 ^ mbits) mod 2 ^ ebits in
  let sign := Z.odd (u / 2 ^ (mbits + ebits)) in
  let emin := 3 - 2 ^ (ebits - 1) - (mbits + 1) in
  if expo =? 0 then
    match mant with
    | Zpos p => S754_finite sign p emin
    | _ => S754_zero sign
    end
  else if expo =? 2 ^ ebits - 1 then
    if mant =? 0 then S754_infinity sign else S754_nan
  else
    match 2 ^ mbits + mant with
    | Zpos p => S754_finite sign p (expo + emin - 1)
    | _ => S754_nan
    end.

Definition ieee_encode (mbits ebits : Z) (x : float) : Z :=
  let emin := 3 - 2 ^ (ebits - 1) - (mbits + 1) in
  let sbit := fun s : bool => if s then 2 ^ (mbits + ebits) else 0 in
  match x with
  | S754_zero s => sbit s
  | S754_infinity s => sbit s + (2 ^ ebits - 1) * 2 ^ mbits
  | S754_nan => (2 ^ ebits - 1) * 2 ^ mbits + 2 ^ (mbits - 1)
  | S754_finite s m e =>
      if Zpos m <? 2 ^ mbits then sbit s + Zpos m
      else sbit s + (e - emin + 1) * 2 ^ mbits + (Zpos m - 2 ^ mbits)
  end.

(** A binary32 value as the binary64 value [struct.unpack] returns for
    ['f'] (the same number, with the mantissa of the wider format). *)
Definition widen_binary32 (x : float) : float :=
  match x with
  | S754_finite s m e => binary_round 53 1024 s m e
  | _ => x
  end.

(** Rounding of a binary64 value to binary32, as the C cast in
    [struct.pack('f', x)] does. *)
Definition round_binary32 (x : float) : float :=
  match x with
  | S754_finite s m e => binary_round 24 128 s m e
  | _ => x
  end.

(** ** The [struct] module *)

Fixpoint le_uint (bs : bytes) : Z :=
  match bs with
  | [] => 0
  | b :: r => b2z b + 256 * le_uint r
  end.

Definition le_sint (bs : bytes) : Z :=
  let u := le_uint bs in
  let w := 2 ^ (8 * len bs) in
  if 2 * u <? w then u else u - w.

Fixpoint le_bytes (n : nat) (z : Z) : bytes :=
  match n with
  | O => []
  | S k => z2b z :: le_bytes k (z / 256)
  end.

(** One format character; a repeat count is a repeated code.  [Fint s n]
    covers [b B h H i I l L q] by signedness and width. *)
Inductive fcode : Type :=
| Fs (n : nat)
| Fint (signed : bool) (n : nat)
| Ff
| Fd.

Definition Fb : fcode := Fint true 1.
Definition Fh : fcode := Fint true 2.
Definition FH : fcode := Fint false 2.
Definition Fi : fcode := Fint true 4.
Definition FI : fcode := Fint false 4.
Definition Fl : fcode := Fint true 4.
Definition FL : fcode := Fint false 4.
Definition Fq : fcode := Fint true 8.

Inductive sval : Type :=
| VInt (z : Z)
| VBytes (b : bytes)
| VFloat (f : float).

Definition fsize (c : fcode) : nat :=
  match c with
  | Fs n => n
  | Fint _ n => n
  | Ff => 4
  | Fd => 8
  end.

Fixpoint calcsize (fmt : list fcode) : Z :=
  match fmt with
  | [] => 0
  | c :: r => Z.of_nat (fsize c) + calcsize r
  end.

Definition unpack_one (c : fcode) (w : bytes) : sval :=
  match c with
  | Fs _ => VBytes w
  | Fint s _ => VInt (if s then le_sint w else le_uint w)
  | Ff => VFloat (widen_binary32 (ieee_decode 23 8 (le_uint w)))
  | Fd => VFloat (ieee_decode 52 11 (le_uint w))
  end.

Fixpoint unpack_fields (fmt : list fcode) (w : bytes) : list sval :=
  match fmt with
  | [] => []
  | c :: r => unpack_one c (firstn (fsize c) w) :: unpack_fields r (skipn (fsize c) w)
  end.

(** The bounds test of [struct.unpack_from]: the [size] bytes at
    [offset], or [struct.error]. *)
Definition window (size : Z) (buf : bytes) (offset : Z) : M bytes :=
  if offset <? 0 then
    if 0 <? offset + size then raise struct_error
    else if offset + len buf <? 0 then raise struct_error
    else ret (firstn (Z.to_nat size) (skipn (Z.to_nat (offset + len buf)) buf))
  else if len buf - offset <? size then raise struct_error
  else ret (firstn (Z.to_nat size) (skipn (Z.to_nat offset) buf)).

(** [struct.unpack_from(fmt, buf, offset)]; a [None] offset is a
    [TypeError]. *)
Definition unpack_from (fmt : list fcode) (buf : bytes) (offset : option Z)
  : M (list sval) :=
  o <- need_int offset ;;
  w <- window (calcsize fmt) buf o ;;
  ret (unpack_fields fmt w).

Definition pack_float32 (x : float) : M bytes :=
  let y := round_binary32 x in
  match y, x with
  | S754_infinity _, S754_finite _ _ _ => raise OverflowError
  | _, _ => ret (le_bytes 4 (ieee_encode 23 8 y))
  end.

Definition pack_one (c : fcode) (v : sval) : M bytes :=
  match c, v with
  | Fs n, VBytes b => ret (firstn n b ++ zeros (n - List.length b))
  | Fint true n, VInt z =>
      let half := 2 ^ (8 * Z.of_nat n - 1) in
      if (- half <=? z) && (z <? half) then ret (le_bytes n (z mod (2 * half)))
      else raise struct_error
  | Fint false n, VInt z =>
      if (0 <=? z) && (z <? 2 ^ (8 * Z.of_nat n)) then ret (le_bytes n z)
      else raise struct_error
  | Ff, VFloat x => pack_float32 x
  | Ff, VInt z => pack_float32 (float_of_Z z)
  | Fd, VFloat x => ret (le_bytes 8 (ieee_encode 52 11 x))
  | Fd, VInt z => ret (le_bytes 8 (ieee_encode 52 11 (float_of_Z z)))
  | _, _ => raise struct_error
  end.

Fixpoint pack (fmt : list fcode) (vals : list sval) : M bytes :=
  match fmt, vals with
  | [], [] => ret []
  | c :: r, v :: vs =>
      b <- pack_one c v ;;
      rest <- pack r vs ;;
      ret (b ++ rest)
  | _, _ => raise struct_error
  end.

Definition as_int (v : sval) : Z :=
  match v with
  | VInt z => z
  | _ => 0
  end.

Definition as_bytes (v : sval) : bytes :=
  match v with
  | VBytes b => b
  | _ => []
  end.

Definition as_float (v : sval) : float :=
  match v with
  | VFloat f => f
  | _ => S754_zero false
  end.

Definition geti (vals : list sval) (k : nat) : Z := as_int (nth k vals (VInt 0)).
Definition getb (vals : list sval) (k : nat) : bytes := as_bytes (nth k vals (VInt 0)).
Definition getf (vals : list sval) (k : nat) : float := as_float (nth k vals (VInt 0)).

(** ** Python [str] and UTF-8

    A [str] is its sequence of code points.  [str.encode('utf-8')] refuses
    surrogates; [bytes.decode('utf-8')] is the strict decoder (shortest
    form only, no surrogates, nothing above U+10FFFF). *)

Definition pystr := list Z.

Definition str_of (s : string) : pystr :=
  map (fun a => Z.of_N (N_of_ascii a)) (list_ascii_of_string s).

Definition is_scalar (c : Z) : bool :=
  ((0 <=? c) && (c <? 55296)) || ((57344 <=? c) && (c <? 1114112)).

Definition utf8_encode_char (c : Z) : M bytes :=
  if c <? 128 then ret [z2b c]
  else if c <? 2048 then ret [z2b (192 + c / 64); z2b (128 + c mod 64)]
  else if c <? 65536 then
    if (55296 <=? c) && (c <? 57344) then raise UnicodeEncodeError
    else ret [z2b (224 + c / 4096); z2b (128 + (c / 64) mod 64);
              z2b (128 + c mod 64)]
  else ret [z2b (240 + c / 262144); z2b (128 + (c / 4096) mod 64);
            z2b (128 + (c / 64) mod 64); z2b (128 + c mod 64)].

Fixpoint utf8_encode (s : pystr) : M bytes :=
  match s with
  | [] => ret []
  | c :: r =>
      b <- utf8_encode_char c ;;
      rest <- utf8_encode r ;;
      ret (b ++ rest)
  end.

(** The payload of a continuation byte [10xxxxxx] *)
Definition cont (b : byte) : M Z :=
  let z := b2z b in
  if (128 <=? z) && (z <? 192) then ret (z - 128) else raise UnicodeDecodeError.

Fixpoint utf8_decode (bs : bytes) : M pystr :=
  match bs with
  | [] => ret []
  | b0 :: r =>
      let z0 := b2z b0 in
      if z0 <? 128 then
        s <- utf8_decode r ;; ret (z0 :: s)
      else if z0 <? 192 then raise UnicodeDecodeError
      else if z0 <? 224 then
        match r with
        | b1 :: r1 =>
            c1 <- cont b1 ;;
            let c := (z0 - 192) * 64 + c1 in
            if c <? 128 then raise UnicodeDecodeError
            else s <- utf8_decode r1 ;; ret (c :: s)
        | _ => raise UnicodeDecodeError
        end
      else if z0 <? 240 then
        match r with
        | b1 :: b2 :: r2 =>
            c1 <- cont b1 ;;
            c2 <- cont b2 ;;
            let c := (z0 - 224) * 4096 + c1 * 64 + c2 in
            if (c <? 2048) || ((55296 <=? c) && (c <? 57344))
            then raise UnicodeDecodeError
            else s <- utf8_decode r2 ;; ret (c :: s)
        | _ => raise UnicodeDecodeError
        end
      else if z0 <? 248 then
        match r with
        | b1 :: b2 :: b3 :: r3 =>
            c1 <- cont b1 ;;
            c2 <- cont b2 ;;
            c3 <- cont b3 ;;
            let c := (z0 - 240) * 262144 + c1 * 4096 + c2 * 64 + c3 in
            if (c <? 65536) || (1114112 <=? c) then raise UnicodeDecodeError
            else s <- utf8_decode r3 ;; ret (c :: s)
        | _ => raise UnicodeDecodeError
        end
      else raise UnicodeDecodeError
  end.

Fixpoint str_eqb (x y : pystr) : bool :=
  match x, y with
  | [], [] => true
  | a :: x', b :: y' => (a =? b) && str_eqb x' y'
  | _, _ => false
  end.

(** ** [datetime] *)

Module datetime.
Record t : Type := mk
  { year : Z; month : Z; day : Z; hour : Z; minute : Z; second : Z }.
End datetime.

Definition is_leap (y : Z) : bool :=
  (y mod 4 =? 0) && (negb (y mod 100 =? 0) || (y mod 400 =? 0)).

Definition days_in_month (y m : Z) : Z :=
  if m =? 2 then (if is_leap y then 29 else 28)
  else if (m =? 4) || (m =? 6) || (m =? 9) || (m =? 11) then 30
  else 31.

(** [datetime.datetime(y, mo, d, h, mi, s)] *)
Definition datetime_new (y mo d h mi s : Z) : M datetime.t :=
  if negb ((1 <=? y) && (y <=? 9999)) then raise (ValueError "year is out of range")
  else if negb ((1 <=? mo) && (mo <=? 12)) then raise (ValueError "month must be in 1..12")
  else if negb ((1 <=? d) && (d <=? days_in_month y mo)) then raise (ValueError "day is out of range for month")
  else if negb ((0 <=? h) && (h <=? 23)) then raise (ValueError "hour must be in 0..23")
  else if negb ((0 <=? mi) && (mi <=? 59)) then raise (ValueError "minute must be in 0..59")
  else if negb ((0 <=? s) && (s <=? 59)) then raise (ValueError "second must be in 0..59")
  else ret (datetime.mk y mo d h mi s).

Definition days_before_year (y : Z) : Z :=
  let p := y - 1 in p * 365 + p / 4 - p / 100 + p / 400.

Fixpoint days_before_month_aux (y : Z) (k : nat) : Z :=
  match k with
  | O => 0
  | S k' => days_before_month_aux y k' + days_in_month y (Z.of_nat k)
  end.

Definition days_before_month (y m : Z) : Z :=
  days_before_month_aux y (Z.to_nat (m - 1)).

Definition toordinal (y m d : Z) : Z :=
  days_before_year y + days_before_month y m + d.

(** [dt.weekday()], Monday is 0 *)
Definition weekday (dt : datetime.t) : Z :=
  (toordinal (datetime.year dt) (datetime.month dt) (datetime.day dt) + 6) mod 7.

(** [(dt.date() - datetime.date(dt.year, 1, 1)).days] *)
Definition days_since_new_year (dt : datetime.t) : Z :=
  toordinal (datetime.year dt) (datetime.month dt) (datetime.day dt)
  - toordinal (datetime.year dt) 1 1.

(** The datetime that [datetime.fromtimestamp(t)] returns, kept as the
    instant it denotes; [timestamp] is [dt.timestamp()]. *)
Inductive local_datetime : Type := fromtimestamp (t : Z).

Definition timestamp (d : local_datetime) : Z :=
  match d with
  | fromtimestamp t => t
  end.

(** namedtuple [metadata] *)
Module asdMetadatainfo.
Record t : Type := _make
  { comments : bytes;
    when : datetime.t;
    daylighSavingsFlag : Z;
    programVersion : Z;
    fileVersion : Z;
    iTime : Z;
    darkCorrected : Z;
    darkTime : local_datetime;
    dataType : Z;
    referenceTime : local_datetime;
    channel1Wavelength : float;
    wavelengthStep : float;
    dataFormat : Z;
    old_darkCurrentCount : Z;
    old_refCount : Z;
    old_sampleCount : Z;
    application : Z;
    channels : Z;
    appData_str : bytes;
    gpsData_str : bytes;
    intergrationTime_ms : Z;
    fo : Z;
    darkCurrentCorrention : Z;
    calibrationSeries : Z;
    instrumentNum : Z;
    yMin : float;
    yMax : float;
    xMin : float;
    xMax : float;
    ipNumBits : Z;
    xMode : Z;
    flags1 : Z;
    flags2 : Z;
    flags3 : Z;
    flags4 : Z;
    darkCurrentCount : Z;
    refCount : Z;
    sampleCount : Z;
    instrument : Z;
    calBulbID : Z;
    swir1Gain : Z;
    swir2Gain : Z;
    swir1Offset : Z;
    swir2Offset : Z;
    splice1_wavelength : float;
    splice2_wavelength : float;
    smartDetectorType : bytes;
    spare1 : Z;
    spare2 : Z;
    spare3 : Z;
    spare4 : Z;
    spare5 : Z;
    byteStream : bytes;
    byteStreamLength : Z }.
End asdMetadatainfo.

(** namedtuples [spectrumData] and [referenceData] (same three fields); each field is [None] when [__parse_spectra] answered four [None]s *)
Module spectrumDataInfo.
Record t : Type := _make
  { spectra : option (list float);
    byteStream : option bytes;
    byteStreamLength : option Z }.
End spectrumDataInfo.

(** namedtuple [referenceFileHeader] *)
Module asdreferenceFileHeaderInfo.
Record t : Type := _make
  { referenceFlag : bool;
    referenceTime : Z;
    spectrumTime : Z;
    referenceDescription : option pystr;
    byteStream : bytes;
    byteStreamLength : Z }.
End asdreferenceFileHeaderInfo.

(** namedtuple [itemsInMeterialReport] *)
Module merterialReportInfo.
Record t : Type := _make
  { constituentName : pystr;
    passFail : pystr;
    mDistance : float;
    mDistanceLimit : float;
    concentration : float;
    concentrationLimit : float;
    fRatio : float;
    residual : float;
    residualLimit : float;
    scores : float;
    scoresLimit : float;
    modelType : Z;
    reserved1 : float;
    reserved2 : float }.
End merterialReportInfo.

(** namedtuple [classifierData] *)
Module asdClassifierDataInfo.
Record t : Type := _make
  { yCode : Z;
    yModelType : Z;
    title : pystr;
    subtitle : pystr;
    productName : pystr;
    vendor : pystr;
    lotNumber : pystr;
    sample : pystr;
    modelName : pystr;
    operator : pystr;
    dateTime : pystr;
    instrument : pystr;
    serialNumber : pystr;
    displayMode : pystr;
    comments : pystr;
    units : pystr;
    filename : pystr;
    username : pystr;
    reserved1 : pystr;
    reserved2 : pystr;
    reserved3 : pystr;
    reserved4 : pystr;
    constituantCount : Z;
    constituantItems : list (option merterialReportInfo.t);
    byteStream : bytes;
    byteStreamLength : Z }.
End asdClassifierDataInfo.

(** The labels field holds a list of strings, or [b''] when the count is
    zero; the values field a list of floats, or the int [0]. *)
Inductive labels_t : Type :=
| LabelList (l : list pystr)
| LabelBytes (b : bytes).

Inductive values_t : Type :=
| ValueList (l : list float)
| ValueInt (z : Z).

(** namedtuple [dependants] *)
Module dependantInfo.
Record t : Type := _make
  { saveDependentVariables : bool;
    dependentVariableCount : Z;
    dependentVariableLabels : labels_t;
    dependentVariableValue : values_t;
    byteStream : bytes;
    byteStreamLength : Z }.
End dependantInfo.

(** One calibration series descriptor: the tuple
    [(cbtype, name, cbIntergrationTime_ms, cbSwir1Gain, cbWwir2Gain)] *)
Definition calibrationSerie : Type := (Z * bytes * Z * Z * Z)%type.

(** [hdr[0]] *)
Definition cbtype (hdr : calibrationSerie) : Z :=
  let '(ty, _, _, _, _) := hdr in ty.

(** namedtuple [calibrationHeader] *)
Module calibrationHeaderInfo.
Record t : Type := _make
  { calibrationNum : Z;
    calibrationSeries : list calibrationSerie;
    byteStream : bytes;
    byteStreamLength : Z }.
End calibrationHeaderInfo.

(** namedtuple [event]; an element's [.text] is [None] when it is empty *)
Module auditInfo.
Record t : Type := _make
  { application : option pystr;
    appVersion : option pystr;
    name : option pystr;
    login : option pystr;
    time : option pystr;
    source : option pystr;
    function : option pystr;
    notes : option pystr }.
End auditInfo.

(** namedtuple [auditLog] *)
Module auditLogInfo.
Record t : Type := _make
  { auditCount : Z;
    auditEvents : list (option auditInfo.t);
    byteStream : bytes;
    byteStreamLength : Z }.
End auditLogInfo.

(** namedtuple [signature] *)
Module signatureInfo.
Record t : Type := _make
  { signed : Z;
    signatureTime : Z;
    userDomain : pystr;
    userLogin : pystr;
    userName : pystr;
    source : pystr;
    reason : pystr;
    notes : pystr;
    publicKey : pystr;
    signature : bytes;
    byteStream : bytes;
    byteStreamLength : Z }.
End signatureInfo.

(** ** The [ASDFile] object

    One field per instance attribute.  [asdFileStream], [wavelengths] and
    [bom] are the private [__asdFileStream], [__wavelengths] and [__bom];
    [bom] is [None] while the attribute is unset, which is what
    [__getattr__] answers for it. *)
Record ASDFile : Type := mkASDFile
  { asdFileVersion : Z;
    metadata : option asdMetadatainfo.t;
    spectrumData : option spectrumDataInfo.t;
    referenceFileHeader : option asdreferenceFileHeaderInfo.t;
    referenceData : option spectrumDataInfo.t;
    classifierData : option asdClassifierDataInfo.t;
    dependants : option dependantInfo.t;
    calibrationHeader : option calibrationHeaderInfo.t;
    calibrationSeriesABS : option (list float);
    calibrationSeriesBSE : option (list float);
    calibrationSeriesLMP : option (list float);
    calibrationSeriesFO : option (list float);
    auditLog : option auditLogInfo.t;
    signature : option signatureInfo.t;
    asdFileStream : option bytes;
    wavelengths : option (list float);
    bom : option bytes }.

Definition set_asdFileVersion (self : ASDFile) (v : Z) : ASDFile :=
  mkASDFile v (metadata self) (spectrumData self) (referenceFileHeader self)
    (referenceData self) (classifierData self) (dependants self)
    (calibrationHeader self) (calibrationSeriesABS self) (calibrationSeriesBSE
    self) (calibrationSeriesLMP self) (calibrationSeriesFO self) (auditLog
    self) (signature self) (asdFileStream self) (wavelengths self) (bom self).

Definition set_metadata (self : ASDFile) (v : option asdMetadatainfo.t) : ASDFile :=
  mkASDFile (asdFileVersion self) v (spectrumData self) (referenceFileHeader
    self) (referenceData self) (classifierData self) (dependants self)
    (calibrationHeader self) (calibrationSeriesABS self) (calibrationSeriesBSE
    self) (calibrationSeriesLMP self) (calibrationSeriesFO self) (auditLog
    self) (signature self) (asdFileStream self) (wavelengths self) (bom self).

Definition set_spectrumData (self : ASDFile) (v : option spectrumDataInfo.t) : ASDFile :=
  mkASDFile (asdFileVersion self) (metadata self) v (referenceFileHeader self)
    (referenceData self) (classifierData self) (dependants self)
    (calibrationHeader self) (calibrationSeriesABS self) (calibrationSeriesBSE
    self) (calibrationSeriesLMP self) (calibrationSeriesFO self) (auditLog
    self) (signature self) (asdFileStream self) (wavelengths self) (bom self).

Definition set_referenceFileHeader (self : ASDFile) (v : option asdreferenceFileHeaderInfo.t) : ASDFile :=
  mkASDFile (asdFileVersion self) (metadata self) (spectrumData self) v
    (referenceData self) (classifierData self) (dependants self)
    (calibrationHeader self) (calibrationSeriesABS self) (calibrationSeriesBSE
    self) (calibrationSeriesLMP self) (calibrationSeriesFO self) (auditLog
    self) (signature self) (asdFileStream self) (wavelengths self) (bom self).

Definition set_referenceData (self : ASDFile) (v : option spectrumDataInfo.t) : ASDFile :=
  mkASDFile (asdFileVersion self) (metadata self) (spectrumData self)
    (referenceFileHeader self) v (classifierData self) (dependants self)
    (calibrationHeader self) (calibrationSeriesABS self) (calibrationSeriesBSE
    self) (calibrationSeriesLMP self) (calibrationSeriesFO self) (auditLog
    self) (signature self) (asdFileStream self) (wavelengths self) (bom self).

Definition set_classifierData (self : ASDFile) (v : option asdClassifierDataInfo.t) : ASDFile :=
  mkASDFile (asdFileVersion self) (metadata self) (spectrumData self)
    (referenceFileHeader self) (referenceData self) v (dependants self)
    (calibrationHeader self) (calibrationSeriesABS self) (calibrationSeriesBSE
    self) (calibrationSeriesLMP self) (calibrationSeriesFO self) (auditLog
    self) (signature self) (asdFileStream self) (wavelengths self) (bom self).

Definition set_dependants (self : ASDFile) (v : option dependantInfo.t) : ASDFile :=
  mkASDFile (asdFileVersion self) (metadata self) (spectrumData self)
    (referenceFileHeader self) (referenceData self) (classifierData self) v
    (calibrationHeader self) (calibrationSeriesABS self) (calibrationSeriesBSE
    self) (calibrationSeriesLMP self) (calibrationSeriesFO self) (auditLog
    self) (signature self) (asdFileStream self) (wavelengths self) (bom self).

Definition set_calibrationHeader (self : ASDFile) (v : option calibrationHeaderInfo.t) : ASDFile :=
  mkASDFile (asdFileVersion self) (metadata self) (spectrumData self)
    (referenceFileHeader self) (referenceData self) (classifierData self)
    (dependants self) v (calibrationSeriesABS self) (calibrationSeriesBSE
    self) (calibrationSeriesLMP self) (calibrationSeriesFO self) (auditLog
    self) (signature self) (asdFileStream self) (wavelengths self) (bom self).

Definition set_calibrationSeriesABS (self : ASDFile) (v : option (list float)) : ASDFile :=
  mkASDFile (asdFileVersion self) (metadata self) (spectrumData self)
    (referenceFileHeader self) (referenceData self) (classifierData self)
    (dependants self) (calibrationHeader self) v (calibrationSeriesBSE self)
    (calibrationSeriesLMP self) (calibrationSeriesFO self) (auditLog self)
    (signature self) (asdFileStream self) (wavelengths self) (bom self).

Definition set_calibrationSeriesBSE (self : ASDFile) (v : option (list float)) : ASDFile :=
  mkASDFile (asdFileVersion self) (metadata self) (spectrumData self)
    (referenceFileHeader self) (referenceData self) (classifierData self)
    (dependants self) (calibrationHeader self) (calibrationSeriesABS self) v
    (calibrationSeriesLMP self) (calibrationSeriesFO self) (auditLog self)
    (signature self) (asdFileStream self) (wavelengths self) (bom self).

Definition set_calibrationSeriesLMP (self : ASDFile) (v : option (list float)) : ASDFile :=
  mkASDFile (asdFileVersion self) (metadata self) (spectrumData self)
    (referenceFileHeader self) (referenceData self) (classifierData self)
    (dependants self) (calibrationHeader self) (calibrationSeriesABS self)
    (calibrationSeriesBSE self) v (calibrationSeriesFO self) (auditLog self)
    (signature self) (asdFileStream self) (wavelengths self) (bom self).

Definition set_calibrationSeriesFO (self : ASDFile) (v : option (list float)) : ASDFile :=
  mkASDFile (asdFileVersion self) (metadata self) (spectrumData self)
    (referenceFileHeader self) (referenceData self) (classifierData self)
    (dependants self) (calibrationHeader self) (calibrationSeriesABS self)
    (calibrationSeriesBSE self) (calibrationSeriesLMP self) v (auditLog self)
    (signature self) (asdFileStream self) (wavelengths self) (bom self).

Definition set_auditLog (self : ASDFile) (v : option auditLogInfo.t) : ASDFile :=
  mkASDFile (asdFileVersion self) (metadata self) (spectrumData self)
    (referenceFileHeader self) (referenceData self) (classifierData self)
    (dependants self) (calibrationHeader self) (calibrationSeriesABS self)
    (calibrationSeriesBSE self) (calibrationSeriesLMP self)
    (calibrationSeriesFO self) v (signature self) (asdFileStream self)
    (wavelengths self) (bom self).

Definition set_signature (self : ASDFile) (v : option signatureInfo.t) : ASDFile :=
  mkASDFile (asdFileVersion self) (metadata self) (spectrumData self)
    (referenceFileHeader self) (referenceData self) (classifierData self)
    (dependants self) (calibrationHeader self) (calibrationSeriesABS self)
    (calibrationSeriesBSE self) (calibrationSeriesLMP self)
    (calibrationSeriesFO self) (auditLog self) v (asdFileStream self)
    (wavelengths self) (bom self).

Definition set_asdFileStream (self : ASDFile) (v : option bytes) : ASDFile :=
  mkASDFile (asdFileVersion self) (metadata self) (spectrumData self)
    (referenceFileHeader self) (referenceData self) (classifierData self)
    (dependants self) (calibrationHeader self) (calibrationSeriesABS self)
    (calibrationSeriesBSE self) (calibrationSeriesLMP self)
    (calibrationSeriesFO self) (auditLog self) (signature self) v (wavelengths
    self) (bom self).

Definition set_wavelengths (self : ASDFile) (v : option (list float)) : ASDFile :=
  mkASDFile (asdFileVersion self) (metadata self) (spectrumData self)
    (referenceFileHeader self) (referenceData self) (classifierData self)
    (dependants self) (calibrationHeader self) (calibrationSeriesABS self)
    (calibrationSeriesBSE self) (calibrationSeriesLMP self)
    (calibrationSeriesFO self) (auditLog self) (signature self) (asdFileStream
    self) v (bom self).

Definition set_bom (self : ASDFile) (v : option bytes) : ASDFile :=
  mkASDFile (asdFileVersion self) (metadata self) (spectrumData self)
    (referenceFileHeader self) (referenceData self) (classifierData self)
    (dependants self) (calibrationHeader self) (calibrationSeriesABS self)
    (calibrationSeriesBSE self) (calibrationSeriesLMP self)
    (calibrationSeriesFO self) (auditLog self) (signature self) (asdFileStream
    self) (wavelengths self) v.

(** [__init__] *)
Definition __init__ : ASDFile :=
  mkASDFile 0 None None None None None None None None None None None None None
    None None None.


(** ** The host

    [sizeof_long] is [struct.calcsize('l')] in native mode.
    [audit_fragments] stands for the library calls of [__parse_auditEvents]
    and [__parse_auditLogEvent] on [stream[offset:]]: the lossy UTF-8
    decoding, [re.findall] and [ET.fromstring]; for every fragment found it
    gives the length of the fragment's UTF-8 encoding and the parsed event
    ([None] when the parse raised).  [audit_tostring] stands for the
    ElementTree calls of [__wrap_auditLogEvent] ([None] when they raise). *)
Record Host : Type := mkHost
  { sizeof_long : nat;
    audit_fragments : bytes -> list (Z * option auditInfo.t);
    audit_tostring : auditInfo.t -> option bytes }.

(** ** Offsets as [read] holds them

    The variable [offset] of [read] is an int, [None] (a parser caught an
    exception) or the pair [(None, None)] that [__check_offset] returns. *)
Inductive pyoff : Type :=
| OffInt (o : Z)
| OffNone
| OffPair.

Definition off_of (o : option Z) : pyoff :=
  match o with
  | Some z => OffInt z
  | None => OffNone
  end.

(** The decorator [__check_offset]: [fail] is its [(None, None)] in the
    result type of the decorated function; comparing the pair with an int
    raises. *)
Definition __check_offset {A : Type} (stream : bytes) (func : Z -> M A) (fail : A)
  (offset : pyoff) : M A :=
  match offset with
  | OffNone => ret fail
  | OffInt o => if o <? len stream then func o else ret fail
  | OffPair => raise TypeError
  end.

(** [except Exception: return None, None] *)
Definition catch {A : Type} (c : M A) : option A :=
  match c with
  | inl _ => None
  | inr a => Some a
  end.

(** [except struct.error: return None, None]; other exceptions go on. *)
Definition catch_struct_error {A : Type} (c : M A) : M (option A) :=
  match c with
  | inl struct_error => ret None
  | inl e => raise e
  | inr a => ret (Some a)
  end.

(** [obj.field] where [obj] may be [None] *)
Definition attr {A : Type} (obj : option A) : M A :=
  match obj with
  | Some a => ret a
  | None => raise AttributeError
  end.

(** ** Sentinel booleans *)

(** The [try] block of [__parse_Bool] *)
Definition parse_Bool_body (stream : bytes) (offset : Z) : M (bool * Z) :=
  let buffer := slice stream offset (offset + 2) in
  if bytes_eqb buffer [xff; xff] then ret (true, offset + 2)
  else if bytes_eqb buffer [x00; x00] then ret (false, offset + 2)
  else raise (ValueError "Invalid Boolean value").

Definition __parse_Bool (stream : bytes) (offset : pyoff) : M (option (bool * Z)) :=
  __check_offset stream (fun o => ret (catch (parse_Bool_body stream o))) None offset.

Definition __wrap_Bool (b : bool) : bytes * Z :=
  ((if b then [xff; xff] else [x00; x00]), 2).

(** ** Length-prefixed strings *)

(** The [try] block of [__parse_bstr].  The format ['<{}s'.format(size)]
    with a negative [size] is refused by [struct.calcsize]. *)
Definition parse_bstr_body (stream : bytes) (offset : Z) : M (pystr * Z) :=
  v <- unpack_from [Fh] stream (Some offset) ;;
  let size := geti v 0 in
  let offset := offset + 2 in
  str <- (if 0 <=? size then
            b <- unpack_from [Fs (Z.to_nat size)] stream (Some offset) ;;
            utf8_decode (getb b 0)
          else ret []) ;;
  if size <? 0 then raise struct_error else ret (str, offset + size).

Definition __parse_bstr (stream : bytes) (offset : pyoff) : M (option (pystr * Z)) :=
  __check_offset stream (fun o => catch_struct_error (parse_bstr_body stream o))
    None offset.

(** What [__wrap_bstr] can be handed *)
Inductive pyarg : Type :=
| ArgStr (s : pystr)
| ArgBytes (b : bytes)
| ArgNone.

(** The [try] block of [__wrap_bstr]: only the [str] branch binds
    [byteStreamLength]; for anything but [bytes] and [str] nothing is
    bound at the [return]. *)
Definition wrap_bstr_body (string : pyarg) : M (bytes * Z) :=
  match string with
  | ArgBytes b =>
      hd <- pack [Fh] [VInt (len b)] ;;
      tl <- pack [Fs (List.length b)] [VBytes b] ;;
      raise UnboundLocalError
  | ArgStr s =>
      bstr <- utf8_encode s ;;
      let size := len bstr in
      hd <- pack [Fh] [VInt size] ;;
      tl <- pack [Fs (List.length bstr)] [VBytes bstr] ;;
      let byteStream := hd ++ tl in
      ret (byteStream, len byteStream)
  | ArgNone => raise UnboundLocalError
  end.

Definition __wrap_bstr (string : pyarg) : M (option (bytes * Z)) :=
  catch_struct_error (wrap_bstr_body string).

(** ** The timestamp of nine shorts *)

Definition __parse_ASDFilewhen (when : list sval) : M (datetime.t * Z) :=
  let seconds := geti when 0 in
  let minutes := geti when 1 in
  let hour := geti when 2 in
  let day := geti when 3 in
  let month := geti when 4 in
  let year := geti when 5 in
  let daylighSavingsFlag := geti when 8 in
  let year := if year <? 1900 then year + 1900 else year in
  date_datetime <- datetime_new year (month + 1) day hour minutes seconds ;;
  ret (date_datetime, daylighSavingsFlag).

Definition __wrap_ASDFilewhen (when : datetime.t) (isDaylightSaving : Z) : M bytes :=
  let seconds := datetime.second when in
  let minutes := datetime.minute when in
  let hour := datetime.hour when in
  let day := datetime.day when in
  let month := datetime.month when - 1 in
  let year := datetime.year when in
  let year := if 1900 <=? year then datetime.year when - 1900 else year in
  let weekDay := (weekday when + 1) mod 7 in
  let daysInYear := days_since_new_year when in
  pack (repeat Fh 9)
    [VInt seconds; VInt minutes; VInt hour; VInt day; VInt month; VInt year;
     VInt weekDay; VInt daysInYear; VInt isDaylightSaving].

(** ** Metadata *)

(** ['<157s 18s b b b b l b l f f b b b b b H 128s 56s L h h H H f f f f h b 4b H H H b L H H H H f f 27s 5b'] *)
Definition asdMetadataFormat : list fcode :=
  [Fs 157; Fs 18; Fb; Fb; Fb; Fb; Fl; Fb; Fl; Ff; Ff; Fb; Fb; Fb; Fb; Fb;
   FH; Fs 128; Fs 56; FL; Fh; Fh; FH; FH; Ff; Ff; Ff; Ff; Fh; Fb; Fb; Fb;
   Fb; Fb; FH; FH; FH; Fb; FL; FH; FH; FH; FH; Ff; Ff; Fs 27; Fb; Fb; Fb;
   Fb; Fb].

(** The [try] block of [__parse_metadata] *)
Definition parse_metadata_body (stream : bytes) (offset : Z) (self : ASDFile)
  : M (ASDFile * Z) :=
  v <- unpack_from asdMetadataFormat stream (Some offset) ;;
  let comments := strip0 (getb v 0) in
  w <- unpack_from (repeat Fh 9) (getb v 1) (Some 0) ;;
  wd <- __parse_ASDFilewhen w ;;
  let ByteStream := slice_to stream 484 in
  let ByteStreamLength := len ByteStream in
  let offset := offset + 481 in
  ret (set_metadata self (Some (asdMetadatainfo._make
         comments (fst wd) (snd wd) (geti v 2) (geti v 3) (geti v 4) (geti v
         5) (fromtimestamp (geti v 6)) (geti v 7) (fromtimestamp (geti v 8))
         (getf v 9) (getf v 10) (geti v 11) (geti v 12) (geti v 13) (geti v
         14) (geti v 15) (geti v 16) (getb v 17) (getb v 18) (geti v 19)
         (geti v 20) (geti v 21) (geti v 22) (geti v 23) (getf v 24) (getf v
         25) (getf v 26) (getf v 27) (geti v 28) (geti v 29) (geti v 30)
         (geti v 31) (geti v 32) (geti v 33) (geti v 34) (geti v 35) (geti v
         36) (geti v 37) (geti v 38) (geti v 39) (geti v 40) (geti v 41)
         (geti v 42) (getf v 43) (getf v 44) (getb v 45) (geti v 46) (geti v
         47) (geti v 48) (geti v 49) (geti v 50) ByteStream
         ByteStreamLength)),
       offset).

(** The [struct.pack] call of [__wrap_metadata] *)
Definition wrap_metadata_body (md : asdMetadatainfo.t) : M bytes :=
  when_bytes <- __wrap_ASDFilewhen (asdMetadatainfo.when md)
                  (asdMetadatainfo.daylighSavingsFlag md) ;;
  pack asdMetadataFormat
    [VBytes (ljust0 157 (asdMetadatainfo.comments md));
     VBytes when_bytes;
     VInt (asdMetadatainfo.programVersion md);
     VInt (asdMetadatainfo.fileVersion md);
     VInt (asdMetadatainfo.iTime md);
     VInt (asdMetadatainfo.darkCorrected md);
     VInt (timestamp (asdMetadatainfo.darkTime md));
     VInt (asdMetadatainfo.dataType md);
     VInt (timestamp (asdMetadatainfo.referenceTime md));
     VFloat (asdMetadatainfo.channel1Wavelength md);
     VFloat (asdMetadatainfo.wavelengthStep md);
     VInt (asdMetadatainfo.dataFormat md);
     VInt (asdMetadatainfo.old_darkCurrentCount md);
     VInt (asdMetadatainfo.old_refCount md);
     VInt (asdMetadatainfo.old_sampleCount md);
     VInt (asdMetadatainfo.application md);
     VInt (asdMetadatainfo.channels md);
     VBytes (ljust0 128 (asdMetadatainfo.appData_str md));
     VBytes (ljust0 56 (asdMetadatainfo.gpsData_str md));
     VInt (asdMetadatainfo.intergrationTime_ms md);
     VInt (asdMetadatainfo.fo md);
     VInt (asdMetadatainfo.darkCurrentCorrention md);
     VInt (asdMetadatainfo.calibrationSeries md);
     VInt (asdMetadatainfo.instrumentNum md);
     VFloat (asdMetadatainfo.yMin md);
     VFloat (asdMetadatainfo.yMax md);
     VFloat (asdMetadatainfo.xMin md);
     VFloat (asdMetadatainfo.xMax md);
     VInt (asdMetadatainfo.ipNumBits md);
     VInt (asdMetadatainfo.xMode md);
     VInt (asdMetadatainfo.flags1 md);
     VInt (asdMetadatainfo.flags2 md);
     VInt (asdMetadatainfo.flags3 md);
     VInt (asdMetadatainfo.flags4 md);
     VInt (asdMetadatainfo.darkCurrentCount md);
     VInt (asdMetadatainfo.refCount md);
     VInt (asdMetadatainfo.sampleCount md);
     VInt (asdMetadatainfo.instrument md);
     VInt (asdMetadatainfo.calBulbID md);
     VInt (asdMetadatainfo.swir1Gain md);
     VInt (asdMetadatainfo.swir2Gain md);
     VInt (asdMetadatainfo.swir1Offset md);
     VInt (asdMetadatainfo.swir2Offset md);
     VFloat (asdMetadatainfo.splice1_wavelength md);
     VFloat (asdMetadatainfo.splice2_wavelength md);
     VBytes (ljust0 27 (asdMetadatainfo.smartDetectorType md));
     VInt (asdMetadatainfo.spare1 md);
     VInt (asdMetadatainfo.spare2 md);
     VInt (asdMetadatainfo.spare3 md);
     VInt (asdMetadatainfo.spare4 md);
     VInt (asdMetadatainfo.spare5 md)].

(** What a [__wrap_*] method returns: the pair of bytes and length, the
    pair [(None, None)], or the [False] of [__wrap_metadata]. *)
Inductive wrapped : Type :=
| Wrapped (byteStream : bytes) (byteStreamLength : Z)
| WrappedNone
| WrappedFalse.

Definition __parse_metadata (stream : bytes) (self : ASDFile) (offset : pyoff)
  : M (ASDFile * pyoff) :=
  __check_offset stream
    (fun o => ret match parse_metadata_body stream o self with
                  | inr (self', o') => (self', OffInt o')
                  | inl _ => (self, OffNone)
                  end)
    (self, OffPair) offset.

Definition __wrap_metadata (self : ASDFile) : wrapped :=
  match (md <- attr (metadata self) ;; wrap_metadata_body md) with
  | inr byteStream =>
      if len byteStream =? 481 then Wrapped byteStream 481 else WrappedNone
  | inl _ => WrappedFalse
  end.

(** The name that received [None] from an unpacked [(None, None)] is next
    used where an int is required ([struct.unpack_from], [+=]), which
    raises [TypeError]; the calls in between are decorated parsers handed
    [None], which have no effect. *)
Definition or_TypeError {A : Type} (r : option A) : M A :=
  match r with
  | Some a => ret a
  | None => raise TypeError
  end.

(** ** Spectrum arrays *)

(** ['<{}d'.format(channels)] *)
Definition doubles_format (channels : Z) : M (list fcode) :=
  if channels <? 0 then raise struct_error else ret (repeat Fd (Z.to_nat channels)).

(** The [try] block of [__parse_spectra]; the slice is taken after the
    offset has been advanced. *)
Definition parse_spectra_body (stream : bytes) (self : ASDFile) (offset : Z)
  : M (list float * bytes * Z * Z) :=
  md <- attr (metadata self) ;;
  fmt <- doubles_format (asdMetadatainfo.channels md) ;;
  v <- unpack_from fmt stream (Some offset) ;;
  let spectra := map as_float v in
  let offset := offset + asdMetadatainfo.channels md * 8 in
  let spectrumDataStream :=
    slice stream offset (offset + asdMetadatainfo.channels md * 8) in
  let spectrumDataStreamLength := len spectrumDataStream in
  ret (spectra, spectrumDataStream, spectrumDataStreamLength, offset).

(** The four values of [__parse_spectra], its four [None]s, or the two
    [None]s of the decorator. *)
Inductive spectra_result : Type :=
| SpectraOk (spectra : list float) (byteStream : bytes) (byteStreamLength : Z)
    (offset : Z)
| SpectraNone4
| SpectraNone2.

Definition __parse_spectra (stream : bytes) (self : ASDFile) (offset : pyoff)
  : M spectra_result :=
  __check_offset stream
    (fun o => ret match parse_spectra_body stream self o with
                  | inr (spectra, bs, n, o') => SpectraOk spectra bs n o'
                  | inl _ => SpectraNone4
                  end)
    SpectraNone2 offset.

Definition __wrap_spectra (self : ASDFile) (spectra : option (list float)) : wrapped :=
  match (md <- attr (metadata self) ;;
         fmt <- doubles_format (asdMetadatainfo.channels md) ;;
         arr <- or_TypeError spectra ;;
         b <- pack fmt (map VFloat arr) ;;
         ret (b, asdMetadatainfo.channels md * 8)) with
  | inr (b, n) => Wrapped b n
  | inl _ => WrappedNone
  end.

(** The common shape of [__parse_spectrumData] and [__parse_referenceData]:
    [store] is the assignment to [self.spectrumData] or
    [self.referenceData].  Unpacking the decorator's pair into four names
    raises, which the [except] turns into [None]. *)
Definition parse_spectrum_section (store : ASDFile -> option spectrumDataInfo.t -> ASDFile)
  (stream : bytes) (self : ASDFile) (offset : pyoff) : M (ASDFile * pyoff) :=
  __check_offset stream
    (fun o => ret match __parse_spectra stream self (OffInt o) with
                  | inr (SpectraOk spectra bs n o') =>
                      (store self (Some (spectrumDataInfo._make (Some spectra) (Some bs) (Some n))),
                       OffInt o')
                  | inr SpectraNone4 =>
                      (store self (Some (spectrumDataInfo._make None None None)), OffNone)
                  | inr SpectraNone2 => (self, OffNone)
                  | inl _ => (self, OffNone)
                  end)
    (self, OffPair) offset.

Definition __parse_spectrumData := parse_spectrum_section set_spectrumData.
Definition __parse_referenceData := parse_spectrum_section set_referenceData.

Definition __wrap_spectrumData (self : ASDFile) : wrapped :=
  match spectrumData self with
  | Some sd => __wrap_spectra self (spectrumDataInfo.spectra sd)
  | None => WrappedNone
  end.

Definition __wrap_referenceData (self : ASDFile) : wrapped :=
  match referenceData self with
  | Some rd => __wrap_spectra self (spectrumDataInfo.spectra rd)
  | None => WrappedNone
  end.

(** ** Reference file header *)

(** The [try] block of [__parse_referenceFileHeader].  A failed
    description leaves [offset] at [None], so the recorded slice runs to
    the end of the stream and the record is stored all the same. *)
Definition parse_referenceFileHeader_body (stream : bytes) (self : ASDFile) (offset : Z)
  : M (ASDFile * pyoff) :=
  let initOffset := offset in
  r <- __parse_Bool stream (OffInt offset) ;;
  '(referenceFlag, offset) <- or_TypeError r ;;
  v <- unpack_from [Fq; Fq] stream (Some offset) ;;
  let offset := offset + calcsize [Fq; Fq] in
  d <- __parse_bstr stream (OffInt offset) ;;
  let referenceDescription := option_map fst d in
  let offset := option_map snd d in
  let byteStream := slice_opt stream initOffset offset in
  let byteStreamLength := len byteStream in
  ret (set_referenceFileHeader self
         (Some (asdreferenceFileHeaderInfo._make referenceFlag (geti v 0) (geti v 1)
                  referenceDescription byteStream byteStreamLength)),
       off_of offset).

Definition __parse_referenceFileHeader (stream : bytes) (self : ASDFile) (offset : pyoff)
  : M (ASDFile * pyoff) :=
  __check_offset stream
    (fun o => ret match parse_referenceFileHeader_body stream self o with
                  | inr r => r
                  | inl _ => (self, OffNone)
                  end)
    (self, OffPair) offset.

Definition arg_of (s : option pystr) : pyarg :=
  match s with
  | Some x => ArgStr x
  | None => ArgNone
  end.

Definition __wrap_referenceFileHeader (self : ASDFile) : wrapped :=
  match (h <- attr (referenceFileHeader self) ;;
         let '(referenceFlagBytes, byteStreamLength) :=
           __wrap_Bool (asdreferenceFileHeaderInfo.referenceFlag h) in
         timeBytes <- pack [Fq; Fq]
                        [VInt (asdreferenceFileHeaderInfo.referenceTime h);
                         VInt (asdreferenceFileHeaderInfo.spectrumTime h)] ;;
         let byteStreamLength := byteStreamLength + calcsize [Fq; Fq] in
         d <- __wrap_bstr (arg_of (asdreferenceFileHeaderInfo.referenceDescription h)) ;;
         '(DescriptionBytes, lengthstr) <- or_TypeError d ;;
         ret (referenceFlagBytes ++ timeBytes ++ DescriptionBytes,
              byteStreamLength + lengthstr)) with
  | inr (b, n) => Wrapped b n
  | inl _ => WrappedNone
  end.

(** ** Classifier data *)

(** [n] successive [x, offset = self.__parse_bstr(offset)] *)
Fixpoint bstr_fields (n : nat) (stream : bytes) (offset : Z) : M (list pystr * Z) :=
  match n with
  | O => ret ([], offset)
  | S k =>
      r <- __parse_bstr stream (OffInt offset) ;;
      '(s, offset) <- or_TypeError r ;;
      '(rest, offset) <- bstr_fields k stream offset ;;
      ret (s :: rest, offset)
  end.

(** ['<d d d d d d d d d l d d'] *)
Definition constituantFormat : list fcode :=
  [Fd; Fd; Fd; Fd; Fd; Fd; Fd; Fd; Fd; Fl; Fd; Fd].

(** The [try] block of [__parse_constituantType] *)
Definition parse_constituantType_body (stream : bytes) (offset : Z)
  : M (merterialReportInfo.t * Z) :=
  '(names, offset) <- bstr_fields 2 stream offset ;;
  v <- unpack_from constituantFormat stream (Some offset) ;;
  ret (merterialReportInfo._make (nth 0%nat names []) (nth 1%nat names [])
         (getf v 0) (getf v 1) (getf v 2) (getf v 3) (getf v 4) (getf v 5)
         (getf v 6) (getf v 7) (getf v 8) (geti v 9) (getf v 10) (getf v 11),
       offset + calcsize constituantFormat).

Definition __parse_constituantType (stream : bytes) (offset : pyoff)
  : M (option (merterialReportInfo.t * Z)) :=
  __check_offset stream (fun o => ret (catch (parse_constituantType_body stream o)))
    None offset.

(** The loop [for i in range(constituantCount_int)]: a failed item is
    appended as [None] and leaves [offset] at [None]. *)
Fixpoint parse_constituants (n : nat) (stream : bytes) (offset : option Z)
  : M (list (option merterialReportInfo.t) * option Z) :=
  match n with
  | O => ret ([], offset)
  | S k =>
      r <- __parse_constituantType stream (off_of offset) ;;
      '(rest, offset') <- parse_constituants k stream (option_map snd r) ;;
      ret (option_map fst r :: rest, offset')
  end.

(** The [try] block of [__parse_classifierData] *)
Definition parse_classifierData_body (stream : bytes) (self : ASDFile) (offset : Z)
  : M (ASDFile * pyoff) :=
  let initOffset := offset in
  v <- unpack_from [Fb; Fb] stream (Some offset) ;;
  let offset := offset + calcsize [Fb; Fb] in
  '(s, offset) <- bstr_fields 20 stream offset ;;
  c <- unpack_from [FH] stream (Some offset) ;;
  let constituantCount_int := geti c 0 in
  let offset := offset + calcsize [FH] in
  '(constituantItems, offset) <-
     (if 0 <? constituantCount_int
      then parse_constituants (Z.to_nat constituantCount_int) stream (Some (offset + 10))
      else ret ([], Some (offset + 2))) ;;
  let byteStream := slice_opt stream initOffset offset in
  let byteStreamLength := len byteStream in
  let f := fun k => nth k s [] in
  ret (set_classifierData self
         (Some (asdClassifierDataInfo._make (geti v 0) (geti v 1)
                  (f 0%nat) (f 1%nat) (f 2%nat) (f 3%nat) (f 4%nat) (f 5%nat)
                  (f 6%nat) (f 7%nat) (f 8%nat) (f 9%nat) (f 10%nat) (f 11%nat)
                  (f 12%nat) (f 13%nat) (f 14%nat) (f 15%nat) (f 16%nat)
                  (f 17%nat) (f 18%nat) (f 19%nat)
                  constituantCount_int constituantItems byteStream byteStreamLength)),
       off_of offset).

Definition __parse_classifierData (stream : bytes) (self : ASDFile) (offset : pyoff)
  : M (ASDFile * pyoff) :=
  __check_offset stream
    (fun o => ret match parse_classifierData_body stream self o with
                  | inr r => r
                  | inl _ => (self, OffNone)
                  end)
    (self, OffPair) offset.

(** [b, _ = self.__wrap_bstr(s)] followed by the use of [b] in a
    concatenation of bytes *)
Definition wrap_bstr_bytes (s : pystr) : M bytes :=
  r <- __wrap_bstr (ArgStr s) ;;
  '(b, _) <- or_TypeError r ;;
  ret b.

Fixpoint wrap_bstrs (l : list pystr) : M bytes :=
  match l with
  | [] => ret []
  | s :: r =>
      b <- wrap_bstr_bytes s ;;
      rest <- wrap_bstrs r ;;
      ret (b ++ rest)
  end.

(** The dimension header written before an array: [H] rank 1, [I] the
    element count, [I] zero *)
Definition dimension_header (count : Z) : M bytes :=
  a <- pack [FH] [VInt 1] ;;
  b <- pack [FI] [VInt count] ;;
  c <- pack [FI] [VInt 0] ;;
  ret (a ++ b ++ c).

Definition wrap_constituantType_body (item : option merterialReportInfo.t) : M bytes :=
  it <- attr item ;;
  names <- wrap_bstrs [merterialReportInfo.constituentName it;
                       merterialReportInfo.passFail it] ;;
  constituentPartial <-
    pack constituantFormat
      [VFloat (merterialReportInfo.mDistance it);
       VFloat (merterialReportInfo.mDistanceLimit it);
       VFloat (merterialReportInfo.concentration it);
       VFloat (merterialReportInfo.concentrationLimit it);
       VFloat (merterialReportInfo.fRatio it);
       VFloat (merterialReportInfo.residual it);
       VFloat (merterialReportInfo.residualLimit it);
       VFloat (merterialReportInfo.scores it);
       VFloat (merterialReportInfo.scoresLimit it);
       VInt (merterialReportInfo.modelType it);
       VFloat (merterialReportInfo.reserved1 it);
       VFloat (merterialReportInfo.reserved2 it)] ;;
  ret (names ++ constituentPartial).

(** [item_packed, _ = self.__wrap_constituantType(items[i])] for
    [i in range(count)]; an index past the list raises. *)
Fixpoint wrap_constituants (n : nat) (items : list (option merterialReportInfo.t))
  : M bytes :=
  match n with
  | O => ret []
  | S k =>
      match items with
      | [] => raise IndexError
      | it :: r =>
          b <- or_TypeError (catch (wrap_constituantType_body it)) ;;
          rest <- wrap_constituants k r ;;
          ret (b ++ rest)
      end
  end.

Definition __wrap_classifierData (self : ASDFile) : wrapped :=
  match (c <- attr (classifierData self) ;;
         calssifierData_1 <- pack [Fb; Fb] [VInt (asdClassifierDataInfo.yCode c);
                                            VInt (asdClassifierDataInfo.yModelType c)] ;;
         strs <- wrap_bstrs
                   [asdClassifierDataInfo.title c; asdClassifierDataInfo.subtitle c;
                    asdClassifierDataInfo.productName c; asdClassifierDataInfo.vendor c;
                    asdClassifierDataInfo.lotNumber c; asdClassifierDataInfo.sample c;
                    asdClassifierDataInfo.modelName c; asdClassifierDataInfo.operator c;
                    asdClassifierDataInfo.dateTime c; asdClassifierDataInfo.instrument c;
                    asdClassifierDataInfo.serialNumber c; asdClassifierDataInfo.displayMode c;
                    asdClassifierDataInfo.comments c; asdClassifierDataInfo.units c;
                    asdClassifierDataInfo.filename c; asdClassifierDataInfo.username c;
                    asdClassifierDataInfo.reserved1 c; asdClassifierDataInfo.reserved2 c;
                    asdClassifierDataInfo.reserved3 c; asdClassifierDataInfo.reserved4 c] ;;
         let count := asdClassifierDataInfo.constituantCount c in
         constituantCount_bstr <- pack [FH] [VInt count] ;;
         constituantByteStream <-
           (if 0 <? count then
              d <- dimension_header count ;;
              items <- wrap_constituants (Z.to_nat count)
                         (asdClassifierDataInfo.constituantItems c) ;;
              ret (d ++ items)
            else if count =? 0 then ret [x00; x00]
            else ret []) ;;
         let ByteStream := calssifierData_1 ++ strs ++ constituantCount_bstr
                           ++ constituantByteStream in
         ret (ByteStream, len ByteStream)) with
  | inr (b, n) => Wrapped b n
  | inl _ => WrappedNone
  end.

(** ** Dependent variables *)

(** The loop reading [n] values with ['<f'] *)
Fixpoint parse_dependent_values (n : nat) (stream : bytes) (offset : Z)
  : M (list float * Z) :=
  match n with
  | O => ret ([], offset)
  | S k =>
      v <- unpack_from [Ff] stream (Some offset) ;;
      '(rest, offset') <- parse_dependent_values k stream (offset + calcsize [Ff]) ;;
      ret (getf v 0 :: rest, offset')
  end.

(** The [try] block of [__parse_dependentVariables]; with a negative
    count neither branch runs and nothing is stored. *)
Definition parse_dependentVariables_body (stream : bytes) (self : ASDFile) (offset : Z)
  : M (ASDFile * pyoff) :=
  let initOffset := offset in
  r <- __parse_Bool stream (OffInt offset) ;;
  '(saveDependentVariables, offset) <- or_TypeError r ;;
  c <- unpack_from [Fh] stream (Some offset) ;;
  let dependentVariableCount := geti c 0 in
  let offset := offset + calcsize [Fh] in
  if 0 <? dependentVariableCount then
    let offset := offset + 10 in
    '(labels, offset) <- bstr_fields (Z.to_nat dependentVariableCount) stream offset ;;
    let offset := offset + 10 in
    '(values, offset) <- parse_dependent_values (Z.to_nat dependentVariableCount)
                           stream offset ;;
    ret (set_dependants self
           (Some (dependantInfo._make saveDependentVariables dependentVariableCount
                    (LabelList labels) (ValueList values)
                    (slice stream initOffset offset)
                    (len (slice stream initOffset offset)))),
         OffInt offset)
  else if dependentVariableCount =? 0 then
    let offset := offset + 4 in
    ret (set_dependants self
           (Some (dependantInfo._make saveDependentVariables dependentVariableCount
                    (LabelBytes []) (ValueInt 0)
                    (slice stream initOffset offset)
                    (len (slice stream initOffset offset)))),
         OffInt offset)
  else ret (self, OffInt offset).

Definition __parse_dependentVariables (stream : bytes) (self : ASDFile) (offset : pyoff)
  : M (ASDFile * pyoff) :=
  __check_offset stream
    (fun o => ret match parse_dependentVariables_body stream self o with
                  | inr r => r
                  | inl _ => (self, OffNone)
                  end)
    (self, OffPair) offset.

(** [labels[i]] handed to [__wrap_bstr] for [i in range(n)] *)
Fixpoint wrap_dependent_labels (n : nat) (labels : list pystr) : M bytes :=
  match n with
  | O => ret []
  | S k =>
      match labels with
      | [] => raise IndexError
      | s :: r =>
          b <- wrap_bstr_bytes s ;;
          rest <- wrap_dependent_labels k r ;;
          ret (b ++ rest)
      end
  end.

(** The values loop of [__wrap_dependentVariables]: after packing the
    value, [_ += struct.calcsize('<f')] adds an int to the length the last
    [__wrap_bstr] returned. *)
Fixpoint wrap_dependent_values (n : nat) (values : list float) : M bytes :=
  match n with
  | O => ret []
  | S k =>
      match values with
      | [] => raise IndexError
      | x :: r =>
          b <- pack [Ff] [VFloat x] ;;
          rest <- wrap_dependent_values k r ;;
          ret (b ++ rest)
      end
  end.

Definition __wrap_dependentVariables (self : ASDFile) : wrapped :=
  match (d <- attr (dependants self) ;;
         let '(byteStream, _) := __wrap_Bool (dependantInfo.saveDependentVariables d) in
         let count := dependantInfo.dependentVariableCount d in
         c <- pack [Fh] [VInt count] ;;
         let byteStream := byteStream ++ c in
         byteStream <-
           (if 0 <? count then
              h1 <- dimension_header count ;;
              labels <- match dependantInfo.dependentVariableLabels d with
                        | LabelList l => wrap_dependent_labels (Z.to_nat count) l
                        | LabelBytes _ => raise IndexError
                        end ;;
              h2 <- dimension_header count ;;
              values <- match dependantInfo.dependentVariableValue d with
                        | ValueList l => wrap_dependent_values (Z.to_nat count) l
                        | ValueInt _ => raise TypeError
                        end ;;
              ret (byteStream ++ h1 ++ labels ++ h2 ++ values)
            else if count =? 0 then ret (byteStream ++ [x00; x00; x00; x00])
            else ret byteStream) ;;
         ret (byteStream, len byteStream)) with
  | inr (b, n) => Wrapped b n
  | inl _ => WrappedNone
  end.

(** ** Calibration header *)

(** ['<b 20s i h h'] *)
Definition calibrationSeries_buffer_format : list fcode := [Fb; Fs 20; Fi; Fh; Fh].

Fixpoint parse_calibrationSeries (n : nat) (stream : bytes) (offset : Z)
  : M (list calibrationSerie * Z) :=
  match n with
  | O => ret ([], offset)
  | S k =>
      v <- unpack_from calibrationSeries_buffer_format stream (Some offset) ;;
      let name := strip0 (getb v 1) in
      '(rest, offset') <- parse_calibrationSeries k stream
                            (offset + calcsize calibrationSeries_buffer_format) ;;
      ret ((geti v 0, name, geti v 2, geti v 3, geti v 4) :: rest, offset')
  end.

(** The [try] block of [__parse_calibrationHeader] *)
Definition parse_calibrationHeader_body (stream : bytes) (self : ASDFile) (offset : Z)
  : M (ASDFile * pyoff) :=
  c <- unpack_from [Fb] stream (Some offset) ;;
  let calibrationHeaderCount := geti c 0 in
  let byteStream :=
    slice stream offset
      (offset + calcsize [Fb]
       + calcsize calibrationSeries_buffer_format * calibrationHeaderCount) in
  let byteStreamLength := len byteStream in
  let offset := offset + calcsize [Fb] in
  if 0 <? calibrationHeaderCount then
    '(calibrationSeries, offset) <-
       parse_calibrationSeries (Z.to_nat calibrationHeaderCount) stream offset ;;
    ret (set_calibrationHeader self
           (Some (calibrationHeaderInfo._make calibrationHeaderCount calibrationSeries
                    byteStream byteStreamLength)),
         OffInt offset)
  else
    ret (set_calibrationHeader self
           (Some (calibrationHeaderInfo._make calibrationHeaderCount []
                    byteStream byteStreamLength)),
         OffInt offset).

Definition __parse_calibrationHeader (stream : bytes) (self : ASDFile) (offset : pyoff)
  : M (ASDFile * pyoff) :=
  __check_offset stream
    (fun o => ret match parse_calibrationHeader_body stream self o with
                  | inr r => r
                  | inl _ => (self, OffNone)
                  end)
    (self, OffPair) offset.

Fixpoint wrap_calibrationSeries (l : list calibrationSerie) : M bytes :=
  match l with
  | [] => ret []
  | (ty, cbname, it, g1, g2) :: r =>
      b <- pack calibrationSeries_buffer_format
             [VInt ty; VBytes (ljust0 20 cbname); VInt it; VInt g1; VInt g2] ;;
      rest <- wrap_calibrationSeries r ;;
      ret (b ++ rest)
  end.

Definition __wrap_calibrationHeader (self : ASDFile) : wrapped :=
  match (h <- attr (calibrationHeader self) ;;
         n <- pack [Fb] [VInt (calibrationHeaderInfo.calibrationNum h)] ;;
         series <- (if 0 <? calibrationHeaderInfo.calibrationNum h
                    then wrap_calibrationSeries (calibrationHeaderInfo.calibrationSeries h)
                    else ret []) ;;
         let calibrationSeriesBytes := n ++ series in
         ret (calibrationSeriesBytes, len calibrationSeriesBytes)) with
  | inr (b, n) => Wrapped b n
  | inl _ => WrappedNone
  end.

(** ** Signature *)

(** The [try] block of [__parse_signature] *)
Definition parse_signature_body (stream : bytes) (self : ASDFile) (offset : Z)
  : M (ASDFile * pyoff) :=
  let initOffset := offset in
  sg <- unpack_from [Fb] stream (Some offset) ;;
  let offset := offset + calcsize [Fb] in
  t <- unpack_from [Fq] stream (Some offset) ;;
  let offset := offset + calcsize [Fq] in
  '(s, offset) <- bstr_fields 7 stream offset ;;
  sig <- unpack_from [Fs 128] stream (Some offset) ;;
  let offset := offset + calcsize [Fs 128] in
  let byteStream := slice stream initOffset offset in
  let byteStreamLength := len byteStream in
  let f := fun k => nth k s [] in
  ret (set_signature self
         (Some (signatureInfo._make (geti sg 0) (geti t 0)
                  (f 0%nat) (f 1%nat) (f 2%nat) (f 3%nat) (f 4%nat) (f 5%nat) (f 6%nat)
                  (getb sig 0) byteStream byteStreamLength)),
       OffInt offset).

Definition __parse_signature (stream : bytes) (self : ASDFile) (offset : pyoff)
  : M (ASDFile * pyoff) :=
  __check_offset stream
    (fun o => ret match parse_signature_body stream self o with
                  | inr r => r
                  | inl _ => (self, OffNone)
                  end)
    (self, OffPair) offset.

Definition __wrap_signature (self : ASDFile) : wrapped :=
  match (g <- attr (signature self) ;;
         signedBytes <- pack [Fb] [VInt (signatureInfo.signed g)] ;;
         signatureTimeBytes <- pack [Fq] [VInt (signatureInfo.signatureTime g)] ;;
         strs <- wrap_bstrs
                   [signatureInfo.userDomain g; signatureInfo.userLogin g;
                    signatureInfo.userName g; signatureInfo.source g;
                    signatureInfo.reason g; signatureInfo.notes g;
                    signatureInfo.publicKey g] ;;
         signatureBytes <- pack [Fs 128] [VBytes (signatureInfo.signature g)] ;;
         let byteStream := signedBytes ++ signatureTimeBytes ++ strs ++ signatureBytes in
         ret (byteStream, len byteStream)) with
  | inr (b, n) => Wrapped b n
  | inl _ => WrappedNone
  end.

(** ** File version *)

Definition version_dict : list (pystr * Z) :=
  [(str_of "Invalid", 0); (str_of "ASD", 1); (str_of "as2", 2); (str_of "as3", 3);
   (str_of "as4", 4); (str_of "as5", 5); (str_of "as6", 6); (str_of "as7", 7);
   (str_of "as8", 8)].

Fixpoint dict_get (d : list (pystr * Z)) (k : pystr) : option Z :=
  match d with
  | [] => None
  | (k', v) :: r => if str_eqb k k' then Some v else dict_get r k
  end.

(** [__validate_fileVersion]; the stream is [None] when no file was read,
    and slicing [None] raises. *)
Definition __validate_fileVersion (stream : option bytes) : Z * Z :=
  match (s <- or_TypeError stream ;;
         version_data <- utf8_decode (slice_to s 3) ;;
         match dict_get version_dict version_data with
         | Some fileversion => ret fileversion
         | None => raise (ValueError "Unsupport File Version")
         end) with
  | inr fileversion => (fileversion, 3)
  | inl _ => (-1, 3)
  end.

Fixpoint decimal_digits (fuel : nat) (z : Z) (acc : pystr) : pystr :=
  match fuel with
  | O => acc
  | S k =>
      let acc' := (48 + z mod 10) :: acc in
      if z <? 10 then acc' else decimal_digits k (z / 10) acc'
  end.

(** [str(z)] for a positive int *)
Definition str_of_Z (z : Z) : pystr := decimal_digits (Z.to_nat (Z.log2 z + 1)) z [].

(** [__setFileVersion], called under [asdFileVersion > 0] *)
Definition __setFileVersion (self : ASDFile) : M (bytes * Z) :=
  versionBytes <- (if asdFileVersion self =? 1 then utf8_encode (str_of "ASD")
                   else if 1 <? asdFileVersion self
                   then utf8_encode (str_of "as" ++ str_of_Z (asdFileVersion self))
                   else raise UnboundLocalError) ;;
  ret (versionBytes, 3).

(** ** [np.arange] and the wavelength axis *)

(** The ceiling of a float as an int; [None] for NaN and the infinities *)
Definition ceil_of_float (x : float) : option Z :=
  match x with
  | S754_zero _ => Some 0
  | S754_finite s m e =>
      if 0 <=? e then Some (if s then - (Zpos m * 2 ^ e) else Zpos m * 2 ^ e)
      else
        let q := Zpos m / 2 ^ (- e) in
        if s then Some (- q)
        else if Zpos m mod 2 ^ (- e) =? 0 then Some q else Some (q + 1)
  | _ => None
  end.

(** [np.arange(start, stop, step)] on Python floats: the length is the
    ceiling of [(stop - start) / step], computed on Python objects (a zero
    step raises [ZeroDivisionError]; a quotient that is NaN, infinite or
    outside the range of the index type raises as well); the values are
    [start + i * delta] with [delta] the difference of the first two. *)
Definition np_arange (start stop step : float) : M (list float) :=
  if is_zero step then raise ZeroDivisionError
  else
    match ceil_of_float (fdiv (fsub stop start) step) with
    | None =>
        match fdiv (fsub stop start) step with
        | S754_nan => raise (ValueError "arange: cannot compute length")
        | _ => raise OverflowError
        end
    | Some n =>
        if (n <? - 2 ^ 63) || (2 ^ 63 <=? n) then raise OverflowError
        else
          let next := fadd start step in
          let delta := fsub next start in
          ret (map (fun i : nat =>
                      match i with
                      | O => start
                      | S O => next
                      | _ => fadd start (fmul (float_of_Z (Z.of_nat i)) delta)
                      end)
                   (seq 0 (Z.to_nat n)))
    end.

(** The statement of [read] that sets [__wavelengths] *)
Definition wavelength_axis (self : ASDFile) : M (list float) :=
  md <- attr (metadata self) ;;
  np_arange (asdMetadatainfo.channel1Wavelength md)
    (fadd (asdMetadatainfo.channel1Wavelength md)
       (fmul (float_of_Z (asdMetadatainfo.channels md))
          (asdMetadatainfo.wavelengthStep md)))
    (asdMetadatainfo.wavelengthStep md).

(** ** Audit log, [read] and [write] *)

Section Orchestrator.

Variable host : Host.

(** ['l'] in native mode *)
Definition native_long : fcode := Fint true (sizeof_long host).

Definition __parse_auditEvents (stream : bytes) (offset : pyoff)
  : M (option (list (option auditInfo.t) * Z)) :=
  __check_offset stream
    (fun o =>
       let found := audit_fragments host (slice_from stream o) in
       let auditEventLength := fold_left (fun acc f => acc + (fst f + 2)) found 0 in
       ret (Some (map snd found, auditEventLength)))
    None offset.

(** The [try] block of [__parse_auditLog]; when the count is not positive
    [auditEvents] is unbound at the assignment of the record. *)
Definition parse_auditLog_body (stream : bytes) (self : ASDFile) (offset : Z)
  : M (ASDFile * pyoff) :=
  let initOffset := offset in
  c <- unpack_from [native_long] stream (Some offset) ;;
  let additCount := geti c 0 in
  let offset := offset + calcsize [native_long] in
  if 0 <? additCount then
    let offset := offset + 10 in
    r <- __parse_auditEvents stream (OffInt offset) ;;
    '(auditEvents, auditEventsLength) <- or_TypeError r ;;
    let offset := offset + auditEventsLength in
    ret (set_auditLog self
           (Some (auditLogInfo._make additCount auditEvents
                    (slice stream initOffset offset)
                    (len (slice stream initOffset offset)))),
         OffInt offset)
  else raise UnboundLocalError.

Definition __parse_auditLog (stream : bytes) (self : ASDFile) (offset : pyoff)
  : M (ASDFile * pyoff) :=
  __check_offset stream
    (fun o => ret match parse_auditLog_body stream self o with
                  | inr r => r
                  | inl _ => (self, OffNone)
                  end)
    (self, OffPair) offset.

(** [__wrap_auditLogEvent]: [None] for a [None] event too *)
Definition __wrap_auditLogEvent (event : option auditInfo.t) : option bytes :=
  match event with
  | Some e => audit_tostring host e
  | None => None
  end.

(** The loop of [__wrap_auditEvents], returning the bytes of the last
    event, the value of [auditEvent_bstr] after the loop. *)
Fixpoint wrap_auditEvents_loop (events : list (option auditInfo.t)) (last : option bytes)
  : M (option bytes) :=
  match events with
  | [] => ret last
  | e :: r =>
      b <- or_TypeError (__wrap_auditLogEvent e) ;;
      wrap_auditEvents_loop r (Some b)
  end.

Definition __wrap_auditEvents (auditEvents : list (option auditInfo.t)) : wrapped :=
  match (last <- wrap_auditEvents_loop auditEvents None ;;
         auditEvent_bstr <- match last with
                            | Some b => ret b
                            | None => raise UnboundLocalError
                            end ;;
         hd <- pack [Fh] [VInt (len auditEvent_bstr)] ;;
         let byteStream := hd ++ auditEvent_bstr in
         ret (byteStream, len byteStream)) with
  | inr (b, n) => Wrapped b n
  | inl _ => WrappedNone
  end.

Definition __wrap_auditLog (self : ASDFile) : wrapped :=
  match (a <- attr (auditLog self) ;;
         byteStream <- pack [native_long] [VInt (auditLogInfo.auditCount a)] ;;
         auditBytes <-
           (if 0 <? auditLogInfo.auditCount a then
              d <- dimension_header (auditLogInfo.auditCount a) ;;
              match __wrap_auditEvents (auditLogInfo.auditEvents a) with
              | Wrapped auditEventsBytes _ => ret (d ++ auditEventsBytes)
              | _ => raise TypeError
              end
            else ret []) ;;
         let byteStream := byteStream ++ auditBytes in
         ret (byteStream, len byteStream)) with
  | inr (b, n) => Wrapped b n
  | inl _ => WrappedNone
  end.

(** [try: offset = first(offset) except: log else: try: offset =
    second(offset) except: log].  A decorated parser raises only in its
    decorator, before anything is stored. *)
Definition section_pair (first second : ASDFile -> pyoff -> M (ASDFile * pyoff))
  (st : ASDFile * pyoff) : ASDFile * pyoff :=
  match first (fst st) (snd st) with
  | inl _ => st
  | inr st1 =>
      match second (fst st1) (snd st1) with
      | inl _ => st1
      | inr st2 => st2
      end
  end.

(** The first block of [read]: metadata, the wavelength axis (inside the
    same [try]) and, in the [else], the spectrum. *)
Definition read_metadata_spectrum (stream : bytes) (st : ASDFile * pyoff)
  : ASDFile * pyoff :=
  match __parse_metadata stream (fst st) (snd st) with
  | inl _ => st
  | inr (self1, offset1) =>
      match wavelength_axis self1 with
      | inl _ => (self1, offset1)
      | inr w =>
          let self2 := set_wavelengths self1 (Some w) in
          match __parse_spectrumData stream self2 offset1 with
          | inl _ => (self2, offset1)
          | inr st2 => st2
          end
      end
  end.

(** The assignment target selected by [hdr[0]] *)
Definition calibration_slot (tag : Z)
  : option (ASDFile -> option (list float) -> ASDFile) :=
  if tag =? 0 then Some set_calibrationSeriesABS
  else if tag =? 1 then Some set_calibrationSeriesBSE
  else if tag =? 2 then Some set_calibrationSeriesLMP
  else if tag =? 3 then Some set_calibrationSeriesFO
  else None.

(** [for hdr in self.calibrationHeader.calibrationSeries]: one
    [__parse_spectra] per descriptor, in list order; the first exception
    leaves the loop. *)
Fixpoint calibration_loop (stream : bytes) (series : list calibrationSerie)
  (st : ASDFile * pyoff) : ASDFile * pyoff :=
  match series with
  | [] => st
  | hdr :: rest =>
      match calibration_slot (cbtype hdr) with
      | None => calibration_loop stream rest st
      | Some store =>
          match __parse_spectra stream (fst st) (snd st) with
          | inr (SpectraOk spectra _ _ o') =>
              calibration_loop stream rest (store (fst st) (Some spectra), OffInt o')
          | inr SpectraNone4 =>
              calibration_loop stream rest (store (fst st) None, OffNone)
          | inr SpectraNone2 => st
          | inl _ => st
          end
      end
  end.

(** The [else] block after the calibration header *)
Definition read_calibrationSeries (stream : bytes) (st : ASDFile * pyoff)
  : ASDFile * pyoff :=
  match calibrationHeader (fst st) with
  | Some h =>
      if 0 <? calibrationHeaderInfo.calibrationNum h
      then calibration_loop stream (calibrationHeaderInfo.calibrationSeries h) st
      else st
  | None => st
  end.

Definition read_calibration (stream : bytes) (st : ASDFile * pyoff) : ASDFile * pyoff :=
  match __parse_calibrationHeader stream (fst st) (snd st) with
  | inl _ => st
  | inr st1 => read_calibrationSeries stream st1
  end.

(** The state of [read] after the blocks up to [asdFileVersion >= 6] *)
Definition read_through_dependants (stream : bytes) (self : ASDFile) (offset : Z)
  : ASDFile * pyoff :=
  let version := asdFileVersion self in
  let st := (self, OffInt offset) in
  let st := if 0 <? version then read_metadata_spectrum stream st else st in
  let st := if 2 <=? version
            then section_pair (__parse_referenceFileHeader stream)
                   (__parse_referenceData stream) st
            else st in
  if 6 <=? version
  then section_pair (__parse_classifierData stream)
         (__parse_dependentVariables stream) st
  else st.

Definition read_sections (stream : bytes) (self : ASDFile) (offset : Z)
  : ASDFile * pyoff :=
  let version := asdFileVersion self in
  let st := read_through_dependants stream self offset in
  let st := if 7 <=? version then read_calibration stream st else st in
  if 8 <=? version
  then section_pair (__parse_auditLog stream) (__parse_signature stream) st
  else st.

(** The array that [__parse_spectra] decodes from the [8 * channels] bytes
    at [offset] *)
Definition spectra_at (stream : bytes) (offset channels : Z) : list float :=
  map as_float
    (unpack_fields (repeat Fd (Z.to_nat channels))
       (slice stream offset (offset + 8 * channels))).

(** The bytes [read] decodes from a file: its content without a trailing
    marker *)
Definition stream_of (content : bytes) : bytes :=
  if bytes_eqb (slice_from content (-3)) [xff; xfe; xfd]
  then slice_to content (-3)
  else content.

(** The marker test at the head of [read] *)
Definition load (self : ASDFile) (content : bytes) : ASDFile :=
  if bytes_eqb (slice_from content (-3)) [xff; xfe; xfd]
  then set_asdFileStream (set_bom self (Some (slice_from content (-3))))
         (Some (slice_to content (-3)))
  else set_asdFileStream self (Some content).

(** [read]: [file] is the content of the file at [filePath], [None] when
    there is no such file or reading it raised.  The result is the object
    after the call and the returned [readSuccess].  With no stream the
    version is [-1] and no block runs. *)
Definition read (self : ASDFile) (file : option bytes) : ASDFile * bool :=
  let self := match file with
              | Some content => load self content
              | None => self
              end in
  let '(version, offset) := __validate_fileVersion (asdFileStream self) in
  let self := set_asdFileVersion self version in
  match asdFileStream self with
  | Some stream => (fst (read_sections stream self offset), true)
  | None => (self, true)
  end.

(** The use of a wrapper's result in [write]: unpacking [False], adding
    [None] to [offset] and [fileHandle.write(None)] all raise
    [TypeError]. *)
Definition emit (w : wrapped) : M bytes :=
  match w with
  | Wrapped b _ => ret b
  | _ => raise TypeError
  end.

(** [if self.x:] for an attribute holding [None] or a namedtuple *)
Definition when_set {A : Type} (x : option A) (step : M bytes) : list (M bytes) :=
  match x with
  | Some _ => [step]
  | None => []
  end.

(** The series written for [calibrationSeries[i][0]], [i] in
    [range(calibrationNum)] *)
Fixpoint write_calibrationSeries (self : ASDFile) (n : nat) (series : list calibrationSerie)
  : list (M bytes) :=
  match n with
  | O => []
  | S k =>
      match series with
      | [] => [raise IndexError]
      | hdr :: rest =>
          (if cbtype hdr =? 0 then [emit (__wrap_spectra self (calibrationSeriesABS self))]
           else if cbtype hdr =? 1 then [emit (__wrap_spectra self (calibrationSeriesBSE self))]
           else if cbtype hdr =? 2 then [emit (__wrap_spectra self (calibrationSeriesLMP self))]
           else if cbtype hdr =? 3 then [emit (__wrap_spectra self (calibrationSeriesFO self))]
           else [])
          ++ write_calibrationSeries self k rest
      end
  end.

(** The writes of [write], in program order; each is the bytes handed to
    [fileHandle.write] or the exception raised before that. *)
Definition write_steps (self : ASDFile) : list (M bytes) :=
  let version := asdFileVersion self in
  (if 0 <? version then
     [bind (__setFileVersion self) (fun p => ret (fst p))]
     ++ when_set (metadata self) (emit (__wrap_metadata self))
     ++ when_set (spectrumData self) (emit (__wrap_spectrumData self))
   else [])
  ++ (if 2 <=? version then
        when_set (referenceFileHeader self) (emit (__wrap_referenceFileHeader self))
        ++ when_set (referenceData self) (emit (__wrap_referenceData self))
        ++ when_set (classifierData self) (emit (__wrap_classifierData self))
        ++ when_set (dependants self) (emit (__wrap_dependentVariables self))
      else [])
  ++ (if 7 <=? version then
        when_set (calibrationHeader self) (emit (__wrap_calibrationHeader self))
        ++ match calibrationHeader self with
           | Some h =>
               if 0 <? calibrationHeaderInfo.calibrationNum h
               then write_calibrationSeries self
                      (Z.to_nat (calibrationHeaderInfo.calibrationNum h))
                      (calibrationHeaderInfo.calibrationSeries h)
               else []
           | None => []
           end
      else [])
  ++ (if 8 <=? version then
        [emit (__wrap_auditLog self); emit (__wrap_signature self)]
      else [])
  ++ match bom self with
     | Some (b :: r) => [ret (b :: r)]
     | _ => []
     end.

(** The file is written step by step; an exception leaves what was
    written so far. *)
Fixpoint run_writes (steps : list (M bytes)) (out : bytes) : bytes * option exn :=
  match steps with
  | [] => (out, None)
  | inl e :: _ => (out, Some e)
  | inr b :: r => run_writes r (out ++ b)
  end.

(** [write]: the content of the file after the call and the exception
    that left the method, if any ([None]: it returned [True]). *)
Definition write (self : ASDFile) : bytes * option exn :=
  run_writes (write_steps self) [].

End Orchestrator.

(** ** Derived quantities *)

(** The Python values that reach the derivation code *)
Inductive pyval : Type :=
| PyNone
| PyInt (z : Z)
| PyDatetime (d : local_datetime)
| PyArray (a : list float)
| PyMasked (a : list (option float))
| PySpectrumData (r : spectrumDataInfo.t)
| PyMetadata (m : asdMetadatainfo.t).

Definition spectrumData_value (x : option spectrumDataInfo.t) : pyval :=
  match x with
  | Some r => PySpectrumData r
  | None => PyNone
  end.

(** [arr[lo:hi] = f(arr[lo:hi])] with normalised bounds *)
Definition update_slice (f : float -> float) (arr : list float) (lo hi : Z) : list float :=
  map (fun p : nat * float =>
         if (lo <=? Z.of_nat (fst p)) && (Z.of_nat (fst p) <? hi) then f (snd p)
         else snd p)
      (combine (seq 0 (List.length arr)) arr).

(** [__normalise_spectrum(self, sepctra)]: only an array has [copy] *)
Definition __normalise_spectrum (self : ASDFile) (sepctra : pyval) : M (list float) :=
  arr <- match sepctra with
         | PyArray a => ret a
         | _ => raise AttributeError
         end ;;
  md <- attr (metadata self) ;;
  splice1_index <- int_of_float (asdMetadatainfo.splice1_wavelength md) ;;
  splice2_index <- int_of_float (asdMetadatainfo.splice2_wavelength md) ;;
  let n := len arr in
  let s1 := norm_index n splice1_index in
  let s2 := norm_index n splice2_index in
  let arr := update_slice
               (fun x => fdiv x (float_of_Z (asdMetadatainfo.intergrationTime_ms md)))
               arr 0 s1 in
  let arr := update_slice
               (fun x => fdiv (fmul x (float_of_Z (asdMetadatainfo.swir1Gain md)))
                           (float_of_Z 2048))
               arr s1 s2 in
  let arr := update_slice
               (fun x => fdiv (fmul x (float_of_Z (asdMetadatainfo.swir2Gain md)))
                           (float_of_Z 2048))
               arr s2 n in
  ret arr.

(** A call [self.__normalise_spectrum(...)]: the method takes one
    argument besides [self]. *)
Definition call_normalise_spectrum (self : ASDFile) (args : list pyval) : M (list float) :=
  match args with
  | [sepctra] => __normalise_spectrum self sepctra
  | _ => raise TypeError
  end.

(** [x > k] for an int [k] *)
Definition gt_int (x : pyval) (k : Z) : M bool :=
  match x with
  | PyInt z => ret (k <? z)
  | _ => raise TypeError
  end.

(** [np.divide(a, b, where=mask)] without [out]: the entries where the
    mask is false are never written; they are [None] here. *)
Fixpoint np_divide_where (a b : list float) (mask : list bool) : M (list (option float)) :=
  match a, b, mask with
  | [], [], [] => ret []
  | x :: a', y :: b', m :: mask' =>
      rest <- np_divide_where a' b' mask' ;;
      ret ((if m then Some (fdiv x y) else None) :: rest)
  | _, _, _ => raise (ValueError "operands could not be broadcast together")
  end.

(** The property [reflectance] *)
Definition reflectance (self : ASDFile) : pyval :=
  if 2 <=? asdFileVersion self then
    match (md <- attr (metadata self) ;;
           c <- gt_int (PyDatetime (asdMetadatainfo.referenceTime md)) 0 ;;
           if c && (asdMetadatainfo.dataType md =? 1) then
             a <- call_normalise_spectrum self [spectrumData_value (spectrumData self)] ;;
             b <- call_normalise_spectrum self
                    [spectrumData_value (referenceData self); PyMetadata md] ;;
             w <- call_normalise_spectrum self
                    [spectrumData_value (referenceData self); PyMetadata md] ;;
             r <- np_divide_where a b (map (fun x => negb (is_zero x)) w) ;;
             ret (PyMasked r)
           else raise UnboundLocalError) with
    | inr v => v
    | inl _ => PyNone
    end
  else PyNone.

(** ** Attribute access *)

Definition instance_attributes (self : ASDFile) : list string :=
  ["asdFileVersion"; "metadata"; "spectrumData"; "referenceFileHeader"; "referenceData";
   "classifierData"; "dependants"; "calibrationHeader"; "calibrationSeriesABS";
   "calibrationSeriesBSE"; "calibrationSeriesLMP"; "calibrationSeriesFO"; "auditLog";
   "signature"; "_ASDFile__asdFileStream"; "_ASDFile__wavelengths"]%string
  ++ match bom self with
     | Some _ => ["_ASDFile__bom"%string]
     | None => []
     end.

(** The names bound in the class body: methods (private ones under their
    mangled names) and properties *)
Definition class_attributes : list string :=
  ["__init__"; "read"; "update"; "write"; "_ASDFile__check_offset";
   "_ASDFile__parse_metadata"; "_ASDFile__wrap_metadata";
   "_ASDFile__parse_spectrumData"; "_ASDFile__wrap_spectrumData";
   "_ASDFile__parse_referenceFileHeader"; "_ASDFile__wrap_referenceFileHeader";
   "_ASDFile__parse_referenceData"; "_ASDFile__wrap_referenceData";
   "_ASDFile__parse_classifierData"; "_ASDFile__wrap_classifierData";
   "_ASDFile__parse_dependentVariables"; "_ASDFile__wrap_dependentVariables";
   "_ASDFile__parse_calibrationHeader"; "_ASDFile__wrap_calibrationHeader";
   "_ASDFile__parse_auditLog"; "_ASDFile__wrap_auditLog";
   "_ASDFile__parse_signature"; "_ASDFile__wrap_signature";
   "_ASDFile__parse_spectra"; "_ASDFile__wrap_spectra";
   "_ASDFile__parse_constituantType"; "_ASDFile__wrap_constituantType";
   "_ASDFile__parse_bstr"; "_ASDFile__wrap_bstr"; "_ASDFile__parse_Bool";
   "_ASDFile__wrap_Bool"; "_ASDFile__parse_auditEvents"; "_ASDFile__wrap_auditEvents";
   "_ASDFile__parse_auditLogEvent"; "_ASDFile__wrap_auditLogEvent";
   "_ASDFile__validate_fileVersion"; "_ASDFile__setFileVersion";
   "_ASDFile__parse_ASDFilewhen"; "_ASDFile__wrap_ASDFilewhen"; "_ASDFile__parse_gps";
   "_ASDFile__wrap_gps"; "_ASDFile__parse_SmartDetector"; "_ASDFile__wrap_SmartDetector";
   "_ASDFile__checkSaturationError"; "__getattr__"; "get_white_reference";
   "reflectance"; "radiance"; "_ASDFile__normalise_spectrum"; "reflectanceNoDeriv";
   "reflectance1stDeriv"; "reflectance2ndDeriv"; "derivative"; "absoluteReflectance";
   "log1r"; "log1RNoDeriv"; "log1R1stDeriv"; "log1R2ndDeriv"]%string.

(** The attributes every object has from [object] and its class *)
Definition object_attributes : list string :=
  ["__class__"; "__delattr__"; "__dict__"; "__dir__"; "__doc__"; "__eq__"; "__format__";
   "__ge__"; "__getattribute__"; "__getstate__"; "__gt__"; "__hash__";
   "__init_subclass__"; "__le__"; "__lt__"; "__module__"; "__ne__"; "__new__";
   "__reduce__"; "__reduce_ex__"; "__repr__"; "__setattr__"; "__sizeof__"; "__str__";
   "__subclasshook__"; "__weakref__"]%string.

(** Whether the normal lookup of [self.item] finds the name *)
Definition found_by_lookup (self : ASDFile) (item : string) : bool :=
  existsb (String.eqb item)
    (instance_attributes self ++ class_attributes ++ object_attributes).

(** Calling a value that is not callable *)
Definition call (f : pyval) (args : list pyval) : M pyval := raise TypeError.

(** [get_white_reference]: [self.reference] is no attribute and is
    answered [None] by [__getattr__]. *)
Definition get_white_reference (self : ASDFile) : M pyval :=
  a <- call_normalise_spectrum self
         [PyNone; match metadata self with
                  | Some md => PyMetadata md
                  | None => PyNone
                  end] ;;
  ret (PyArray a).

(** [__getattr__]: [self.get_reflectance], [self.get_radiance] and
    [self.reference] name nothing that exists, so each of these inner
    accesses comes back here and takes the final [else]. *)
Definition __getattr__ (self : ASDFile) (item : string) : M pyval :=
  let missing := PyNone in
  if String.eqb item "reflectance" then call missing []
  else if String.eqb item "radiance" then call missing []
  else if String.eqb item "white_reference" then get_white_reference self
  else if String.eqb item "raw" then ret (spectrumData_value (spectrumData self))
  else if String.eqb item "ref" then ret missing
  else ret PyNone.

(** The path an access [self.item] takes: the normal lookup, or the
    [__getattr__] hook with its result. *)
Inductive access : Type :=
| NormalLookup
| GetattrHook (result : M pyval).

Definition attribute_access (self : ASDFile) (item : string) : access :=
  if found_by_lookup self item then NormalLookup
  else GetattrHook (__getattr__ self item).

Definition dispatched_names : list string :=
  ["reflectance"; "radiance"; "white_reference"; "raw"; "ref"]%string.

(** ** Sample files *)

Definition le16 (z : Z) : bytes := le_bytes 2 z.
Definition le32 (z : Z) : bytes := le_bytes 4 z.
Definition double_bytes (x : float) : bytes := le_bytes 8 (ieee_encode 52 11 x).

(** Monday 1 January 2024, 00:00:00: seconds, minutes, hour, day, month,
    years since 1900, weekday (Sunday is 0), day of year, DST flag *)
Definition sample_when : bytes := List.concat (map le16 [0; 0; 0; 1; 0; 124; 1; 0; 0]).

(** A 481-byte metadata record: first wavelength 0.0, step 1.0, the given
    channel count, data type and reference time, zero elsewhere *)
Definition sample_metadata (channels dataType referenceTime : Z) : bytes :=
  zeros 157 ++ sample_when ++ zeros 8 ++ [z2b dataType] ++ le32 referenceTime
  ++ zeros 4 ++ [x00; x00; x80; x3f] ++ zeros 5 ++ le16 channels ++ zeros 278.

(** Version 1, one channel holding 1.0: 3 + 481 + 8 = 492 bytes *)
Definition sample_v1 : bytes :=
  [x41; x53; x44] ++ sample_metadata 1 0 0 ++ double_bytes (float_of_Z 1).

(** The version tag followed by 100 bytes: the metadata record is cut *)
Definition sample_cut_metadata : bytes := [x41; x53; x44] ++ zeros 100.

(** Version 1 with two channels announced and only 8 bytes of spectrum *)
Definition sample_cut_spectrum : bytes :=
  [x41; x53; x44] ++ sample_metadata 2 0 0 ++ double_bytes (float_of_Z 1).

(** Reference header: flag false, both times zero, empty description *)
Definition sample_referenceFileHeader : bytes := [x00; x00] ++ zeros 16 ++ [x00; x00].

(** Version 2 declaring reflectance data (data type 1, reference time 1):
    spectrum 1.0, reference 0.0 *)
Definition sample_v2 : bytes :=
  [x61; x73; x32] ++ sample_metadata 1 1 1 ++ double_bytes (float_of_Z 1)
  ++ sample_referenceFileHeader ++ double_bytes (S754_zero false).

(** Version 2 whose reference header starts with the invalid sentinel
    [01 00] *)
Definition sample_v2_bad_flag : bytes :=
  [x61; x73; x32] ++ sample_metadata 1 0 0 ++ double_bytes (float_of_Z 1)
  ++ [x01; x00] ++ zeros 18 ++ double_bytes (S754_zero false).

Definition sample_descriptor (tag : Z) : bytes := [z2b tag] ++ zeros 28.

(** Version 7, one channel, empty classifier and dependent variables,
    descriptors with type tags 2, 0, 2 and the series 5.0, 6.0, 7.0 *)
Definition sample_v7 : bytes :=
  [x61; x73; x37] ++ sample_metadata 1 0 0 ++ double_bytes (float_of_Z 1)
  ++ sample_referenceFileHeader ++ double_bytes (float_of_Z 2)
  ++ zeros 46 ++ zeros 8
  ++ [x03] ++ sample_descriptor 2 ++ sample_descriptor 0 ++ sample_descriptor 2
  ++ double_bytes (float_of_Z 5) ++ double_bytes (float_of_Z 6)
  ++ double_bytes (float_of_Z 7).

(** A host with a 4-byte [long] in which no audit fragment is found *)
Definition sample_host : Host := mkHost 4 (fun _ => []) (fun _ => None).

(** A metadata record of 10 channels with the splice indices, integration
    time and gains of the normalisation example *)
Definition sample_normalise_metadata : asdMetadatainfo.t :=
  asdMetadatainfo._make [] (datetime.mk 2024 1 1 0 0 0) 0 0 0 0 0 (fromtimestamp 0) 0
    (fromtimestamp 0) (S754_zero false) (float_of_Z 1) 0 0 0 0 0 10 [] [] 2 0 0 0 0
    (S754_zero false) (S754_zero false) (S754_zero false) (S754_zero false) 0 0 0 0 0 0
    0 0 0 0 0 4096 2048 0 0 (float_of_Z 3) (float_of_Z 7) [] 0 0 0 0 0 [] 0.

(** A metadata record whose program version, 200, does not fit the signed
    byte of the format *)
Definition sample_unpackable_metadata : asdMetadatainfo.t :=
  asdMetadatainfo._make [] (datetime.mk 2024 1 1 0 0 0) 0 200 0 0 0 (fromtimestamp 0) 0
    (fromtimestamp 0) (S754_zero false) (float_of_Z 1) 0 0 0 0 0 10 [] [] 2 0 0 0 0
    (S754_zero false) (S754_zero false) (S754_zero false) (S754_zero false) 0 0 0 0 0 0
    0 0 0 0 0 4096 2048 0 0 (float_of_Z 3) (float_of_Z 7) [] 0 0 0 0 0 [] 0.

(** 32768 times the letter [a]: its UTF-8 encoding is one byte too long
    for a signed 16-bit length *)
Definition sample_long_string : pystr := repeat 97 (Z.to_nat 32768).

(** The metadata record that [sample_metadata 1 0 0] decodes to, in a file
    whose first 484 bytes are [header] *)
Definition sample_decoded_metadata (header : bytes) : asdMetadatainfo.t :=
  asdMetadatainfo._make [] (datetime.mk 2024 1 1 0 0 0) 0 0 0 0 0 (fromtimestamp 0) 0
    (fromtimestamp 0) (S754_zero false) (float_of_Z 1) 0 0 0 0 0 1 (zeros 128) (zeros 56)
    0 0 0 0 0 (S754_zero false) (S754_zero false) (S754_zero false) (S754_zero false)
    0 0 0 0 0 0 0 0 0 0 0 0 0 0 0 (S754_zero false) (S754_zero false) (zeros 27)
    0 0 0 0 0 header 484.

(** The calibration header of [sample_v7], which starts at byte 574 *)
Definition sample_calibrationHeader : calibrationHeaderInfo.t :=
  calibrationHeaderInfo._make 3 [(2, [], 0, 0, 0); (0, [], 0, 0, 0); (2, [], 0, 0, 0)]
    (slice sample_v7 574 662) 88.

(** [sample_v1] followed by one more byte *)
Definition sample_v1_trailing : bytes := sample_v1 ++ [x01].

(** ** Recorded lengths *)

Definition recorded {A : Type} (section : option A) (length_of : A -> option Z) : list Z :=
  match section with
  | Some r =>
      match length_of r with
      | Some n => [n]
      | None => []
      end
  | None => []
  end.

(** The [byteStreamLength] of every section record the object holds, in
    file order *)
Definition recorded_byte_lengths (self : ASDFile) : list Z :=
  recorded (metadata self) (fun r => Some (asdMetadatainfo.byteStreamLength r))
  ++ recorded (spectrumData self) spectrumDataInfo.byteStreamLength
  ++ recorded (referenceFileHeader self)
       (fun r => Some (asdreferenceFileHeaderInfo.byteStreamLength r))
  ++ recorded (referenceData self) spectrumDataInfo.byteStreamLength
  ++ recorded (classifierData self) (fun r => Some (asdClassifierDataInfo.byteStreamLength r))
  ++ recorded (dependants self) (fun r => Some (dependantInfo.byteStreamLength r))
  ++ recorded (calibrationHeader self)
       (fun r => Some (calibrationHeaderInfo.byteStreamLength r))
  ++ recorded (auditLog self) (fun r => Some (auditLogInfo.byteStreamLength r))
  ++ recorded (signature self) (fun r => Some (signatureInfo.byteStreamLength r)).

Definition sum_Z (l : list Z) : Z := fold_right Z.add 0 l.

(** Two objects with the same Lamp and Absolute series *)
Definition same_calibration (a b : ASDFile) : Prop :=
  calibrationSeriesLMP a = calibrationSeriesLMP b
  /\ calibrationSeriesABS a = calibrationSeriesABS b.

(** * Further parts of the codec *)

(** ** Saturation and alarm flags *)

Definition flag1_vnir_saturation : Z := 1.
Definition flag1_swir1_saturation : Z := 2.
Definition flag1_swir2_saturation : Z := 4.
Definition Tec1_alarm : Z := 8.
Definition Tec2_alarm : Z := 16.

(** [if flags & flag: errors.append(msg)] *)
Definition append_if_set (flags flag : Z) (msg : string) (errors : list string)
  : list string :=
  if Z.land flags flag =? 0 then errors else errors ++ [msg].

Definition __checkSaturationError (self : ASDFile) : M (list string) :=
  md <- attr (metadata self) ;;
  let flags2 := asdMetadatainfo.flags2 md in
  let errors := [] in
  let errors := append_if_set flags2 flag1_vnir_saturation "VNIR saturation" errors in
  let errors := append_if_set flags2 flag1_swir1_saturation "SWIR1 saturation" errors in
  let errors := append_if_set flags2 flag1_swir2_saturation "SWIR2 saturation" errors in
  let errors := append_if_set flags2 Tec1_alarm "TEC1 Alarm" errors in
  let errors := append_if_set flags2 Tec2_alarm "TEC2 Alarm" errors in
  ret errors.

(** ** GPS and smart-detector blocks *)

(** [struct.unpack(fmt, buffer)]: the buffer holds exactly
    [struct.calcsize(fmt)] bytes. *)
Definition unpack (fmt : list fcode) (buffer : bytes) : M (list sval) :=
  if len buffer =? calcsize fmt then ret (unpack_fields fmt buffer)
  else raise struct_error.

(** ['<d d d d d h b b b b b h 5s b b'] *)
Definition gpsDatadFormat : list fcode :=
  [Fd; Fd; Fd; Fd; Fd; Fh; Fb; Fb; Fb; Fb; Fb; Fh; Fs 5; Fb; Fb].

(** namedtuple [gpsData]; a field holds whatever value it is given *)
Module gpsDataInfo.
Record t : Type := _make
  { trueHeading : sval;
    speed : sval;
    latitude : sval;
    longitude : sval;
    altitude : sval;
    lock : sval;
    hardwareMode : sval;
    ss : sval;
    mm : sval;
    hh : sval;
    flags1 : sval;
    flags2 : sval;
    satellites : sval;
    filler : sval }.
End gpsDataInfo.

(** [__parse_gps]: the unpacked values are assigned to fourteen names. *)
Definition __parse_gps (gps_field : bytes) : option gpsDataInfo.t :=
  catch (v <- unpack gpsDatadFormat gps_field ;;
         match v with
         | [trueHeading; speed; latitude; longitude; altitude; lock; hardwareMode;
            ss; mm; hh; flags1; flags2; satellites; filler] =>
             ret (gpsDataInfo._make trueHeading speed latitude longitude altitude lock
                    hardwareMode ss mm hh flags1 flags2 satellites filler)
         | _ => raise (ValueError "too many values to unpack (expected 14)")
         end).

Definition __wrap_gps (gpsData : gpsDataInfo.t) : option bytes :=
  catch (pack gpsDatadFormat
           [gpsDataInfo.trueHeading gpsData; gpsDataInfo.speed gpsData;
            gpsDataInfo.latitude gpsData; gpsDataInfo.longitude gpsData;
            gpsDataInfo.altitude gpsData; gpsDataInfo.lock gpsData;
            gpsDataInfo.hardwareMode gpsData; gpsDataInfo.ss gpsData;
            gpsDataInfo.mm gpsData; gpsDataInfo.hh gpsData;
            gpsDataInfo.flags1 gpsData; gpsDataInfo.flags2 gpsData;
            gpsDataInfo.satellites gpsData; gpsDataInfo.filler gpsData]).

(** ['<i f f f h b f f'] *)
Definition smartDetectorFormat : list fcode := [Fi; Ff; Ff; Ff; Fh; Fb; Ff; Ff].

(** namedtuple [smartDetector] *)
Module smartDetectorInfo.
Record t : Type := _make
  { serialNumber : Z;
    signal : float;
    dark : float;
    ref : float;
    status : Z;
    avg : Z;
    humid : float;
    temp : float }.
End smartDetectorInfo.

Definition __parse_SmartDetector (smartDetectorData : bytes)
  : option smartDetectorInfo.t :=
  catch (v <- unpack smartDetectorFormat smartDetectorData ;;
         ret (smartDetectorInfo._make (geti v 0) (getf v 1) (getf v 2) (getf v 3)
                (geti v 4) (geti v 5) (getf v 6) (getf v 7))).

Definition __wrap_SmartDetector (smartDetectorData : smartDetectorInfo.t)
  : option bytes :=
  catch (pack smartDetectorFormat
           [VInt (smartDetectorInfo.serialNumber smartDetectorData);
            VFloat (smartDetectorInfo.signal smartDetectorData);
            VFloat (smartDetectorInfo.dark smartDetectorData);
            VFloat (smartDetectorInfo.ref smartDetectorData);
            VInt (smartDetectorInfo.status smartDetectorData);
            VInt (smartDetectorInfo.avg smartDetectorData);
            VFloat (smartDetectorInfo.humid smartDetectorData);
            VFloat (smartDetectorInfo.temp smartDetectorData)]).

(** ** Radiance *)

(** The two array expressions of [radiance] *)
Inductive radiance_formula : Type :=
| AbsoluteAndBase
| BaseAndFiber.

Definition is_not_None {A : Type} (x : option A) : bool :=
  match x with
  | Some _ => true
  | None => false
  end.

Section Radiance.

(** The value of the array expression
    [LMP * referenceData * spectrumData * intergrationTime_ms / (X * 500 * 544 * Y * np.pi)],
    in which numpy is handed the namedtuples [referenceData] and
    [spectrumData]; what numpy answers, or raises, is the host's. *)
Variable np_radiance : radiance_formula -> ASDFile -> M pyval.

(** The property [radiance]: the name [radiance] is bound only by one of
    the two assignments; the [except] returns [None]. *)
Definition radiance (self : ASDFile) : M pyval :=
  if 7 <=? asdFileVersion self then
    match (h <- attr (calibrationHeader self) ;;
           if 3 <=? calibrationHeaderInfo.calibrationNum h then
             if is_not_None (calibrationSeriesABS self)
                && is_not_None (calibrationSeriesLMP self)
                && is_not_None (calibrationSeriesLMP self)
             then r <- np_radiance AbsoluteAndBase self ;; ret (Some r)
             else if is_not_None (calibrationSeriesBSE self)
                     && is_not_None (calibrationSeriesLMP self)
                     && is_not_None (calibrationSeriesFO self)
             then r <- np_radiance BaseAndFiber self ;; ret (Some r)
             else ret None
           else ret None) with
    | inl _ => ret PyNone
    | inr (Some r) => ret r
    | inr None => raise UnboundLocalError
    end
  else raise UnboundLocalError.

End Radiance.

(** ** Vocabulary of the statements *)

(** The bytes [b] sit in [stream] at offset [o]. *)
Definition holds_at (stream : bytes) (o : Z) (b : bytes) : Prop :=
  exists pre post : bytes, stream = pre ++ b ++ post /\ len pre = o.

(** A binary64 value as [struct] and numpy hold it *)
Definition is_binary64 (x : float) : bool := valid_binary 53 1024 x.

(** Two floats that are the same value, bit for bit *)
Definition float_eqb (x y : float) : bool :=
  match x, y with
  | S754_zero a, S754_zero b => Bool.eqb a b
  | S754_infinity a, S754_infinity b => Bool.eqb a b
  | S754_nan, S754_nan => true
  | S754_finite s m e, S754_finite s' m' e' => Bool.eqb s s' && Pos.eqb m m' && (e =? e')
  | _, _ => false
  end.

(** A binary64 value that is a binary32 value as well: rounding it to
    binary32 loses nothing *)
Definition is_binary32 (x : float) : bool :=
  valid_binary 24 128 (round_binary32 x)
  && float_eqb (widen_binary32 (round_binary32 x)) x.

(** The values [struct.pack] stores without loss under a format code:
    bytes of the exact length, integers in the range of the code,
    binary64 values under ['d'], binary32 values under ['f']. *)
Definition fits (c : fcode) (v : sval) : bool :=
  match c, v with
  | Fs n, VBytes b => Nat.eqb (List.length b) n
  | Fint true n, VInt z =>
      (0 <? Z.of_nat n) && (- 2 ^ (8 * Z.of_nat n - 1) <=? z)
      && (z <? 2 ^ (8 * Z.of_nat n - 1))
  | Fint false n, VInt z => (0 <=? z) && (z <? 2 ^ (8 * Z.of_nat n))
  | Fd, VFloat x => is_binary64 x
  | Ff, VFloat x => is_binary32 x
  | _, _ => false
  end.

Fixpoint all_fit (fmt : list fcode) (vals : list sval) : bool :=
  match fmt, vals with
  | [], [] => true
  | c :: r, v :: vs => fits c v && all_fit r vs
  | _, _ => false
  end.

(** The attributes that [read] assigns besides the version, the stream
    and the marker *)
Inductive field : Type :=
| FMetadata
| FWavelengths
| FSpectrumData
| FReferenceFileHeader
| FReferenceData
| FClassifierData
| FDependants
| FCalibrationHeader
| FCalibrationSeries
| FAuditLog
| FSignature.

(** [updates allowed a b]: [b] is [a] after assignments to attributes
    among [allowed] only. *)
Inductive updates (allowed : field -> bool) : ASDFile -> ASDFile -> Prop :=
| updates_none : forall a, updates allowed a a
| updates_metadata : forall a b v,
    allowed FMetadata = true -> updates allowed a b ->
    updates allowed a (set_metadata b v)
| updates_wavelengths : forall a b v,
    allowed FWavelengths = true -> updates allowed a b ->
    updates allowed a (set_wavelengths b v)
| updates_spectrumData : forall a b v,
    allowed FSpectrumData = true -> updates allowed a b ->
    updates allowed a (set_spectrumData b v)
| updates_referenceFileHeader : forall a b v,
    allowed FReferenceFileHeader = true -> updates allowed a b ->
    updates allowed a (set_referenceFileHeader b v)
| updates_referenceData : forall a b v,
    allowed FReferenceData = true -> updates allowed a b ->
    updates allowed a (set_referenceData b v)
| updates_classifierData : forall a b v,
    allowed FClassifierData = true -> updates allowed a b ->
    updates allowed a (set_classifierData b v)
| updates_dependants : forall a b v,
    allowed FDependants = true -> updates allowed a b ->
    updates allowed a (set_dependants b v)
| updates_calibrationHeader : forall a b v,
    allowed FCalibrationHeader = true -> updates allowed a b ->
    updates allowed a (set_calibrationHeader b v)
| updates_calibrationSeriesABS : forall a b v,
    allowed FCalibrationSeries = true -> updates allowed a b ->
    updates allowed a (set_calibrationSeriesABS b v)
| updates_calibrationSeriesBSE : forall a b v,
    allowed FCalibrationSeries = true -> updates allowed a b ->
    updates allowed a (set_calibrationSeriesBSE b v)
| updates_calibrationSeriesLMP : forall a b v,
    allowed FCalibrationSeries = true -> updates allowed a b ->
    updates allowed a (set_calibrationSeriesLMP b v)
| updates_calibrationSeriesFO : forall a b v,
    allowed FCalibrationSeries = true -> updates allowed a b ->
    updates allowed a (set_calibrationSeriesFO b v)
| updates_auditLog : forall a b v,
    allowed FAuditLog = true -> updates allowed a b ->
    updates allowed a (set_auditLog b v)
| updates_signature : forall a b v,
    allowed FSignature = true -> updates allowed a b ->
    updates allowed a (set_signature b v).

(** The attributes the blocks of [read] reach for a file version *)
Definition fields_of_version (version : Z) (f : field) : bool :=
  match f with
  | FMetadata | FWavelengths | FSpectrumData => 0 <? version
  | FReferenceFileHeader | FReferenceData => 2 <=? version
  | FClassifierData | FDependants => 6 <=? version
  | FCalibrationHeader | FCalibrationSeries => 7 <=? version
  | FAuditLog | FSignature => 8 <=? version
  end.

Definition only (f : field) (g : field) : bool :=
  match f, g with
  | FMetadata, FMetadata | FWavelengths, FWavelengths
  | FSpectrumData, FSpectrumData | FReferenceFileHeader, FReferenceFileHeader
  | FReferenceData, FReferenceData | FClassifierData, FClassifierData
  | FDependants, FDependants | FCalibrationHeader, FCalibrationHeader
  | FCalibrationSeries, FCalibrationSeries | FAuditLog, FAuditLog
  | FSignature, FSignature => true
  | _, _ => false
  end.

(** A calibration descriptor whose type tag selects one of the four
    series *)
Definition known_tag (hdr : calibrationSerie) : bool :=
  (0 <=? cbtype hdr) && (cbtype hdr <=? 3).

(** A string [__wrap_bstr] can write: Unicode scalar values whose UTF-8
    encoding has at most 32767 bytes *)
Definition wrappable (s : pystr) : bool :=
  forallb is_scalar s
  && match utf8_encode s with
     | inr bs => len bs <=? 32767
     | inl _ => false
     end.

(** The marker [read] takes off the end of a file *)
Definition marker : bytes := [xff; xfe; xfd].

(** A calibration descriptor that ['<b 20s i h h'] stores without loss
    but for the padding of the name *)
Definition descriptor_fits (d : calibrationSerie) : bool :=
  let '(ty, name, it, g1, g2) := d in
  fits Fb (VInt ty) && (len name <=? 20) && fits Fi (VInt it)
  && fits Fh (VInt g1) && fits Fh (VInt g2).

(** The descriptor as [__parse_calibrationHeader] keeps it: the name
    without zero bytes at its ends *)
Definition stripped_descriptor (d : calibrationSerie) : calibrationSerie :=
  let '(ty, name, it, g1, g2) := d in (ty, strip0 name, it, g1, g2).

(** A constituent record that [__wrap_constituantType] stores without
    loss *)
Definition constituant_fits (item : option merterialReportInfo.t) : bool :=
  match item with
  | Some it =>
      wrappable (merterialReportInfo.constituentName it)
      && wrappable (merterialReportInfo.passFail it)
      && is_binary64 (merterialReportInfo.mDistance it)
      && is_binary64 (merterialReportInfo.mDistanceLimit it)
      && is_binary64 (merterialReportInfo.concentration it)
      && is_binary64 (merterialReportInfo.concentrationLimit it)
      && is_binary64 (merterialReportInfo.fRatio it)
      && is_binary64 (merterialReportInfo.residual it)
      && is_binary64 (merterialReportInfo.residualLimit it)
      && is_binary64 (merterialReportInfo.scores it)
      && is_binary64 (merterialReportInfo.scoresLimit it)
      && fits Fl (VInt (merterialReportInfo.modelType it))
      && is_binary64 (merterialReportInfo.reserved1 it)
      && is_binary64 (merterialReportInfo.reserved2 it)
  | None => false
  end.

(** ** Metadata written and read back *)

(** The values [__wrap_metadata] hands to [struct.pack], given the 18
    bytes of the timestamp *)
Definition metadata_values (md : asdMetadatainfo.t) (when_bytes : bytes) : list sval :=
  [VBytes (ljust0 157 (asdMetadatainfo.comments md));
   VBytes when_bytes;
   VInt (asdMetadatainfo.programVersion md);
   VInt (asdMetadatainfo.fileVersion md);
   VInt (asdMetadatainfo.iTime md);
   VInt (asdMetadatainfo.darkCorrected md);
   VInt (timestamp (asdMetadatainfo.darkTime md));
   VInt (asdMetadatainfo.dataType md);
   VInt (timestamp (asdMetadatainfo.referenceTime md));
   VFloat (asdMetadatainfo.channel1Wavelength md);
   VFloat (asdMetadatainfo.wavelengthStep md);
   VInt (asdMetadatainfo.dataFormat md);
   VInt (asdMetadatainfo.old_darkCurrentCount md);
   VInt (asdMetadatainfo.old_refCount md);
   VInt (asdMetadatainfo.old_sampleCount md);
   VInt (asdMetadatainfo.application md);
   VInt (asdMetadatainfo.channels md);
   VBytes (ljust0 128 (asdMetadatainfo.appData_str md));
   VBytes (ljust0 56 (asdMetadatainfo.gpsData_str md));
   VInt (asdMetadatainfo.intergrationTime_ms md);
   VInt (asdMetadatainfo.fo md);
   VInt (asdMetadatainfo.darkCurrentCorrention md);
   VInt (asdMetadatainfo.calibrationSeries md);
   VInt (asdMetadatainfo.instrumentNum md);
   VFloat (asdMetadatainfo.yMin md);
   VFloat (asdMetadatainfo.yMax md);
   VFloat (asdMetadatainfo.xMin md);
   VFloat (asdMetadatainfo.xMax md);
   VInt (asdMetadatainfo.ipNumBits md);
   VInt (asdMetadatainfo.xMode md);
   VInt (asdMetadatainfo.flags1 md);
   VInt (asdMetadatainfo.flags2 md);
   VInt (asdMetadatainfo.flags3 md);
   VInt (asdMetadatainfo.flags4 md);
   VInt (asdMetadatainfo.darkCurrentCount md);
   VInt (asdMetadatainfo.refCount md);
   VInt (asdMetadatainfo.sampleCount md);
   VInt (asdMetadatainfo.instrument md);
   VInt (asdMetadatainfo.calBulbID md);
   VInt (asdMetadatainfo.swir1Gain md);
   VInt (asdMetadatainfo.swir2Gain md);
   VInt (asdMetadatainfo.swir1Offset md);
   VInt (asdMetadatainfo.swir2Offset md);
   VFloat (asdMetadatainfo.splice1_wavelength md);
   VFloat (asdMetadatainfo.splice2_wavelength md);
   VBytes (ljust0 27 (asdMetadatainfo.smartDetectorType md));
   VInt (asdMetadatainfo.spare1 md);
   VInt (asdMetadatainfo.spare2 md);
   VInt (asdMetadatainfo.spare3 md);
   VInt (asdMetadatainfo.spare4 md);
   VInt (asdMetadatainfo.spare5 md)].

(** Every value of the record is stored without loss by its format code:
    comments of at most 157 bytes, blocks of at most 128, 56 and 27
    bytes, integers in range, binary32 floats.  The timestamp is always
    18 bytes. *)
Definition metadata_fits (md : asdMetadatainfo.t) : bool :=
  all_fit asdMetadataFormat (metadata_values md (zeros 18)).

(** The record as it stands in the file: comments without the zero
    bytes at their ends, the three blocks padded with zero bytes to their
    widths, and the bytes the parser keeps. *)
Definition stored_metadata (md : asdMetadatainfo.t) (byteStream : bytes)
  : asdMetadatainfo.t :=
  asdMetadatainfo._make
    (strip0 (asdMetadatainfo.comments md)) (asdMetadatainfo.when md)
    (asdMetadatainfo.daylighSavingsFlag md) (asdMetadatainfo.programVersion md)
    (asdMetadatainfo.fileVersion md) (asdMetadatainfo.iTime md)
    (asdMetadatainfo.darkCorrected md) (asdMetadatainfo.darkTime md)
    (asdMetadatainfo.dataType md) (asdMetadatainfo.referenceTime md)
    (asdMetadatainfo.channel1Wavelength md) (asdMetadatainfo.wavelengthStep md)
    (asdMetadatainfo.dataFormat md) (asdMetadatainfo.old_darkCurrentCount md)
    (asdMetadatainfo.old_refCount md) (asdMetadatainfo.old_sampleCount md)
    (asdMetadatainfo.application md) (asdMetadatainfo.channels md)
    (ljust0 128 (asdMetadatainfo.appData_str md))
    (ljust0 56 (asdMetadatainfo.gpsData_str md))
    (asdMetadatainfo.intergrationTime_ms md) (asdMetadatainfo.fo md)
    (asdMetadatainfo.darkCurrentCorrention md) (asdMetadatainfo.calibrationSeries md)
    (asdMetadatainfo.instrumentNum md) (asdMetadatainfo.yMin md)
    (asdMetadatainfo.yMax md) (asdMetadatainfo.xMin md) (asdMetadatainfo.xMax md)
    (asdMetadatainfo.ipNumBits md) (asdMetadatainfo.xMode md)
    (asdMetadatainfo.flags1 md) (asdMetadatainfo.flags2 md) (asdMetadatainfo.flags3 md)
    (asdMetadatainfo.flags4 md) (asdMetadatainfo.darkCurrentCount md)
    (asdMetadatainfo.refCount md) (asdMetadatainfo.sampleCount md)
    (asdMetadatainfo.instrument md) (asdMetadatainfo.calBulbID md)
    (asdMetadatainfo.swir1Gain md) (asdMetadatainfo.swir2Gain md)
    (asdMetadatainfo.swir1Offset md) (asdMetadatainfo.swir2Offset md)
    (asdMetadatainfo.splice1_wavelength md) (asdMetadatainfo.splice2_wavelength md)
    (ljust0 27 (asdMetadatainfo.smartDetectorType md)) (asdMetadatainfo.spare1 md)
    (asdMetadatainfo.spare2 md) (asdMetadatainfo.spare3 md) (asdMetadatainfo.spare4 md)
    (asdMetadatainfo.spare5 md) byteStream (len byteStream).

(** The date of a [datetime] is one the constructor accepts. *)
Definition valid_datetime (dt : datetime.t) : Prop :=
  datetime_new (datetime.year dt) (datetime.month dt) (datetime.day dt)
    (datetime.hour dt) (datetime.minute dt) (datetime.second dt) = ret dt.

(** ** Further sample objects *)

(** The five messages of [__checkSaturationError] with the bit of
    [flags2] each one stands for *)
Definition saturation_messages : list (Z * string) :=
  [(0, "VNIR saturation"); (1, "SWIR1 saturation"); (2, "SWIR2 saturation");
   (3, "TEC1 Alarm"); (4, "TEC2 Alarm")]%string.

(** The normalisation metadata with [flags2 = 17]: bits 0 and 4 *)
Definition sample_flagged_metadata : asdMetadatainfo.t :=
  asdMetadatainfo._make [] (datetime.mk 2024 1 1 0 0 0) 0 0 0 0 0 (fromtimestamp 0) 0
    (fromtimestamp 0) (S754_zero false) (float_of_Z 1) 0 0 0 0 0 10 [] [] 2 0 0 0 0
    (S754_zero false) (S754_zero false) (S754_zero false) (S754_zero false) 0 0 0 17 0 0
    0 0 0 0 0 4096 2048 0 0 (float_of_Z 3) (float_of_Z 7) [] 0 0 0 0 0 [] 0.

(** A host with an 8-byte [long] whose serialiser writes the event's
    name alone *)
Definition sample_naming_host : Host :=
  mkHost 8 (fun _ => [])
    (fun e => match auditInfo.name e with
              | Some s => catch (utf8_encode s)
              | None => Some []
              end).

Definition sample_event (name : string) : option auditInfo.t :=
  Some (auditInfo._make None None (Some (str_of name)) None None None None None).

(** A reference header: flag set, times 1 and 2, description [ref] *)
Definition sample_reference_header : asdreferenceFileHeaderInfo.t :=
  asdreferenceFileHeaderInfo._make true 1 2 (Some (str_of "ref")) [] 0.

(** A signature record: signed, time 5, seven short strings and a
    128-byte signature of zeros *)
Definition sample_signature : signatureInfo.t :=
  signatureInfo._make 1 5 (str_of "lab") (str_of "kc") (str_of "Kai") (str_of "asd")
    (str_of "check") [] (str_of "key") (zeros 128) [] 0.

(** A calibration header with two descriptors *)
Definition sample_two_descriptors : calibrationHeaderInfo.t :=
  calibrationHeaderInfo._make 2
    [(2, [x6c; x61; x6d; x70], 17, 1, 2); (0, [x61; x62; x73], 34, 3, 4)] [] 0.

(** A constituent record *)
Definition sample_constituant : merterialReportInfo.t :=
  merterialReportInfo._make (str_of "quartz") (str_of "pass") (float_of_Z 1)
    (float_of_Z 2) (float_of_Z 3) (float_of_Z 4) (float_of_Z 5) (float_of_Z 6)
    (float_of_Z 7) (float_of_Z 8) (float_of_Z 9) 1 (S754_zero false) (S754_zero false).

(** Classifier data with two constituents *)
Definition sample_classifierData : asdClassifierDataInfo.t :=
  asdClassifierDataInfo._make 1 2 (str_of "title") [] [] [] [] [] [] [] [] [] [] [] []
    [] [] [] [] [] [] [] 2 [Some sample_constituant; Some sample_constituant] [] 0.

(** Two dependent variables *)
Definition sample_dependants : dependantInfo.t :=
  dependantInfo._make true 2 (LabelList [str_of "x"; str_of "y"])
    (ValueList [float_of_Z 1; float_of_Z 2]) [] 0.

(** A smart detector record *)
Definition sample_smartDetector : smartDetectorInfo.t :=
  smartDetectorInfo._make 7 (float_of_Z 1) (float_of_Z 2) (float_of_Z 3) 1 2
    (float_of_Z 4) (float_of_Z 5).

(** ** Proof automation *)

(** Linear arithmetic with division and remainder by constants *)
Ltac euclid := Z.to_euclidean_division_equations; lia.

(** Settles the comparisons of a goal whose outcome arithmetic decides *)
Ltac decide_tests :=
  repeat match goal with
    | |- context [?a <? ?b] =>
        first [ replace (a <? b) with true by (symmetry; apply Z.ltb_lt; euclid)
              | replace (a <? b) with false by (symmetry; apply Z.ltb_ge; euclid) ]
    | |- context [?a <=? ?b] =>
        first [ replace (a <=? b) with true by (symmetry; apply Z.leb_le; euclid)
              | replace (a <=? b) with false by (symmetry; apply Z.leb_gt; euclid) ]
    end.

(** Peeling the binds of a parser body that succeeded *)
Ltac peel H :=
  repeat match type of H with
    | bind ?c _ = _ =>
        let e := fresh "e" in
        let x := fresh "x" in
        destruct c as [e|x]; [discriminate H|]; cbn [bind] in H
    | (let '(_, _) := ?p in _) = _ => destruct p
    | (if ?b then _ else _) = _ => destruct b
    end.

(** * Properties *)

(** ** Bytes *)

Lemma ret_inj {A : Type} (a b : A) : @ret A a = ret b -> a = b.
Proof. intros H. injection H. auto. Qed.

Lemma byte_eqb_eq (a b : byte) : Byte.eqb a b = true <-> a = b.
Proof.
  split; [apply Byte.byte_dec_bl | apply Byte.byte_dec_lb].
Qed.

Lemma bytes_eqb_eq (x y : bytes) : bytes_eqb x y = true <-> x = y.
Proof.
  revert y; induction x as [|a x IH]; intros [|b y]; simpl; split; intros H;
    try reflexivity; try discriminate.
  - apply andb_true_iff in H as [Hab Hxy].
    apply byte_eqb_eq in Hab; apply IH in Hxy; now subst.
  - injection H as -> ->. apply andb_true_iff; split;
      [now apply byte_eqb_eq | now apply IH].
Qed.

Lemma b2z_z2b_mod (z : Z) : b2z (z2b z) = z mod 256.
Proof.
  unfold z2b, b2z. pose proof (Z.mod_pos_bound z 256 ltac:(lia)) as B.
  destruct (Byte.of_N (Z.to_N (z mod 256))) as [b|] eqn:E.
  - apply Byte.to_of_N in E. rewrite E. lia.
  - apply Byte.of_N_None_iff in E. lia.
Qed.

Lemma b2z_z2b (z : Z) : 0 <= z < 256 -> b2z (z2b z) = z.
Proof.
  intros H. rewrite b2z_z2b_mod. now apply Z.mod_small.
Qed.

Lemma z2b_b2z (b : byte) : z2b (b2z b) = b.
Proof.
  unfold z2b, b2z. pose proof (Byte.to_N_bounded b).
  rewrite Z.mod_small by lia. rewrite N2Z.id, Byte.of_to_N. reflexivity.
Qed.

Lemma len_app {A : Type} (x y : list A) : len (x ++ y) = len x + len y.
Proof. unfold len. rewrite length_app. lia. Qed.

Lemma len_nonneg {A : Type} (x : list A) : 0 <= len x.
Proof. unfold len. lia. Qed.

Lemma len_pair {A : Type} (a b : A) : len [a; b] = 2.
Proof. reflexivity. Qed.

Lemma length_le_bytes (n : nat) (z : Z) : List.length (le_bytes n z) = n.
Proof.
  revert z; induction n as [|n IH]; intros z; [reflexivity|].
  cbn [le_bytes List.length]. now rewrite IH.
Qed.

Lemma len_le_bytes (n : nat) (z : Z) : len (le_bytes n z) = Z.of_nat n.
Proof. unfold len. now rewrite length_le_bytes. Qed.

Lemma len_zeros (n : nat) : len (zeros n) = Z.of_nat n.
Proof. unfold len, zeros. now rewrite repeat_length. Qed.

(** A window inside the buffer is the Python slice with the same bounds. *)
Lemma slice_window {A : Type} (s : list A) (o k : Z) :
  0 <= o -> 0 <= k -> o + k <= len s ->
  firstn (Z.to_nat k) (skipn (Z.to_nat o) s) = slice s o (o + k).
Proof.
  intros Ho Hk Hl. unfold slice, norm_index.
  destruct (Z.ltb_spec o 0); [lia|].
  destruct (Z.ltb_spec (o + k) 0); [lia|].
  rewrite !Z.min_l by lia. f_equal. lia.
Qed.

(** ** The [struct] layer *)

Lemma window_inr (size : Z) (buf w : bytes) (o : Z) :
  window size buf o = ret w -> 0 <= o -> 0 <= size ->
  o + size <= len buf /\ w = firstn (Z.to_nat size) (skipn (Z.to_nat o) buf).
Proof.
  unfold window. intros H Ho Hs.
  destruct (o <? 0) eqn:E; [apply Z.ltb_lt in E; lia|].
  destruct (len buf - o <? size) eqn:E2; [discriminate|].
  apply Z.ltb_ge in E2. injection H as <-. split; [lia|reflexivity].
Qed.

Lemma pack_float32_length (x : float) (b : bytes) :
  pack_float32 x = ret b -> len b = 4.
Proof.
  unfold pack_float32. intros H.
  assert (G : forall z, len (le_bytes 4 z) = 4) by (intros z; exact (len_le_bytes 4 z)).
  set (y := round_binary32 x) in *. clearbody y.
  destruct y, x; first [discriminate H | apply ret_inj in H; subst b; apply G].
Qed.

Lemma pack_one_length (c : fcode) (v : sval) (b : bytes) :
  pack_one c v = ret b -> len b = Z.of_nat (fsize c).
Proof.
  destruct c as [n|[|] n| |], v as [z|s|x]; cbn [pack_one fsize]; intros H;
    try discriminate.
  - apply ret_inj in H; subst b. rewrite len_app, len_zeros. unfold len.
    rewrite length_firstn. lia.
  - destruct (_ && _); [|discriminate]. apply ret_inj in H; subst b.
    apply len_le_bytes.
  - destruct (_ && _); [|discriminate]. apply ret_inj in H; subst b.
    apply len_le_bytes.
  - now apply pack_float32_length in H.
  - now apply pack_float32_length in H.
  - apply ret_inj in H; subst b. exact (len_le_bytes 8 _).
  - apply ret_inj in H; subst b. exact (len_le_bytes 8 _).
Qed.

(** [struct.pack] returns exactly [struct.calcsize] bytes. *)
Lemma pack_length (fmt : list fcode) : forall (vals : list sval) (b : bytes),
  pack fmt vals = ret b -> len b = calcsize fmt.
Proof.
  induction fmt as [|c fmt IH]; intros [|v vals] b H; cbn [pack] in H;
    try discriminate.
  - apply ret_inj in H; subst b. reflexivity.
  - destruct (pack_one c v) as [e|b1] eqn:E1; [discriminate|].
    cbn [bind] in H.
    destruct (pack fmt vals) as [e|b2] eqn:E2; [discriminate|].
    cbn [bind] in H. apply ret_inj in H; subst b.
    rewrite len_app. cbn [calcsize].
    rewrite (pack_one_length _ _ _ E1), (IH _ _ E2). reflexivity.
Qed.

Lemma calcsize_doubles (n : nat) : calcsize (repeat Fd n) = 8 * Z.of_nat n.
Proof.
  induction n as [|n IH]; [reflexivity|].
  cbn [repeat calcsize fsize]. rewrite IH. lia.
Qed.

Lemma pack_short (z : Z) :
  0 <= z <= 32767 -> pack [Fh] [VInt z] = ret [z2b z; z2b (z / 256)].
Proof.
  intros H. unfold Fh. cbn [pack pack_one].
  change (2 ^ (8 * Z.of_nat 2 - 1)) with 32768. cbv zeta.
  match goal with
  | |- context [(?a <=? z) && (z <? ?b)] =>
      replace ((a <=? z) && (z <? b)) with true
        by (symmetry; apply andb_true_iff; split;
            [apply Z.leb_le|apply Z.ltb_lt]; lia)
  end.
  cbn [bind ret le_bytes app]. rewrite Z.mod_small by lia. reflexivity.
Qed.

(** A length above 32767 does not fit the ['h'] format. *)
Lemma pack_short_overflow (z : Z) : 32767 < z -> pack [Fh] [VInt z] = raise struct_error.
Proof.
  intros H. unfold Fh. cbn [pack pack_one].
  change (2 ^ (8 * Z.of_nat 2 - 1)) with 32768. cbv zeta.
  match goal with
  | |- context [(?a <=? z) && (z <? ?b)] =>
      replace ((a <=? z) && (z <? b)) with false
        by (symmetry; apply andb_false_iff; right; apply Z.ltb_ge; lia)
  end.
  reflexivity.
Qed.

Lemma unpack_short (z : Z) :
  0 <= z <= 32767 -> le_sint [z2b z; z2b (z / 256)] = z.
Proof.
  intros H. unfold le_sint. cbn [le_uint]. rewrite !b2z_z2b_mod.
  change (2 ^ (8 * len [z2b z; z2b (z / 256)])) with 65536.
  assert (E : z mod 256 + 256 * ((z / 256) mod 256 + 256 * 0) = z) by euclid.
  rewrite E. destruct (Z.ltb_spec (2 * z) 65536); lia.
Qed.

Lemma pack_string_exact (b : bytes) : pack [Fs (List.length b)] [VBytes b] = ret b.
Proof.
  cbn [pack pack_one bind ret]. rewrite firstn_all, Nat.sub_diag.
  cbn [zeros repeat]. now rewrite !app_nil_r.
Qed.

Lemma unpack_from_short (z : Z) (rest : bytes) :
  0 <= z <= 32767 ->
  unpack_from [Fh] ([z2b z; z2b (z / 256)] ++ rest) (Some 0) = ret [VInt z].
Proof.
  intros H. unfold unpack_from, window. cbn [need_int bind ret].
  change (calcsize [Fh]) with 2. change (0 <? 0) with false. cbv iota.
  replace (len ([z2b z; z2b (z / 256)] ++ rest) - 0 <? 2) with false
    by (symmetry; apply Z.ltb_ge; rewrite len_app, len_pair;
        pose proof (len_nonneg rest); lia).
  cbn [bind ret]. change (Z.to_nat 2) with 2%nat. change (Z.to_nat 0) with 0%nat.
  cbn [app skipn firstn]. unfold Fh. cbn [unpack_fields fsize firstn unpack_one].
  now rewrite unpack_short.
Qed.

Lemma unpack_from_string_after_short (a b : byte) (bs : bytes) :
  unpack_from [Fs (List.length bs)] ([a; b] ++ bs) (Some (0 + 2)) = ret [VBytes bs].
Proof.
  unfold unpack_from, window. cbn [need_int bind ret].
  replace (calcsize [Fs (List.length bs)]) with (len bs)
    by (cbn [calcsize fsize]; unfold len; lia).
  change (0 + 2 <? 0) with false. cbv iota.
  replace (len ([a; b] ++ bs) - (0 + 2) <? len bs) with false
    by (symmetry; apply Z.ltb_ge; rewrite len_app, len_pair; lia).
  cbn [bind ret]. change (Z.to_nat (0 + 2)) with 2%nat. cbn [app skipn].
  replace (Z.to_nat (len bs)) with (List.length bs) by (unfold len; lia).
  rewrite firstn_all. cbn [unpack_fields fsize unpack_one].
  now rewrite firstn_all.
Qed.

(** ** Sentinel booleans *)

(** C5.  On a buffer of exactly two bytes the boolean decoder answers
    [True] exactly for [FF FF] and [False] exactly for [00 00]; for every
    other pair of bytes its [try] block raises
    [ValueError("Invalid Boolean value")] (the invalid-encoding error) and
    the decoder returns the failure pair [(None, None)]. *)
Theorem parse_Bool_two_bytes : forall b0 b1 : byte,
  (__parse_Bool [b0; b1] (OffInt 0) = ret (Some (true, 2)) <-> b0 = xff /\ b1 = xff)
  /\ (__parse_Bool [b0; b1] (OffInt 0) = ret (Some (false, 2)) <-> b0 = x00 /\ b1 = x00)
  /\ ([b0; b1] <> [xff; xff] -> [b0; b1] <> [x00; x00] ->
      parse_Bool_body [b0; b1] 0 = raise (ValueError "Invalid Boolean value")
      /\ __parse_Bool [b0; b1] (OffInt 0) = ret None).
Proof.
  intros b0 b1.
  assert (Hs : slice [b0; b1] 0 (0 + 2) = [b0; b1]) by reflexivity.
  unfold __parse_Bool, __check_offset, parse_Bool_body.
  change (0 <? len [b0; b1]) with true. cbv iota. rewrite Hs.
  destruct (bytes_eqb [b0; b1] [xff; xff]) eqn:E1.
  - apply bytes_eqb_eq in E1. injection E1 as -> ->.
    repeat split; try reflexivity; try discriminate; intros; try congruence.
    all: destruct H; discriminate.
  - destruct (bytes_eqb [b0; b1] [x00; x00]) eqn:E2.
    + apply bytes_eqb_eq in E2. injection E2 as -> ->.
      repeat split; try reflexivity; try discriminate; intros; try congruence.
      all: destruct H; discriminate.
    + assert (N1 : [b0; b1] <> [xff; xff])
        by (intros H; apply bytes_eqb_eq in H; congruence).
      assert (N2 : [b0; b1] <> [x00; x00])
        by (intros H; apply bytes_eqb_eq in H; congruence).
      repeat split; try reflexivity; try discriminate; intros.
      * destruct H as [-> ->]. contradiction.
      * destruct H as [-> ->]. contradiction.
Qed.

Lemma parse_Bool_two_bytes_witness :
  parse_Bool_body [x01; x00] 0 = raise (ValueError "Invalid Boolean value")
  /\ __parse_Bool [x01; x00] (OffInt 0) = ret None.
Proof.
  apply (proj2 (proj2 (parse_Bool_two_bytes x01 x00))); discriminate.
Defined.

(** ** UTF-8 *)

Lemma cont_payload (k : Z) : 0 <= k < 64 -> cont (z2b (128 + k)) = ret k.
Proof.
  intros H. unfold cont. rewrite b2z_z2b by lia. decide_tests.
  cbn [andb]. f_equal. lia.
Qed.

(** Decoding the encoding of one scalar value gives the value back and
    goes on with the rest. *)
Lemma utf8_decode_char (c : Z) (b rest : bytes) :
  is_scalar c = true ->
  utf8_encode_char c = ret b ->
  utf8_decode (b ++ rest) = (s <- utf8_decode rest ;; ret (c :: s)).
Proof.
  unfold is_scalar, utf8_encode_char. intros Hc Hb.
  assert (R : 0 <= c < 55296 \/ 57344 <= c < 1114112) by lia. clear Hc.
  destruct (Z.ltb_spec c 128).
  { apply ret_inj in Hb; subst b. cbn [app utf8_decode].
    rewrite b2z_z2b by lia. decide_tests. reflexivity. }
  destruct (Z.ltb_spec c 2048).
  { apply ret_inj in Hb; subst b. cbn [app utf8_decode].
    rewrite b2z_z2b by euclid.
    rewrite (cont_payload (c mod 64)) by euclid. cbn [bind ret].
    decide_tests.
    replace ((192 + c / 64 - 192) * 64 + c mod 64) with c by euclid.
    reflexivity. }
  destruct (Z.ltb_spec c 65536).
  { destruct ((55296 <=? c) && (c <? 57344)) eqn:E; [discriminate|].
    apply ret_inj in Hb; subst b. cbn [app utf8_decode].
    rewrite b2z_z2b by euclid.
    rewrite (cont_payload ((c / 64) mod 64)) by euclid.
    rewrite (cont_payload (c mod 64)) by euclid. cbn [bind ret].
    replace ((224 + c / 4096 - 224) * 4096 + (c / 64) mod 64 * 64 + c mod 64)
      with c by euclid.
    rewrite E. decide_tests. reflexivity. }
  apply ret_inj in Hb; subst b. cbn [app utf8_decode].
  rewrite b2z_z2b by euclid.
  rewrite (cont_payload ((c / 4096) mod 64)) by euclid.
  rewrite (cont_payload ((c / 64) mod 64)) by euclid.
  rewrite (cont_payload (c mod 64)) by euclid. cbn [bind ret].
  replace ((240 + c / 262144 - 240) * 262144 + (c / 4096) mod 64 * 4096
           + (c / 64) mod 64 * 64 + c mod 64) with c by euclid.
  decide_tests. reflexivity.
Qed.

Lemma utf8_encode_char_scalar (c : Z) :
  is_scalar c = true -> exists b, utf8_encode_char c = ret b.
Proof.
  unfold is_scalar, utf8_encode_char. intros Hc.
  destruct (c <? 128); [eauto|]. destruct (c <? 2048); [eauto|].
  destruct (c <? 65536); [|eauto].
  destruct ((55296 <=? c) && (c <? 57344)) eqn:E; [|eauto]. lia.
Qed.

(** A string of scalar values always has a UTF-8 encoding. *)
Lemma utf8_encode_scalars (s : pystr) :
  forallb is_scalar s = true -> exists bs, utf8_encode s = ret bs.
Proof.
  induction s as [|c s IH]; intros Hs; [now exists []|].
  cbn [forallb] in Hs. apply andb_true_iff in Hs as [Hc Hs].
  destruct (utf8_encode_char_scalar c Hc) as [b Eb].
  destruct (IH Hs) as [r Er]. exists (b ++ r).
  cbn [utf8_encode]. rewrite Eb, Er. reflexivity.
Qed.

Lemma utf8_decode_encode (s : pystr) : forall bs : bytes,
  forallb is_scalar s = true ->
  utf8_encode s = ret bs ->
  utf8_decode bs = ret s.
Proof.
  induction s as [|c s IH]; intros bs Hs He.
  - apply ret_inj in He; subst bs. reflexivity.
  - cbn [forallb] in Hs. apply andb_true_iff in Hs as [Hc Hs].
    cbn [utf8_encode] in He.
    destruct (utf8_encode_char c) as [e|b] eqn:Eb; [discriminate|].
    cbn [bind] in He.
    destruct (utf8_encode s) as [e|r] eqn:Er; [discriminate|].
    cbn [bind] in He. apply ret_inj in He; subst bs.
    rewrite (utf8_decode_char c b r Hc Eb), (IH r Hs eq_refl). reflexivity.
Qed.

(** ** Length-prefixed strings *)

(** C6, amended.  For every string [s] of Unicode scalar values whose
    UTF-8 encoding [bs] has at most 32767 bytes, the empty string and
    strings with multi-byte sequences included, [__wrap_bstr] produces the
    two length bytes followed by [bs], and [__parse_bstr] on those bytes
    yields [s] back, at the offset just past them. *)
Theorem bstr_roundtrip_within_int16 : forall (s : pystr) (bs : bytes),
  forallb is_scalar s = true ->
  utf8_encode s = ret bs ->
  len bs <= 32767 ->
  exists byteStream : bytes,
    __wrap_bstr (ArgStr s) = ret (Some (byteStream, 2 + len bs))
    /\ __parse_bstr byteStream (OffInt 0) = ret (Some (s, 2 + len bs)).
Proof.
  intros s bs Hs He Hl. pose proof (len_nonneg bs) as H0.
  exists ([z2b (len bs); z2b (len bs / 256)] ++ bs). split.
  - unfold __wrap_bstr, wrap_bstr_body. rewrite He. cbn [bind ret].
    rewrite pack_short by lia. cbn [bind ret].
    rewrite pack_string_exact. cbn [bind catch_struct_error ret].
    rewrite len_app. reflexivity.
  - unfold __parse_bstr, __check_offset.
    replace (0 <? len ([z2b (len bs); z2b (len bs / 256)] ++ bs)) with true
      by (symmetry; apply Z.ltb_lt; rewrite len_app, len_pair; lia).
    unfold parse_bstr_body.
    rewrite unpack_from_short by lia. cbn [bind ret]. cbv zeta.
    change (geti [VInt (len bs)] 0) with (len bs).
    replace (0 <=? len bs) with true by (symmetry; apply Z.leb_le; lia).
    replace (Z.to_nat (len bs)) with (List.length bs) by (unfold len; lia).
    rewrite unpack_from_string_after_short. cbn [bind ret].
    change (getb [VBytes bs] 0) with bs.
    rewrite (utf8_decode_encode s bs Hs He). cbn [bind ret].
    replace (len bs <? 0) with false by (symmetry; apply Z.ltb_ge; lia).
    cbn [catch_struct_error ret]. reflexivity.
Qed.

Lemma bstr_roundtrip_within_int16_witness :
  exists byteStream : bytes,
    __wrap_bstr (ArgStr [233; 8364; 128512]) = ret (Some (byteStream, 2 + 9))
    /\ __parse_bstr byteStream (OffInt 0) = ret (Some ([233; 8364; 128512], 2 + 9)).
Proof.
  apply (bstr_roundtrip_within_int16 [233; 8364; 128512]
           [xc3; xa9; xe2; x82; xac; xf0; x9f; x98; x80]).
  - reflexivity.
  - reflexivity.
  - vm_compute. discriminate.
Defined.

Lemma bstr_roundtrip_empty :
  __wrap_bstr (ArgStr []) = ret (Some ([x00; x00], 2))
  /\ __parse_bstr [x00; x00] (OffInt 0) = ret (Some ([], 2)).
Proof. split; reflexivity. Qed.

(** Past 32767 bytes the encoder catches the [struct.error] of the length
    and returns the failure pair. *)
Lemma wrap_bstr_rejects_long_strings (s : pystr) (bs : bytes) :
  utf8_encode s = ret bs -> 32767 < len bs -> __wrap_bstr (ArgStr s) = ret None.
Proof.
  intros He Hl. unfold __wrap_bstr, wrap_bstr_body. rewrite He. cbn [bind ret].
  rewrite pack_short_overflow by lia. reflexivity.
Qed.

Lemma wrap_bstr_long_string : __wrap_bstr (ArgStr sample_long_string) = ret None.
Proof. vm_compute. reflexivity. Qed.

(** C6 as stated fails: the string of 32768 letters [a] is a string of
    scalar values, and no bytes come out of [__wrap_bstr] for it, so
    nothing decodes back to it. *)
Lemma bstr_roundtrip_fails_beyond_int16 :
  forallb is_scalar sample_long_string = true
  /\ ~ (exists (byteStream : bytes) (n : Z),
          __wrap_bstr (ArgStr sample_long_string) = ret (Some (byteStream, n))
          /\ __parse_bstr byteStream (OffInt 0) = ret (Some (sample_long_string, n))).
Proof.
  split; [vm_compute; reflexivity|].
  intros (byteStream & n & Hw & _).
  rewrite wrap_bstr_long_string in Hw. unfold ret in Hw. congruence.
Qed.

(** ** Metadata *)

Lemma validate_fileVersion_offset (stream : option bytes) :
  snd (__validate_fileVersion stream) = 3.
Proof.
  unfold __validate_fileVersion. destruct (bind _ _); reflexivity.
Qed.

Lemma parse_metadata_body_consumes (stream : bytes) (o : Z) (self self' : ASDFile) (o' : Z) :
  parse_metadata_body stream o self = ret (self', o') ->
  o' = o + 481 /\ (0 <= o -> o + 481 <= len stream).
Proof.
  unfold parse_metadata_body. intros H.
  destruct (unpack_from asdMetadataFormat stream (Some o)) as [e|v] eqn:Hu;
    [discriminate|].
  cbn [bind] in H.
  destruct (unpack_from (repeat Fh 9) (getb v 1) (Some 0)) as [e|w] eqn:Hw;
    [discriminate|].
  cbn [bind] in H.
  destruct (__parse_ASDFilewhen w) as [e|wd] eqn:Hd; [discriminate|].
  cbn [bind] in H. apply ret_inj in H.
  assert (Ho' : o' = o + 481) by (now apply (f_equal snd) in H).
  clear H. split; [assumption|].
  intros Ho. unfold unpack_from in Hu. cbn [need_int bind ret] in Hu.
  destruct (window (calcsize asdMetadataFormat) stream o) as [e|win] eqn:Hwin;
    [discriminate|].
  apply window_inr in Hwin; [|assumption|vm_compute; discriminate].
  change (calcsize asdMetadataFormat) with 481 in Hwin. lia.
Qed.

(** C9.  A successful [__parse_metadata] at offset [o] returns [o + 481]
    and needs the 481 bytes to be there; [read] starts it at the offset 3
    that [__validate_fileVersion] returns, so the record is bytes 3 to 483;
    and [__wrap_metadata] returns either 481 bytes with the length 481 or
    its error value [False], never bytes of another length. *)
Theorem metadata_record_is_481_bytes :
  (forall (stream : bytes) (self self' : ASDFile) (o o' : Z),
      0 <= o ->
      __parse_metadata stream self (OffInt o) = ret (self', OffInt o') ->
      o' = o + 481 /\ o + 481 <= len stream)
  /\ (forall stream : option bytes, snd (__validate_fileVersion stream) = 3)
  /\ (forall self : ASDFile,
         __wrap_metadata self = WrappedFalse
         \/ exists byteStream : bytes,
              __wrap_metadata self = Wrapped byteStream 481 /\ len byteStream = 481).
Proof.
  split; [|split].
  - intros stream self self' o o' Ho H.
    unfold __parse_metadata, __check_offset in H.
    destruct (o <? len stream); [|discriminate].
    destruct (parse_metadata_body stream o self) as [e|[s1 o1]] eqn:E;
      [discriminate|].
    apply ret_inj in H. apply (f_equal snd) in H. cbn [snd] in H.
    injection H as <-.
    destruct (parse_metadata_body_consumes _ _ _ _ _ E) as [-> Hl]. auto.
  - exact validate_fileVersion_offset.
  - intros self. unfold __wrap_metadata.
    destruct (bind (attr (metadata self)) _) as [e|b] eqn:E; [now left|].
    right. exists b.
    assert (L : len b = 481).
    { destruct (metadata self) as [md|]; [|discriminate]. cbn [attr bind ret] in E.
      unfold wrap_metadata_body in E.
      destruct (__wrap_ASDFilewhen _ _) as [e|wb]; [discriminate|].
      cbn [bind] in E. now apply pack_length in E. }
    rewrite L. split; reflexivity.
Qed.

Lemma metadata_record_is_481_bytes_witness :
  484 = 3 + 481 /\ 3 + 481 <= len sample_v1.
Proof.
  refine (proj1 metadata_record_is_481_bytes sample_v1 __init__
            (match __parse_metadata sample_v1 __init__ (OffInt 3) with
             | inr (s, _) => s
             | inl _ => __init__
             end)
            3 484 _ _).
  - lia.
  - vm_compute. reflexivity.
Defined.

(** The encoder on the record decoded from [sample_v1] gives back bytes 3
    to 483 of the file. *)
Lemma wrap_metadata_sample :
  __wrap_metadata (fst (read sample_host __init__ (Some sample_v1)))
  = Wrapped (slice sample_v1 3 484) 481.
Proof. vm_compute. reflexivity. Qed.

(** ** Spectrum arrays *)

(** A spectrum that fits decodes from the [8 * channels] bytes at the
    offset, and the slice recorded with it is the one that follows. *)
Lemma parse_spectra_ok (stream : bytes) (self : ASDFile) (md : asdMetadatainfo.t) (o : Z) :
  metadata self = Some md ->
  0 <= asdMetadatainfo.channels md ->
  0 <= o < len stream ->
  o + 8 * asdMetadatainfo.channels md <= len stream ->
  __parse_spectra stream self (OffInt o)
  = ret (SpectraOk (spectra_at stream o (asdMetadatainfo.channels md))
           (slice stream (o + asdMetadatainfo.channels md * 8)
              (o + asdMetadatainfo.channels md * 8 + asdMetadatainfo.channels md * 8))
           (len (slice stream (o + asdMetadatainfo.channels md * 8)
                   (o + asdMetadatainfo.channels md * 8 + asdMetadatainfo.channels md * 8)))
           (o + asdMetadatainfo.channels md * 8)).
Proof.
  intros Hm Hn Ho Hl. unfold __parse_spectra, __check_offset.
  replace (o <? len stream) with true by (symmetry; apply Z.ltb_lt; lia).
  unfold parse_spectra_body. rewrite Hm. cbn [attr bind ret].
  unfold doubles_format.
  replace (asdMetadatainfo.channels md <? 0) with false
    by (symmetry; apply Z.ltb_ge; lia).
  cbn [bind ret]. unfold unpack_from, window. cbn [need_int bind ret].
  rewrite calcsize_doubles, Z2Nat.id by lia.
  replace (o <? 0) with false by (symmetry; apply Z.ltb_ge; lia).
  replace (len stream - o <? 8 * asdMetadatainfo.channels md) with false
    by (symmetry; apply Z.ltb_ge; lia).
  cbn [bind ret]. rewrite slice_window by lia. reflexivity.
Qed.

(** ** Reference file header *)

(** The sibling parser records the slice it decoded: when the header and
    its description decode, [byteStream] is [stream[initOffset:offset]]. *)
Lemma parse_referenceFileHeader_records_its_slice (stream : bytes) (self self' : ASDFile)
  (o o' : Z) :
  parse_referenceFileHeader_body stream self o = ret (self', OffInt o') ->
  exists h : asdreferenceFileHeaderInfo.t,
    referenceFileHeader self' = Some h
    /\ asdreferenceFileHeaderInfo.byteStream h = slice stream o o'
    /\ asdreferenceFileHeaderInfo.byteStreamLength h = len (slice stream o o').
Proof.
  unfold parse_referenceFileHeader_body. intros H. peel H.
  apply ret_inj in H.
  match type of H with
  | (_, off_of ?off) = _ => destruct off as [endOffset|]; [|discriminate H]
  end.
  cbn [off_of slice_opt] in H. injection H as <- <-.
  eexists. repeat split.
Qed.

(** ** Calibration series *)

Lemma calibration_loop_2_0_2 (stream : bytes) (self : ASDFile) (md : asdMetadatainfo.t)
  (o : Z) (d1 d2 d3 : calibrationSerie) :
  metadata self = Some md ->
  0 <= asdMetadatainfo.channels md ->
  cbtype d1 = 2 -> cbtype d2 = 0 -> cbtype d3 = 2 ->
  0 <= o < len stream ->
  o + 24 * asdMetadatainfo.channels md <= len stream ->
  let n := asdMetadatainfo.channels md in
  calibration_loop stream [d1; d2; d3] (self, OffInt o)
  = (set_calibrationSeriesLMP
       (set_calibrationSeriesABS
          (set_calibrationSeriesLMP self (Some (spectra_at stream o n)))
          (Some (spectra_at stream (o + n * 8) n)))
       (Some (spectra_at stream (o + n * 8 + n * 8) n)),
     OffInt (o + n * 8 + n * 8 + n * 8)).
Proof.
  intros Hm Hn H1 H2 H3 Ho Hl n. subst n.
  cbn [calibration_loop]. rewrite H1, H2, H3.
  change (calibration_slot 2) with (Some set_calibrationSeriesLMP).
  change (calibration_slot 0) with (Some set_calibrationSeriesABS).
  cbn [fst snd].
  rewrite (parse_spectra_ok stream self md o Hm Hn Ho) by lia.
  cbn [ret].
  rewrite (parse_spectra_ok stream _ md (o + asdMetadatainfo.channels md * 8))
    by (try exact Hm; lia).
  cbn [ret fst snd].
  rewrite (parse_spectra_ok stream _ md
             (o + asdMetadatainfo.channels md * 8 + asdMetadatainfo.channels md * 8))
    by (try exact Hm; lia).
  reflexivity.
Qed.

(** ** The orchestrator *)

Section OrchestratorFacts.

Variable host : Host.

Lemma load_stream (self : ASDFile) (content : bytes) :
  asdFileStream (load self content) = Some (stream_of content).
Proof.
  unfold load, stream_of.
  destruct (bytes_eqb (slice_from content (-3)) [xff; xfe; xfd]); reflexivity.
Qed.

Lemma parse_auditLog_keeps_calibration (stream : bytes) (self self' : ASDFile)
  (off off' : pyoff) :
  __parse_auditLog host stream self off = ret (self', off') ->
  same_calibration self' self.
Proof.
  unfold __parse_auditLog, __check_offset. intros H.
  assert (B : forall o, same_calibration
                (fst match parse_auditLog_body host stream self o with
                     | inr r => r
                     | inl _ => (self, OffNone)
                     end) self).
  { intros o. destruct (parse_auditLog_body host stream self o) as [e|r] eqn:E;
      [split; reflexivity|].
    unfold parse_auditLog_body in E. peel E; try discriminate E.
    apply ret_inj in E. subst r. split; reflexivity. }
  destruct off as [o| |]; try discriminate H.
  - destruct (o <? len stream).
    + apply ret_inj in H. specialize (B o). rewrite H in B. exact B.
    + apply ret_inj in H. injection H as <- _. split; reflexivity.
  - apply ret_inj in H. injection H as <- _. split; reflexivity.
Qed.

Lemma parse_signature_keeps_calibration (stream : bytes) (self self' : ASDFile)
  (off off' : pyoff) :
  __parse_signature stream self off = ret (self', off') ->
  same_calibration self' self.
Proof.
  unfold __parse_signature, __check_offset. intros H.
  assert (B : forall o, same_calibration
                (fst match parse_signature_body stream self o with
                     | inr r => r
                     | inl _ => (self, OffNone)
                     end) self).
  { intros o. destruct (parse_signature_body stream self o) as [e|r] eqn:E;
      [split; reflexivity|].
    unfold parse_signature_body in E. peel E.
    apply ret_inj in E. subst r. split; reflexivity. }
  destruct off as [o| |]; try discriminate H.
  - destruct (o <? len stream).
    + apply ret_inj in H. specialize (B o). rewrite H in B. exact B.
    + apply ret_inj in H. injection H as <- _. split; reflexivity.
  - apply ret_inj in H. injection H as <- _. split; reflexivity.
Qed.

(** The audit-log and signature block leaves the calibration series as
    they are. *)
Lemma audit_signature_keep_calibration (stream : bytes) (st : ASDFile * pyoff) :
  same_calibration
    (fst (section_pair (__parse_auditLog host stream) (__parse_signature stream) st))
    (fst st).
Proof.
  unfold section_pair.
  destruct (__parse_auditLog host stream (fst st) (snd st)) as [e|[s1 o1]] eqn:E1;
    [split; reflexivity|].
  apply parse_auditLog_keeps_calibration in E1. cbn [fst snd].
  destruct (__parse_signature stream s1 o1) as [e|[s2 o2]] eqn:E2; [exact E1|].
  apply parse_signature_keeps_calibration in E2. cbn [fst].
  destruct E1, E2. split; congruence.
Qed.

(** C4.  Let [read] decode a file of version 7 or 8 and let the
    calibration header, decoded up to offset [o], list three descriptors
    with type tags 2, 0, 2, with the three series of [n] channels present
    after it.  Then the series are read in descriptor order from [o],
    [o + 8n] and [o + 16n]: after [read] the Lamp slot holds the third (it
    replaced the first) and the Absolute slot holds the second. *)
Theorem calibration_dispatch_last_writer_wins :
  forall (self : ASDFile) (content : bytes) (self7 : ASDFile) (o : Z)
         (h : calibrationHeaderInfo.t) (md : asdMetadatainfo.t)
         (d1 d2 d3 : calibrationSerie),
    let stream := stream_of content in
    let version := fst (__validate_fileVersion (Some stream)) in
    let st6 := read_through_dependants stream
                 (set_asdFileVersion (load self content) version) 3 in
    let n := asdMetadatainfo.channels md in
    7 <= version ->
    __parse_calibrationHeader stream (fst st6) (snd st6) = ret (self7, OffInt o) ->
    calibrationHeader self7 = Some h ->
    0 < calibrationHeaderInfo.calibrationNum h ->
    calibrationHeaderInfo.calibrationSeries h = [d1; d2; d3] ->
    cbtype d1 = 2 -> cbtype d2 = 0 -> cbtype d3 = 2 ->
    metadata self7 = Some md ->
    0 <= n ->
    0 <= o < len stream ->
    o + 24 * n <= len stream ->
    calibrationSeriesLMP (fst (read host self (Some content)))
      = Some (spectra_at stream (o + 16 * n) n)
    /\ calibrationSeriesABS (fst (read host self (Some content)))
      = Some (spectra_at stream (o + 8 * n) n).
Proof.
  intros self content self7 o h md d1 d2 d3 stream version st6 n
    Hv Hh Hc Hnum Hs H1 H2 H3 Hm Hn Ho Hl.
  unfold read. rewrite load_stream. fold stream.
  pose proof (validate_fileVersion_offset (Some stream)) as H3'.
  destruct (__validate_fileVersion (Some stream)) as [v off] eqn:Ev.
  cbn [snd] in H3'. subst off. cbn [fst] in version. subst version.
  change (asdFileStream (set_asdFileVersion (load self content) v))
    with (asdFileStream (load self content)).
  rewrite load_stream. fold stream. cbn [fst].
  unfold read_sections.
  change (asdFileVersion (set_asdFileVersion (load self content) v)) with v.
  fold st6.
  replace (7 <=? v) with true by (symmetry; apply Z.leb_le; lia).
  unfold read_calibration. rewrite Hh. cbn [ret].
  unfold read_calibrationSeries. cbn [fst]. rewrite Hc.
  replace (0 <? calibrationHeaderInfo.calibrationNum h) with true
    by (symmetry; apply Z.ltb_lt; lia).
  rewrite Hs.
  rewrite (calibration_loop_2_0_2 stream self7 md o d1 d2 d3 Hm Hn H1 H2 H3 Ho Hl).
  fold n.
  replace (o + n * 8 + n * 8) with (o + 16 * n) by lia.
  replace (o + n * 8) with (o + 8 * n) by lia.
  destruct (8 <=? v).
  - match goal with
    | |- context [section_pair ?a ?b ?st] =>
        destruct (audit_signature_keep_calibration stream st) as [EL EA]
    end.
    rewrite EL, EA. split; reflexivity.
  - split; reflexivity.
Qed.

(** [read] returns [True] whatever happened. *)
Lemma read_always_reports_success (self : ASDFile) (file : option bytes) :
  snd (read host self file) = true.
Proof.
  unfold read.
  destruct (__validate_fileVersion _) as [version offset].
  destruct (asdFileStream _); reflexivity.
Qed.

(** When the metadata record cannot be packed, [write] leaves with an
    exception (unpacking the [False] of [__wrap_metadata] raises) and
    nothing but the version tag has been written. *)
Lemma write_raises_when_metadata_is_not_packed (self : ASDFile) (md : asdMetadatainfo.t) :
  0 < asdFileVersion self ->
  metadata self = Some md ->
  __wrap_metadata self = WrappedFalse ->
  exists (out : bytes) (e : exn),
    write host self = (out, Some e)
    /\ (out = [] \/ __setFileVersion self = ret (out, 3)).
Proof.
  intros Hv Hm Hw. unfold write, write_steps.
  replace (0 <? asdFileVersion self) with true by (symmetry; apply Z.ltb_lt; lia).
  rewrite Hm, Hw. cbn [when_set app emit].
  destruct (__setFileVersion self) as [e|[tag n]] eqn:E; cbn [bind ret fst run_writes].
  - exists [], e. split; [reflexivity|now left].
  - exists tag, TypeError. split; [reflexivity|]. right.
    unfold __setFileVersion in E.
    destruct (if asdFileVersion self =? 1 then _ else _) as [e'|vb];
      cbn [bind ret] in E; [discriminate E|].
    injection E as <- <-. reflexivity.
Qed.

Lemma write_unpackable_metadata :
  __wrap_metadata (set_metadata (set_asdFileVersion __init__ 1)
                     (Some sample_unpackable_metadata)) = WrappedFalse
  /\ write host (set_metadata (set_asdFileVersion __init__ 1)
                   (Some sample_unpackable_metadata))
     = ([x41; x53; x44], Some TypeError).
Proof. vm_compute. split; reflexivity. Qed.

(** C2.  The code at two files whose mandatory sections fail.  With the
    metadata record cut short nothing is decoded, with the spectrum cut
    short the spectrum record holds three [None]s; in both cases [read]
    returns [True]. *)
Theorem read_reports_success_when_mandatory_section_fails :
  (metadata (fst (read host __init__ (Some sample_cut_metadata))) = None
   /\ spectrumData (fst (read host __init__ (Some sample_cut_metadata))) = None
   /\ snd (read host __init__ (Some sample_cut_metadata)) = true)
  /\ (option_map asdMetadatainfo.channels
        (metadata (fst (read host __init__ (Some sample_cut_spectrum)))) = Some 2
      /\ spectrumData (fst (read host __init__ (Some sample_cut_spectrum)))
           = Some (spectrumDataInfo._make None None None)
      /\ snd (read host __init__ (Some sample_cut_spectrum)) = true).
Proof.
  vm_compute. repeat split.
Qed.

(** The part of the propagation policy that the code follows: an invalid
    flag loses the reference header (and the reference data after it) and
    keeps metadata and spectrum. *)
Lemma optional_section_failure_keeps_earlier_sections :
  referenceFileHeader (fst (read host __init__ (Some sample_v2_bad_flag))) = None
  /\ referenceData (fst (read host __init__ (Some sample_v2_bad_flag))) = None
  /\ option_map asdMetadatainfo.channels
       (metadata (fst (read host __init__ (Some sample_v2_bad_flag)))) = Some 1
  /\ option_map spectrumDataInfo.spectra
       (spectrumData (fst (read host __init__ (Some sample_v2_bad_flag))))
     = Some (Some [float_of_Z 1]).
Proof.
  vm_compute. repeat split.
Qed.

(** C3.  The code at [sample_v1].  The spectrum is decoded from bytes 484
    to 491, which are not empty, yet the record stores the empty slice
    that follows them and the length 0; the metadata record, decoded from
    bytes 3 to 483, stores the first 484 bytes of the file and the length
    484. *)
Theorem spectrum_byteStream_is_the_following_slice :
  spectrumData (fst (read host __init__ (Some sample_v1)))
    = Some (spectrumDataInfo._make (Some (spectra_at sample_v1 484 1)) (Some []) (Some 0))
  /\ slice sample_v1 484 492 = double_bytes (float_of_Z 1)
  /\ option_map asdMetadatainfo.byteStream
       (metadata (fst (read host __init__ (Some sample_v1))))
     = Some (slice sample_v1 0 484)
  /\ option_map asdMetadatainfo.byteStreamLength
       (metadata (fst (read host __init__ (Some sample_v1)))) = Some 484.
Proof.
  vm_compute. repeat split.
Qed.

(** C1.  The code at [sample_v1], a file without trailing marker: [write]
    on the decoded object gives the 492 bytes of the file back, while the
    recorded lengths are 484 and 0.  And at [sample_v1_trailing]: the
    decoded spectrum record stores the byte after the spectrum, and the
    record decoded from what [write] produces stores none. *)
Theorem written_length_differs_from_recorded_lengths :
  write host (fst (read host __init__ (Some sample_v1))) = (sample_v1, None)
  /\ len sample_v1 = 492
  /\ bom (fst (read host __init__ (Some sample_v1))) = None
  /\ recorded_byte_lengths (fst (read host __init__ (Some sample_v1))) = [484; 0]
  /\ sum_Z (recorded_byte_lengths (fst (read host __init__ (Some sample_v1)))) = 484
  /\ option_map spectrumDataInfo.byteStream
       (spectrumData (fst (read host __init__ (Some sample_v1_trailing))))
     = Some (Some [x01])
  /\ option_map spectrumDataInfo.byteStream
       (spectrumData
          (fst (read host __init__
                  (Some (fst (write host
                                (fst (read host __init__ (Some sample_v1_trailing)))))))))
     = Some (Some []).
Proof.
  vm_compute. repeat split.
Qed.

End OrchestratorFacts.

Lemma calibration_dispatch_last_writer_wins_witness :
  calibrationSeriesLMP (fst (read sample_host __init__ (Some sample_v7)))
    = Some (spectra_at (stream_of sample_v7) (662 + 16 * 1) 1)
  /\ calibrationSeriesABS (fst (read sample_host __init__ (Some sample_v7)))
    = Some (spectra_at (stream_of sample_v7) (662 + 8 * 1) 1).
Proof.
  apply (calibration_dispatch_last_writer_wins sample_host __init__ sample_v7
           (set_calibrationHeader
              (fst (read_through_dependants sample_v7
                      (set_asdFileVersion (load __init__ sample_v7) 7) 3))
              (Some sample_calibrationHeader))
           662 sample_calibrationHeader
           (sample_decoded_metadata (slice_to sample_v7 484))
           (2, [], 0, 0, 0) (0, [], 0, 0, 0) (2, [], 0, 0, 0)).
  - vm_compute. discriminate.
  - vm_compute. reflexivity.
  - reflexivity.
  - reflexivity.
  - reflexivity.
  - reflexivity.
  - reflexivity.
  - reflexivity.
  - vm_compute. reflexivity.
  - vm_compute. discriminate.
  - vm_compute. split; [discriminate|reflexivity].
  - vm_compute. discriminate.
Defined.

(** The three series of [sample_v7] in file order are 5.0, 6.0 and 7.0:
    Lamp ends with 7.0 and Absolute with 6.0. *)
Lemma sample_v7_series :
  spectra_at (stream_of sample_v7) 662 1 = [float_of_Z 5]
  /\ spectra_at (stream_of sample_v7) (662 + 8 * 1) 1 = [float_of_Z 6]
  /\ spectra_at (stream_of sample_v7) (662 + 16 * 1) 1 = [float_of_Z 7].
Proof. vm_compute. repeat split. Qed.

(** ** Derived quantities *)

(** An indexed map over an array touches entry [i] with index [start + i]. *)
Lemma nth_error_indexed_map (g : nat * float -> float) (arr : list float) :
  forall (start i : nat),
    nth_error (map g (combine (seq start (List.length arr)) arr)) i
    = option_map (fun x => g ((start + i)%nat, x)) (nth_error arr i).
Proof.
  induction arr as [|x arr IH]; intros start i.
  - destruct i; reflexivity.
  - cbn [List.length seq combine map]. destruct i as [|i].
    + cbn [nth_error option_map]. now rewrite Nat.add_0_r.
    + cbn [nth_error]. rewrite IH. now rewrite Nat.add_succ_r.
Qed.

(** [arr[lo:hi] = f(arr[lo:hi])] rewrites the entries with [lo <= i < hi]
    and leaves the others. *)
Lemma nth_error_update_slice (f : float -> float) (arr : list float) (lo hi : Z) (i : nat) :
  nth_error (update_slice f arr lo hi) i
  = option_map (fun x => if (lo <=? Z.of_nat i) && (Z.of_nat i <? hi) then f x else x)
      (nth_error arr i).
Proof.
  unfold update_slice. rewrite nth_error_indexed_map. reflexivity.
Qed.

(** A slice assignment keeps the length of the array. *)
Lemma len_update_slice (f : float -> float) (arr : list float) (lo hi : Z) :
  len (update_slice f arr lo hi) = len arr.
Proof.
  unfold update_slice, len.
  rewrite length_map, length_combine, length_seq, Nat.min_id. reflexivity.
Qed.

(** X1.  The three regions of [__normalise_spectrum], for every array and every
    metadata record whose splice indices are ordered and inside the array:
    below [splice1] the entry is divided by the integration time, from
    [splice1] up to [splice2] it is multiplied by [swir1Gain] and divided
    by 2048, from [splice2] on it is multiplied by [swir2Gain] and divided
    by 2048. *)
Lemma normalise_regions (self : ASDFile) (md : asdMetadatainfo.t) (arr : list float)
  (s1 s2 : Z) :
  metadata self = Some md ->
  int_of_float (asdMetadatainfo.splice1_wavelength md) = ret s1 ->
  int_of_float (asdMetadatainfo.splice2_wavelength md) = ret s2 ->
  0 <= s1 <= s2 -> s2 <= len arr ->
  exists r : list float,
    __normalise_spectrum self (PyArray arr) = ret r
    /\ forall (i : nat) (x : float),
         nth_error arr i = Some x ->
         nth_error r i
         = Some (if Z.of_nat i <? s1
                 then fdiv x (float_of_Z (asdMetadatainfo.intergrationTime_ms md))
                 else if Z.of_nat i <? s2
                 then fdiv (fmul x (float_of_Z (asdMetadatainfo.swir1Gain md)))
                        (float_of_Z 2048)
                 else fdiv (fmul x (float_of_Z (asdMetadatainfo.swir2Gain md)))
                        (float_of_Z 2048)).
Proof.
  intros Hm H1 H2 Hs Hl. unfold __normalise_spectrum.
  rewrite Hm. cbn [bind ret attr]. rewrite H1, H2. cbn [bind ret].
  eexists. split; [reflexivity|].
  intros i x Hx.
  assert (Hi : Z.of_nat i < len arr).
  { unfold len. apply Nat2Z.inj_lt. apply nth_error_Some. congruence. }
  assert (N1 : norm_index (len arr) s1 = s1).
  { unfold norm_index. destruct (Z.ltb_spec s1 0); lia. }
  assert (N2 : norm_index (len arr) s2 = s2).
  { unfold norm_index. destruct (Z.ltb_spec s2 0); lia. }
  rewrite N1, N2.
  rewrite !nth_error_update_slice, Hx. cbn [option_map]. f_equal.
  destruct (Z.ltb_spec (Z.of_nat i) s1) as [L1|L1].
  - replace (0 <=? Z.of_nat i) with true by (symmetry; apply Z.leb_le; lia).
    replace (s1 <=? Z.of_nat i) with false by (symmetry; apply Z.leb_gt; lia).
    replace (s2 <=? Z.of_nat i) with false by (symmetry; apply Z.leb_gt; lia).
    reflexivity.
  - replace (s1 <=? Z.of_nat i) with true by (symmetry; apply Z.leb_le; lia).
    cbn [andb].
    replace (0 <=? Z.of_nat i) with true by (symmetry; apply Z.leb_le; lia).
    cbn [andb].
    destruct (Z.ltb_spec (Z.of_nat i) s2) as [L2|L2].
    + replace (s2 <=? Z.of_nat i) with false by (symmetry; apply Z.leb_gt; lia).
      reflexivity.
    + replace (s2 <=? Z.of_nat i) with true by (symmetry; apply Z.leb_le; lia).
      replace (Z.of_nat i <? len arr) with true by (symmetry; apply Z.ltb_lt; lia).
      reflexivity.
Qed.

Lemma normalise_regions_witness :
  exists r : list float,
    __normalise_spectrum (set_metadata __init__ (Some sample_normalise_metadata))
      (PyArray (map float_of_Z [2; 2; 2; 2; 2; 2; 2; 2; 2; 2])) = ret r
    /\ forall (i : nat) (x : float),
         nth_error (map float_of_Z [2; 2; 2; 2; 2; 2; 2; 2; 2; 2]) i = Some x ->
         nth_error r i
         = Some (if Z.of_nat i <? 3
                 then fdiv x (float_of_Z 2)
                 else if Z.of_nat i <? 7
                 then fdiv (fmul x (float_of_Z 4096)) (float_of_Z 2048)
                 else fdiv (fmul x (float_of_Z 2048)) (float_of_Z 2048)).
Proof.
  apply (normalise_regions (set_metadata __init__ (Some sample_normalise_metadata))
           sample_normalise_metadata
           (map float_of_Z [2; 2; 2; 2; 2; 2; 2; 2; 2; 2]) 3 7).
  - reflexivity.
  - vm_compute. reflexivity.
  - vm_compute. reflexivity.
  - lia.
  - vm_compute. discriminate.
Defined.

(** C7.  With 10 channels, splice wavelengths 3 and 7, integration time
    2 and gains 4096 and 2048, the spectrum of ten 2.0 normalises to
    1, 1, 1, 4, 4, 4, 4, 2, 2, 2: indices below 3 are divided by the
    integration time, indices 3 to 6 are multiplied by 4096 and divided by
    2048, indices 7 to 9 are multiplied by 2048 and divided by 2048. *)
Theorem normalise_splice_example : forall (self : ASDFile) (md : asdMetadatainfo.t),
  metadata self = Some md ->
  asdMetadatainfo.channels md = 10 ->
  asdMetadatainfo.splice1_wavelength md = float_of_Z 3 ->
  asdMetadatainfo.splice2_wavelength md = float_of_Z 7 ->
  asdMetadatainfo.intergrationTime_ms md = 2 ->
  asdMetadatainfo.swir1Gain md = 4096 ->
  asdMetadatainfo.swir2Gain md = 2048 ->
  __normalise_spectrum self (PyArray (map float_of_Z [2; 2; 2; 2; 2; 2; 2; 2; 2; 2]))
  = ret (map float_of_Z [1; 1; 1; 4; 4; 4; 4; 2; 2; 2]).
Proof.
  intros self md Hm _ H1 H2 Hi Hg1 Hg2.
  unfold __normalise_spectrum. rewrite Hm. cbn [attr bind ret].
  rewrite H1, H2, Hi, Hg1, Hg2. vm_compute. reflexivity.
Qed.

Lemma normalise_splice_example_witness :
  __normalise_spectrum (set_metadata __init__ (Some sample_normalise_metadata))
    (PyArray (map float_of_Z [2; 2; 2; 2; 2; 2; 2; 2; 2; 2]))
  = ret (map float_of_Z [1; 1; 1; 4; 4; 4; 4; 2; 2; 2]).
Proof.
  apply (normalise_splice_example _ sample_normalise_metadata); reflexivity.
Defined.


(** The getter as written answers [None] for every object: the reference
    time is a datetime, and comparing it with [0] raises inside the
    [try]. *)
Lemma reflectance_is_None (self : ASDFile) : reflectance self = PyNone.
Proof.
  unfold reflectance. destruct (2 <=? asdFileVersion self); [|reflexivity].
  destruct (metadata self) as [md|]; reflexivity.
Qed.

(** At [sample_v2], a version-2 file that declares reflectance data
    (data type 1, positive reference time) and whose reference spectrum is
    0.0 at its only channel, [reflectance] is [None]. *)
Lemma reflectance_of_reflectance_file_is_None : forall host : Host,
  asdFileVersion (fst (read host __init__ (Some sample_v2))) = 2
  /\ option_map asdMetadatainfo.referenceTime
       (metadata (fst (read host __init__ (Some sample_v2)))) = Some (fromtimestamp 1)
  /\ option_map asdMetadatainfo.dataType
       (metadata (fst (read host __init__ (Some sample_v2)))) = Some 1
  /\ option_map spectrumDataInfo.spectra
       (referenceData (fst (read host __init__ (Some sample_v2))))
     = Some (Some [S754_zero false])
  /\ reflectance (fst (read host __init__ (Some sample_v2))) = PyNone.
Proof.
  intros host. vm_compute. repeat split.
Qed.



(** ** Attribute access *)

Lemma eqb_of_not_in (item : string) (l : list string) :
  ~ In item l -> forall x, In x l -> String.eqb item x = false.
Proof.
  intros H x Hx. apply String.eqb_neq. intros ->. contradiction.
Qed.

(** C10.  For every name that the normal lookup does not find on the
    object and that is none of [reflectance], [radiance],
    [white_reference], [raw], [ref], the access goes to [__getattr__] and
    returns [None]; nothing is raised. *)
Theorem getattr_falls_back_to_None : forall (self : ASDFile) (item : string),
  found_by_lookup self item = false ->
  ~ In item dispatched_names ->
  attribute_access self item = GetattrHook (ret PyNone).
Proof.
  intros self item Hf Hn. unfold attribute_access. rewrite Hf.
  pose proof (eqb_of_not_in item dispatched_names Hn) as E. unfold __getattr__.
  rewrite !E by (simpl; tauto). reflexivity.
Qed.

Lemma getattr_falls_back_to_None_witness :
  attribute_access __init__ "wavelength" = GetattrHook (ret PyNone).
Proof.
  apply getattr_falls_back_to_None.
  - reflexivity.
  - simpl. intros [H|[H|[H|[H|[H|[]]]]]]; discriminate.
Defined.

(** The unset [__bom] of [write] is such a name: [if self.__bom] sees
    [None] when no marker was read. *)
Lemma unset_bom_is_None :
  attribute_access __init__ "_ASDFile__bom" = GetattrHook (ret PyNone).
Proof. reflexivity. Qed.

(** * Further properties *)

(** ** Slices and windows inside a stream *)

Lemma skipn_len_app {A : Type} (pre rest : list A) :
  skipn (Z.to_nat (len pre)) (pre ++ rest) = rest.
Proof.
  unfold len. rewrite Nat2Z.id.
  rewrite skipn_app, skipn_all, Nat.sub_diag. reflexivity.
Qed.

Lemma firstn_len_app {A : Type} (b rest : list A) :
  firstn (Z.to_nat (len b)) (b ++ rest) = b.
Proof.
  unfold len. rewrite Nat2Z.id.
  rewrite firstn_app, firstn_all, Nat.sub_diag. cbn [firstn]. apply app_nil_r.
Qed.

Lemma slice_app_mid {A : Type} (pre b post : list A) :
  slice (pre ++ b ++ post) (len pre) (len pre + len b) = b.
Proof.
  pose proof (len_nonneg pre). pose proof (len_nonneg b). pose proof (len_nonneg post).
  rewrite <- slice_window by (rewrite ?len_app; lia).
  rewrite skipn_len_app. apply firstn_len_app.
Qed.

Lemma slice_to_app {A : Type} (b rest : list A) :
  slice_to (b ++ rest) (len b) = b.
Proof.
  pose proof (len_nonneg b). pose proof (len_nonneg rest).
  unfold slice_to, norm_index. destruct (Z.ltb_spec (len b) 0); [lia|].
  rewrite Z.min_l by (rewrite len_app; lia). apply firstn_len_app.
Qed.

(** ** Sentinel booleans *)

(** X2.  What [__wrap_Bool] writes, [__parse_Bool] reads back, wherever
    the two bytes stand in the stream, and the offset advances by the
    length [__wrap_Bool] reports. *)
Theorem Bool_roundtrip : forall (b : bool) (pre post : bytes),
  __parse_Bool (pre ++ fst (__wrap_Bool b) ++ post) (OffInt (len pre))
  = ret (Some (b, len pre + snd (__wrap_Bool b))).
Proof.
  intros b pre post. unfold __parse_Bool, __check_offset.
  pose proof (len_nonneg pre). pose proof (len_nonneg post).
  assert (L : len (fst (__wrap_Bool b)) = 2) by (destruct b; reflexivity).
  replace (len pre <? len (pre ++ fst (__wrap_Bool b) ++ post)) with true
    by (symmetry; apply Z.ltb_lt; rewrite !len_app; lia).
  pose proof (slice_app_mid pre (fst (__wrap_Bool b)) post) as S. rewrite L in S.
  unfold parse_Bool_body. rewrite S. destruct b; reflexivity.
Qed.

(** ** Length-prefixed strings *)

(** X3.  Handed [bytes], [__wrap_bstr] never returns a result: the branch
    binds no [byteStreamLength], so the [return] raises
    [UnboundLocalError], which the [except struct.error] lets through;
    past 32767 bytes the length does not pack and the failure pair comes
    back. *)
Theorem wrap_bstr_of_bytes_returns_nothing : forall b : bytes,
  __wrap_bstr (ArgBytes b)
  = if len b <=? 32767 then raise UnboundLocalError else ret None.
Proof.
  intros b. unfold __wrap_bstr, wrap_bstr_body. pose proof (len_nonneg b).
  destruct (Z.leb_spec (len b) 32767).
  - rewrite pack_short by lia. cbn [bind ret]. rewrite pack_string_exact.
    reflexivity.
  - rewrite pack_short_overflow by lia. reflexivity.
Qed.

(** ** Saturation flags *)

Lemma land_pow2 (a k : Z) :
  0 <= k -> (Z.land a (2 ^ k) =? 0) = negb (Z.testbit a k).
Proof.
  intros Hk. destruct (Z.testbit a k) eqn:E; cbn [negb].
  - apply Z.eqb_neq. intros H.
    assert (T : Z.testbit (Z.land a (2 ^ k)) k = true)
      by (rewrite Z.land_spec, E, Z.pow2_bits_true by lia; reflexivity).
    rewrite H, Z.bits_0 in T. discriminate.
  - apply Z.eqb_eq. apply Z.bits_inj'. intros n Hn.
    rewrite Z.land_spec, Z.bits_0, Z.pow2_bits_eqb by lia.
    destruct (Z.eqb_spec k n) as [->|]; [now rewrite E|apply andb_false_r].
Qed.

(** X4.  [__checkSaturationError] reports, in the fixed order VNIR, SWIR1,
    SWIR2, TEC1, TEC2, exactly the messages whose bit (0 to 4) is set in
    [flags2]; the other bits of [flags2] play no part, and the TEC2 alarm
    is bit 4 (the value 16). *)
Theorem checkSaturationError_reports_set_bits :
  forall (self : ASDFile) (md : asdMetadatainfo.t),
  metadata self = Some md ->
  __checkSaturationError self
  = ret (map snd (filter (fun p => Z.testbit (asdMetadatainfo.flags2 md) (fst p))
                    saturation_messages)).
Proof.
  intros self md Hm. unfold __checkSaturationError. rewrite Hm.
  cbn [attr bind ret]. cbv zeta. unfold append_if_set.
  change flag1_vnir_saturation with (2 ^ 0).
  change flag1_swir1_saturation with (2 ^ 1).
  change flag1_swir2_saturation with (2 ^ 2).
  change Tec1_alarm with (2 ^ 3). change Tec2_alarm with (2 ^ 4).
  rewrite !land_pow2 by lia. unfold saturation_messages. cbn [filter fst snd].
  destruct (Z.testbit (asdMetadatainfo.flags2 md) 0),
    (Z.testbit (asdMetadatainfo.flags2 md) 1),
    (Z.testbit (asdMetadatainfo.flags2 md) 2),
    (Z.testbit (asdMetadatainfo.flags2 md) 3),
    (Z.testbit (asdMetadatainfo.flags2 md) 4); reflexivity.
Qed.

Lemma checkSaturationError_reports_set_bits_witness :
  __checkSaturationError (set_metadata __init__ (Some sample_flagged_metadata))
  = ret ["VNIR saturation"; "TEC2 Alarm"]%string.
Proof.
  exact (checkSaturationError_reports_set_bits
           (set_metadata __init__ (Some sample_flagged_metadata))
           sample_flagged_metadata eq_refl).
Defined.

(** ** GPS and smart-detector blocks *)

Lemma pack_count_mismatch (fmt : list fcode) : forall vals : list sval,
  List.length fmt <> List.length vals -> exists e : exn, pack fmt vals = raise e.
Proof.
  induction fmt as [|c fmt IH]; intros [|v vals] H; cbn [pack].
  - now contradiction H.
  - now exists struct_error.
  - now exists struct_error.
  - destruct (pack_one c v) as [e|b]; [now exists e|]. cbn [bind].
    destruct (IH vals) as [e E]; [cbn [List.length] in H; lia|].
    rewrite E. now exists e.
Qed.

(** X5.  The GPS codec yields nothing: the format has fifteen fields and
    the namedtuple fourteen names, so [__parse_gps] fails on the
    assignment for a 56-byte block (and in [struct.unpack] for any other
    length) and [__wrap_gps] fails in [struct.pack]; both return
    [None]. *)
Theorem gps_codec_returns_None :
  (forall gps_field : bytes, __parse_gps gps_field = None)
  /\ (forall gpsData : gpsDataInfo.t, __wrap_gps gpsData = None).
Proof.
  split.
  - intros f. unfold __parse_gps, unpack.
    destruct (len f =? calcsize gpsDatadFormat); reflexivity.
  - intros g. unfold __wrap_gps.
    match goal with
    | |- catch (pack ?fmt ?vals) = None =>
        destruct (pack_count_mismatch fmt vals) as [e E];
          [unfold gpsDatadFormat; cbn [List.length]; lia|rewrite E; reflexivity]
    end.
Qed.

Lemma parse_SmartDetector_exact (d : bytes) :
  (exists r : smartDetectorInfo.t, __parse_SmartDetector d = Some r) <-> len d = 27.
Proof.
  unfold __parse_SmartDetector, unpack.
  change (calcsize smartDetectorFormat) with 27.
  destruct (Z.eqb_spec (len d) 27) as [E|E]; cbn [bind ret catch]; split.
  - intros _. exact E.
  - intros _. eexists. reflexivity.
  - intros [r H]. discriminate H.
  - intros H. contradiction.
Qed.

(** ** Radiance *)

(** X6.  [radiance] binds its result only inside the two array
    expressions: below version 7, with fewer than three calibration
    descriptors, or with three and neither combination of series at hand,
    the final [return radiance] raises [UnboundLocalError]; from version 7
    on without a calibration header the [except] returns [None]. *)
Theorem radiance_without_calibration :
  forall (np_radiance : radiance_formula -> ASDFile -> M pyval) (self : ASDFile),
  (asdFileVersion self < 7 -> radiance np_radiance self = raise UnboundLocalError)
  /\ (7 <= asdFileVersion self -> calibrationHeader self = None ->
      radiance np_radiance self = ret PyNone)
  /\ (forall h : calibrationHeaderInfo.t,
         7 <= asdFileVersion self -> calibrationHeader self = Some h ->
         calibrationHeaderInfo.calibrationNum h < 3 ->
         radiance np_radiance self = raise UnboundLocalError)
  /\ (forall h : calibrationHeaderInfo.t,
         7 <= asdFileVersion self -> calibrationHeader self = Some h ->
         calibrationSeriesLMP self = None
         \/ (calibrationSeriesABS self = None
             /\ (calibrationSeriesBSE self = None \/ calibrationSeriesFO self = None)) ->
         radiance np_radiance self = raise UnboundLocalError).
Proof.
  intros np self. unfold radiance. repeat split.
  - intros H. replace (7 <=? asdFileVersion self) with false
      by (symmetry; apply Z.leb_gt; lia). reflexivity.
  - intros H Hh. replace (7 <=? asdFileVersion self) with true
      by (symmetry; apply Z.leb_le; lia). rewrite Hh. reflexivity.
  - intros h H Hh Hn. replace (7 <=? asdFileVersion self) with true
      by (symmetry; apply Z.leb_le; lia). rewrite Hh. cbn [attr bind ret].
    replace (3 <=? calibrationHeaderInfo.calibrationNum h) with false
      by (symmetry; apply Z.leb_gt; lia). reflexivity.
  - intros h H Hh Hl. replace (7 <=? asdFileVersion self) with true
      by (symmetry; apply Z.leb_le; lia). rewrite Hh. cbn [attr bind ret].
    destruct (3 <=? calibrationHeaderInfo.calibrationNum h); [|reflexivity].
    destruct Hl as [L|[A [B|F]]].
    + rewrite L. cbn [is_not_None]. rewrite !andb_false_r. reflexivity.
    + rewrite A, B. reflexivity.
    + rewrite A, F. cbn [is_not_None andb]. rewrite !andb_false_r. reflexivity.
Qed.

Lemma radiance_without_calibration_witness :
  radiance (fun _ _ => ret PyNone) __init__ = raise UnboundLocalError.
Proof.
  apply (proj1 (radiance_without_calibration (fun _ _ => ret PyNone) __init__)).
  cbn [asdFileVersion __init__]. lia.
Defined.

(** ** File version *)

(** X7.  For the versions 1 to 8 the tag [__setFileVersion] writes has
    three bytes and [__validate_fileVersion] reads the version back from
    any stream that starts with it. *)
Theorem fileVersion_roundtrip : forall (self : ASDFile) (rest : bytes),
  1 <= asdFileVersion self <= 8 ->
  exists tag : bytes,
    __setFileVersion self = ret (tag, 3)
    /\ len tag = 3
    /\ __validate_fileVersion (Some (tag ++ rest)) = (asdFileVersion self, 3).
Proof.
  intros self rest H. unfold __setFileVersion.
  assert (C : asdFileVersion self = 1 \/ asdFileVersion self = 2
              \/ asdFileVersion self = 3 \/ asdFileVersion self = 4
              \/ asdFileVersion self = 5 \/ asdFileVersion self = 6
              \/ asdFileVersion self = 7 \/ asdFileVersion self = 8) by lia.
  unfold __validate_fileVersion. cbn [or_TypeError bind ret].
  destruct C as [E|[E|[E|[E|[E|[E|[E|E]]]]]]]; rewrite E;
    (eexists; split;
     [vm_compute; reflexivity
     |split; [reflexivity|]];
     match goal with
     | |- context [slice_to (?t ++ rest) 3] =>
         change 3 with (len t) at 1; rewrite (slice_to_app t rest)
     end; reflexivity).
Qed.

Lemma fileVersion_roundtrip_witness :
  exists tag : bytes,
    __setFileVersion (set_asdFileVersion __init__ 8) = ret (tag, 3)
    /\ len tag = 3
    /\ __validate_fileVersion (Some (tag ++ [x00])) = (8, 3).
Proof.
  apply (fileVersion_roundtrip (set_asdFileVersion __init__ 8) [x00]).
  cbn [asdFileVersion set_asdFileVersion]. lia.
Defined.

(** ** Integers and doubles through [struct] *)

Lemma pow256 (k : nat) : 2 ^ (8 * Z.of_nat (S k)) = 256 * 2 ^ (8 * Z.of_nat k).
Proof.
  replace (8 * Z.of_nat (S k)) with (8 + 8 * Z.of_nat k) by lia.
  rewrite Z.pow_add_r by lia. reflexivity.
Qed.

Lemma le_uint_le_bytes (n : nat) : forall z : Z,
  le_uint (le_bytes n z) = z mod 2 ^ (8 * Z.of_nat n).
Proof.
  induction n as [|k IH]; intros z.
  - cbn [le_bytes le_uint]. change (2 ^ (8 * Z.of_nat 0)) with 1.
    now rewrite Z.mod_1_r.
  - cbn [le_bytes le_uint]. rewrite b2z_z2b_mod, IH, pow256.
    rewrite Z.rem_mul_r by (try lia; apply Z.pow_pos_nonneg; lia). reflexivity.
Qed.

Lemma le_sint_le_bytes (n : nat) (z : Z) :
  (0 < n)%nat ->
  - 2 ^ (8 * Z.of_nat n - 1) <= z < 2 ^ (8 * Z.of_nat n - 1) ->
  le_sint (le_bytes n (z mod (2 * 2 ^ (8 * Z.of_nat n - 1)))) = z.
Proof.
  intros Hn Hz. unfold le_sint. rewrite le_uint_le_bytes, len_le_bytes.
  assert (HW : 2 ^ (8 * Z.of_nat n) = 2 * 2 ^ (8 * Z.of_nat n - 1)).
  { rewrite <- Z.pow_succ_r by lia. f_equal. lia. }
  rewrite HW. set (h := 2 ^ (8 * Z.of_nat n - 1)) in *.
  assert (Hh : 0 < h) by (apply Z.pow_pos_nonneg; lia).
  rewrite Z.mod_mod by lia.
  destruct (Z_lt_le_dec z 0) as [Neg|Pos].
  - assert (E : z mod (2 * h) = z + 2 * h)
      by (symmetry; apply Z.mod_unique with (-1); lia).
    rewrite E. destruct (Z.ltb_spec (2 * (z + 2 * h)) (2 * h)); lia.
  - rewrite Z.mod_small by lia.
    destruct (Z.ltb_spec (2 * z) (2 * h)); lia.
Qed.

Lemma digits2_pos_bounds (m : positive) :
  2 ^ (Zpos (digits2_pos m) - 1) <= Zpos m < 2 ^ Zpos (digits2_pos m).
Proof.
  induction m as [p IH|p IH|]; cbn [digits2_pos].
  - rewrite Pos2Z.inj_succ, (Pos2Z.inj_xI p).
    replace (Z.succ (Zpos (digits2_pos p)) - 1)
      with (Z.succ (Zpos (digits2_pos p) - 1)) by lia.
    rewrite !Z.pow_succ_r by lia.
    set (lo := 2 ^ (Zpos (digits2_pos p) - 1)) in *.
    set (hi := 2 ^ Zpos (digits2_pos p)) in *. clearbody lo hi. lia.
  - rewrite Pos2Z.inj_succ, (Pos2Z.inj_xO p).
    replace (Z.succ (Zpos (digits2_pos p)) - 1)
      with (Z.succ (Zpos (digits2_pos p) - 1)) by lia.
    rewrite !Z.pow_succ_r by lia.
    set (lo := 2 ^ (Zpos (digits2_pos p) - 1)) in *.
    set (hi := 2 ^ Zpos (digits2_pos p)) in *. clearbody lo hi. lia.
  - change (2 ^ (1 - 1)) with 1. change (2 ^ 1) with 2. lia.
Qed.

(** A valid binary64 value is the value of its own bit pattern. *)
Lemma ieee64_roundtrip (x : float) :
  is_binary64 x = true -> ieee_decode 52 11 (ieee_encode 52 11 x) = x.
Proof.
  destruct x as [s|s| |s m e]; intros V.
  - destruct s; reflexivity.
  - destruct s; reflexivity.
  - reflexivity.
  - unfold is_binary64, valid_binary, bounded, canonical_mantissa, fexp, emin in V.
    apply andb_true_iff in V as [C B]. apply Z.eqb_eq in C. apply Z.leb_le in B.
    pose proof (digits2_pos_bounds m) as D.
    set (d := Zpos (digits2_pos m)) in *.
    assert (Hd : 0 < d) by (unfold d; lia).
    unfold ieee_encode, ieee_decode.
    change (2 ^ (52 + 11)) with 9223372036854775808.
    change (2 ^ 52) with 4503599627370496.
    change (2 ^ 11) with 2048.
    change (3 - 2 ^ (11 - 1) - (52 + 1)) with (-1074).
    cbv zeta.
    destruct (Z.ltb_spec (Zpos m) 4503599627370496) as [Sub|Nor].
    + assert (d <= 52).
      { destruct (Z_le_gt_dec d 52); [assumption|exfalso].
        assert (2 ^ 52 <= 2 ^ (d - 1)) by (apply Z.pow_le_mono_r; lia).
        change (2 ^ 52) with 4503599627370496 in *. lia. }
      assert (e = -1074) by lia. subst e.
      destruct s.
      * replace ((9223372036854775808 + Zpos m) mod 4503599627370496)
          with (Zpos m) by euclid.
        replace ((9223372036854775808 + Zpos m) / 4503599627370496) with 2048
          by euclid.
        replace ((9223372036854775808 + Zpos m) / 9223372036854775808) with 1
          by euclid.
        reflexivity.
      * replace ((0 + Zpos m) mod 4503599627370496) with (Zpos m) by euclid.
        replace ((0 + Zpos m) / 4503599627370496) with 0 by euclid.
        replace ((0 + Zpos m) / 9223372036854775808) with 0 by euclid.
        reflexivity.
    + assert (53 <= d).
      { destruct (Z_le_gt_dec 53 d); [assumption|exfalso].
        assert (2 ^ d <= 2 ^ 52) by (apply Z.pow_le_mono_r; lia).
        change (2 ^ 52) with 4503599627370496 in *. lia. }
      assert (d = 53) by lia.
      assert (M : Zpos m < 9007199254740992)
        by (replace d with 53 in D by lia; change (2 ^ 53) with 9007199254740992 in D; lia).
      assert (- 1074 <= e) by lia.
      set (u := (if s then 9223372036854775808 else 0)
                + (e - -1074 + 1) * 4503599627370496
                + (Zpos m - 4503599627370496)).
      assert (E1 : u mod 4503599627370496 = Zpos m - 4503599627370496)
        by (unfold u; destruct s; euclid).
      assert (E2 : (u / 4503599627370496) mod 2048 = e + 1075)
        by (unfold u; destruct s; euclid).
      assert (E3 : Z.odd (u / 9223372036854775808) = s).
      { destruct s.
        - replace (u / 9223372036854775808) with 1 by (unfold u; euclid). reflexivity.
        - replace (u / 9223372036854775808) with 0 by (unfold u; euclid). reflexivity. }
      rewrite E1, E2, E3.
      replace (e + 1075 =? 0) with false by (symmetry; apply Z.eqb_neq; lia).
      replace (e + 1075 =? 2048 - 1) with false by (symmetry; apply Z.eqb_neq; lia).
      replace (4503599627370496 + (Zpos m - 4503599627370496)) with (Zpos m) by lia.
      f_equal. lia.
Qed.

Lemma ieee_encode64_bound (x : float) :
  is_binary64 x = true -> 0 <= ieee_encode 52 11 x < 2 ^ 64.
Proof.
  change (2 ^ 64) with 18446744073709551616.
  destruct x as [s|s| |s m e]; intros V.
  - destruct s; vm_compute; split; congruence.
  - destruct s; vm_compute; split; congruence.
  - vm_compute; split; congruence.
  - unfold is_binary64, valid_binary, bounded, canonical_mantissa, fexp, emin in V.
    apply andb_true_iff in V as [C B]. apply Z.eqb_eq in C. apply Z.leb_le in B.
    pose proof (digits2_pos_bounds m) as D.
    set (d := Zpos (digits2_pos m)) in *.
    unfold ieee_encode.
    change (2 ^ (52 + 11)) with 9223372036854775808.
    change (2 ^ 52) with 4503599627370496.
    change (3 - 2 ^ (11 - 1) - (52 + 1)) with (-1074).
    cbv zeta.
    destruct (Z.ltb_spec (Zpos m) 4503599627370496) as [Sub|Nor].
    + destruct s; lia.
    + assert (53 <= d).
      { destruct (Z_le_gt_dec 53 d); [assumption|exfalso].
        assert (2 ^ d <= 2 ^ 52) by (apply Z.pow_le_mono_r; lia).
        change (2 ^ 52) with 4503599627370496 in *. lia. }
      assert (d = 53) by lia.
      assert (M : Zpos m < 9007199254740992)
        by (replace d with 53 in D by lia; change (2 ^ 53) with 9007199254740992 in D; lia).
      destruct s; lia.
Qed.

Lemma float_eqb_eq (x y : float) : float_eqb x y = true -> x = y.
Proof.
  destruct x as [a|a| |s m e], y as [b|b| |s' m' e']; cbn [float_eqb]; intros H;
    try discriminate H; try reflexivity.
  - apply Bool.eqb_prop in H. now subst.
  - apply Bool.eqb_prop in H. now subst.
  - apply andb_true_iff in H as [H He]. apply andb_true_iff in H as [Hs Hm].
    apply Bool.eqb_prop in Hs. apply Pos.eqb_eq in Hm. apply Z.eqb_eq in He.
    now subst.
Qed.

(** A valid binary32 value is the value of its own bit pattern, which
    has 32 bits. *)
Lemma ieee32_roundtrip (x : float) :
  valid_binary 24 128 x = true ->
  ieee_decode 23 8 (ieee_encode 23 8 x) = x /\ 0 <= ieee_encode 23 8 x < 2 ^ 32.
Proof.
  change (2 ^ 32) with 4294967296.
  destruct x as [s|s| |s m e]; intros V.
  - destruct s; (split; [reflexivity|vm_compute; split; congruence]).
  - destruct s; (split; [reflexivity|vm_compute; split; congruence]).
  - split; [reflexivity|vm_compute; split; congruence].
  - unfold valid_binary, bounded, canonical_mantissa, fexp, emin in V.
    apply andb_true_iff in V as [C B]. apply Z.eqb_eq in C. apply Z.leb_le in B.
    pose proof (digits2_pos_bounds m) as D.
    set (d := Zpos (digits2_pos m)) in *.
    assert (Hd : 0 < d) by (unfold d; lia).
    unfold ieee_encode, ieee_decode.
    change (2 ^ (23 + 8)) with 2147483648.
    change (2 ^ 23) with 8388608.
    change (2 ^ 8) with 256.
    change (3 - 2 ^ (8 - 1) - (23 + 1)) with (-149).
    cbv zeta.
    destruct (Z.ltb_spec (Zpos m) 8388608) as [Sub|Nor].
    + assert (d <= 23).
      { destruct (Z_le_gt_dec d 23); [assumption|exfalso].
        assert (2 ^ 23 <= 2 ^ (d - 1)) by (apply Z.pow_le_mono_r; lia).
        change (2 ^ 23) with 8388608 in *. lia. }
      assert (e = -149) by lia. subst e.
      destruct s.
      * replace ((2147483648 + Zpos m) mod 8388608) with (Zpos m) by euclid.
        replace ((2147483648 + Zpos m) / 8388608) with 256 by euclid.
        replace ((2147483648 + Zpos m) / 2147483648) with 1 by euclid.
        split; [reflexivity|lia].
      * replace ((0 + Zpos m) mod 8388608) with (Zpos m) by euclid.
        replace ((0 + Zpos m) / 8388608) with 0 by euclid.
        replace ((0 + Zpos m) / 2147483648) with 0 by euclid.
        split; [reflexivity|lia].
    + assert (24 <= d).
      { destruct (Z_le_gt_dec 24 d); [assumption|exfalso].
        assert (2 ^ d <= 2 ^ 23) by (apply Z.pow_le_mono_r; lia).
        change (2 ^ 23) with 8388608 in *. lia. }
      assert (d = 24) by lia.
      assert (M : Zpos m < 16777216)
        by (replace d with 24 in D by lia; change (2 ^ 24) with 16777216 in D; lia).
      assert (- 149 <= e) by lia.
      set (u := (if s then 2147483648 else 0)
                + (e - -149 + 1) * 8388608
                + (Zpos m - 8388608)).
      assert (E1 : u mod 8388608 = Zpos m - 8388608)
        by (unfold u; destruct s; euclid).
      assert (E2 : (u / 8388608) mod 256 = e + 150)
        by (unfold u; destruct s; euclid).
      assert (E3 : Z.odd (u / 2147483648) = s).
      { destruct s.
        - replace (u / 2147483648) with 1 by (unfold u; euclid). reflexivity.
        - replace (u / 2147483648) with 0 by (unfold u; euclid). reflexivity. }
      split; [|unfold u; destruct s; lia].
      rewrite E1, E2, E3.
      replace (e + 150 =? 0) with false by (symmetry; apply Z.eqb_neq; lia).
      replace (e + 150 =? 256 - 1) with false by (symmetry; apply Z.eqb_neq; lia).
      replace (8388608 + (Zpos m - 8388608)) with (Zpos m) by lia.
      f_equal. lia.
Qed.

(** What [struct.pack] writes for a value that fits its code,
    [struct.unpack] reads back. *)
Lemma pack_one_unpack_one (c : fcode) (v : sval) :
  fits c v = true ->
  exists b : bytes,
    pack_one c v = ret b /\ List.length b = fsize c /\ unpack_one c b = v.
Proof.
  destruct c as [n|[|] n| |], v as [z|bs|x]; cbn [fits]; intros F;
    try discriminate.
  - apply Nat.eqb_eq in F. subst n. exists bs. cbn [pack_one fsize unpack_one].
    rewrite firstn_all, Nat.sub_diag. cbn [zeros repeat]. rewrite app_nil_r. auto.
  - apply andb_true_iff in F as [F F3]. apply andb_true_iff in F as [F1 F2].
    apply Z.ltb_lt in F1, F3. apply Z.leb_le in F2.
    cbn [pack_one]. cbv zeta.
    replace ((- 2 ^ (8 * Z.of_nat n - 1) <=? z) && (z <? 2 ^ (8 * Z.of_nat n - 1)))
      with true
      by (symmetry; apply andb_true_iff; split; [apply Z.leb_le|apply Z.ltb_lt]; lia).
    eexists. split; [reflexivity|]. split; [apply length_le_bytes|].
    cbn [unpack_one]. f_equal. apply le_sint_le_bytes; lia.
  - apply andb_true_iff in F as [F1 F2]. apply Z.leb_le in F1. apply Z.ltb_lt in F2.
    cbn [pack_one].
    replace (z <? 2 ^ (8 * Z.of_nat n)) with true by (symmetry; apply Z.ltb_lt; lia).
    replace (0 <=? z) with true by (symmetry; apply Z.leb_le; lia). cbn [andb].
    eexists. split; [reflexivity|]. split; [apply length_le_bytes|].
    cbn [unpack_one]. f_equal. rewrite le_uint_le_bytes. apply Z.mod_small. lia.
  - unfold is_binary32 in F. apply andb_true_iff in F as [V E].
    apply float_eqb_eq in E. destruct (ieee32_roundtrip _ V) as [R B].
    assert (P : pack_float32 x = ret (le_bytes 4 (ieee_encode 23 8 (round_binary32 x)))).
    { unfold pack_float32. destruct (round_binary32 x) as [s|s| |s m e];
        try reflexivity.
      destruct x; try reflexivity. discriminate E. }
    cbn [pack_one]. rewrite P. eexists. split; [reflexivity|].
    split; [apply length_le_bytes|].
    cbn [unpack_one]. f_equal. rewrite le_uint_le_bytes.
    change (2 ^ (8 * Z.of_nat 4)) with (2 ^ 32).
    rewrite Z.mod_small by exact B. rewrite R. exact E.
  - cbn [pack_one]. eexists. split; [reflexivity|].
    split; [apply length_le_bytes|].
    cbn [unpack_one]. f_equal. rewrite le_uint_le_bytes.
    rewrite Z.mod_small by (apply ieee_encode64_bound; exact F).
    apply ieee64_roundtrip. exact F.
Qed.

Lemma pack_unpack (fmt : list fcode) : forall vals : list sval,
  all_fit fmt vals = true ->
  exists b : bytes,
    pack fmt vals = ret b /\ len b = calcsize fmt /\ unpack_fields fmt b = vals.
Proof.
  induction fmt as [|c fmt IH]; intros [|v vals] F; cbn [all_fit] in F;
    try discriminate.
  - exists []. repeat split.
  - apply andb_true_iff in F as [F1 F2].
    destruct (pack_one_unpack_one c v F1) as (b1 & P1 & L1 & U1).
    destruct (IH vals F2) as (b2 & P2 & L2 & U2).
    exists (b1 ++ b2). cbn [pack]. rewrite P1, P2. cbn [bind ret].
    split; [reflexivity|]. split.
    + rewrite len_app, L2. cbn [calcsize]. unfold len. rewrite L1. reflexivity.
    + cbn [unpack_fields]. rewrite <- L1.
      rewrite firstn_app, firstn_all, Nat.sub_diag, skipn_app, skipn_all, Nat.sub_diag.
      cbn [firstn skipn app]. rewrite app_nil_r, U1, U2. reflexivity.
Qed.

(** ** Bytes at an offset of a stream *)

Lemma holds_at_intro (pre b post : bytes) : holds_at (pre ++ b ++ post) (len pre) b.
Proof. exists pre, post. split; reflexivity. Qed.

Lemma holds_at_bounds (stream : bytes) (o : Z) (b : bytes) :
  holds_at stream o b -> 0 <= o /\ o + len b <= len stream.
Proof.
  intros (pre & post & -> & <-). rewrite !len_app.
  pose proof (len_nonneg pre). pose proof (len_nonneg post). lia.
Qed.

Lemma holds_at_app_l (stream : bytes) (o : Z) (b1 b2 : bytes) :
  holds_at stream o (b1 ++ b2) -> holds_at stream o b1.
Proof.
  intros (pre & post & -> & <-). exists pre, (b2 ++ post).
  rewrite <- app_assoc. split; reflexivity.
Qed.

Lemma holds_at_app_r (stream : bytes) (o : Z) (b1 b2 : bytes) :
  holds_at stream o (b1 ++ b2) -> holds_at stream (o + len b1) b2.
Proof.
  intros (pre & post & -> & <-). exists (pre ++ b1), post.
  rewrite <- !app_assoc. split; [reflexivity|apply len_app].
Qed.

Lemma holds_at_slice (stream : bytes) (o : Z) (b : bytes) :
  holds_at stream o b -> slice stream o (o + len b) = b.
Proof. intros (pre & post & -> & <-). apply slice_app_mid. Qed.

Lemma holds_at_window (stream : bytes) (o : Z) (b : bytes) :
  holds_at stream o b -> window (len b) stream o = ret b.
Proof.
  intros H. pose proof (holds_at_bounds _ _ _ H) as [Ho Hl].
  destruct H as (pre & post & -> & <-). unfold window.
  replace (len pre <? 0) with false by (symmetry; apply Z.ltb_ge; lia).
  replace (len (pre ++ b ++ post) - len pre <? len b) with false
    by (symmetry; apply Z.ltb_ge; lia).
  rewrite skipn_len_app, firstn_len_app. reflexivity.
Qed.

Lemma holds_at_unpack_from (fmt : list fcode) (stream : bytes) (o : Z) (b : bytes) :
  holds_at stream o b -> len b = calcsize fmt ->
  unpack_from fmt stream (Some o) = ret (unpack_fields fmt b).
Proof.
  intros H L. unfold unpack_from. cbn [need_int bind ret].
  rewrite <- L, (holds_at_window _ _ _ H). reflexivity.
Qed.

Lemma holds_at_lt (stream : bytes) (o : Z) (b : bytes) :
  holds_at stream o b -> 0 < len b -> (o <? len stream) = true.
Proof.
  intros H L. apply holds_at_bounds in H. apply Z.ltb_lt. lia.
Qed.

(** ** Windows of [struct.unpack_from] *)

Lemma window_ok (size : Z) (buf : bytes) (o : Z) :
  0 <= o -> 0 <= size -> o + size <= len buf ->
  window size buf o = ret (slice buf o (o + size)).
Proof.
  intros Ho Hs Hl. unfold window.
  replace (o <? 0) with false by (symmetry; apply Z.ltb_ge; lia).
  replace (len buf - o <? size) with false by (symmetry; apply Z.ltb_ge; lia).
  rewrite slice_window by lia. reflexivity.
Qed.

Lemma window_short (size : Z) (buf : bytes) (o : Z) :
  0 <= o -> len buf < o + size -> window size buf o = raise struct_error.
Proof.
  intros Ho Hl. unfold window.
  replace (o <? 0) with false by (symmetry; apply Z.ltb_ge; lia).
  replace (len buf - o <? size) with true by (symmetry; apply Z.ltb_lt; lia).
  reflexivity.
Qed.

Lemma length_slice {A : Type} (s : list A) (a b : Z) :
  0 <= a <= b -> b <= len s -> List.length (slice s a b) = Z.to_nat (b - a).
Proof.
  intros Hab Hb. unfold slice, norm_index.
  destruct (Z.ltb_spec a 0); [lia|]. destruct (Z.ltb_spec b 0); [lia|].
  rewrite !Z.min_l by lia. rewrite length_firstn, length_skipn.
  unfold len in Hb. lia.
Qed.

(** ** UTF-8 *)

Lemma cont_error (b : byte) (e : exn) : cont b = inl e -> e = UnicodeDecodeError.
Proof.
  unfold cont. destruct (_ && _); [discriminate|]. intros H. now injection H.
Qed.

(** The strict decoder raises nothing but [UnicodeDecodeError]. *)
Lemma utf8_decode_error : forall (n : nat) (bs : bytes),
  (List.length bs <= n)%nat ->
  forall e : exn, utf8_decode bs = inl e -> e = UnicodeDecodeError.
Proof.
  induction n as [|n IH]; intros bs Hn e H.
  - destruct bs; [discriminate H|cbn [List.length] in Hn; lia].
  - destruct bs as [|b0 r]; [discriminate H|].
    cbn [List.length] in Hn. cbn [utf8_decode] in H.
    assert (R : forall t : exn, @raise pystr UnicodeDecodeError = inl t ->
                                t = UnicodeDecodeError)
      by (intros t Ht; now injection Ht).
    assert (K : forall (q : bytes) (c : Z) (t : exn),
               (List.length q <= n)%nat ->
               bind (utf8_decode q) (fun s => ret (c :: s)) = inl t ->
               t = UnicodeDecodeError).
    { intros q c t Hq Ht. destruct (utf8_decode q) as [e'|s'] eqn:E;
        [|discriminate Ht]. cbn [bind] in Ht. injection Ht as <-.
      exact (IH q Hq e' E). }
    destruct (b2z b0 <? 128); [apply (K r _ _ ltac:(lia) H)|].
    destruct (b2z b0 <? 192); [apply (R _ H)|].
    destruct (b2z b0 <? 224).
    { destruct r as [|b1 r1]; [apply (R _ H)|]. cbn [List.length] in Hn.
      destruct (cont b1) as [e1|c1] eqn:C1; cbn [bind] in H;
        [injection H as <-; exact (cont_error _ _ C1)|].
      destruct (_ <? 128); [apply (R _ H)|].
      apply (K r1 _ _ ltac:(lia) H). }
    destruct (b2z b0 <? 240).
    { destruct r as [|b1 [|b2 r2]]; try apply (R _ H). cbn [List.length] in Hn.
      destruct (cont b1) as [e1|c1] eqn:C1; cbn [bind] in H;
        [injection H as <-; exact (cont_error _ _ C1)|].
      destruct (cont b2) as [e2|c2] eqn:C2; cbn [bind] in H;
        [injection H as <-; exact (cont_error _ _ C2)|].
      destruct (_ || _); [apply (R _ H)|].
      apply (K r2 _ _ ltac:(lia) H). }
    destruct (b2z b0 <? 248); [|apply (R _ H)].
    destruct r as [|b1 [|b2 [|b3 r3]]]; try apply (R _ H). cbn [List.length] in Hn.
    destruct (cont b1) as [e1|c1] eqn:C1; cbn [bind] in H;
      [injection H as <-; exact (cont_error _ _ C1)|].
    destruct (cont b2) as [e2|c2] eqn:C2; cbn [bind] in H;
      [injection H as <-; exact (cont_error _ _ C2)|].
    destruct (cont b3) as [e3|c3] eqn:C3; cbn [bind] in H;
      [injection H as <-; exact (cont_error _ _ C3)|].
    destruct (_ || _); [apply (R _ H)|].
    apply (K r3 _ _ ltac:(lia) H).
Qed.

(** ** Length-prefixed strings *)

Lemma unpack_fields_short (w : bytes) :
  List.length w = 2%nat -> unpack_fields [Fh] w = [VInt (le_sint w)].
Proof.
  intros L. unfold Fh. cbn [unpack_fields fsize unpack_one].
  rewrite firstn_all2 by lia. reflexivity.
Qed.

Lemma unpack_fields_string (n : nat) (w : bytes) :
  List.length w = n -> unpack_fields [Fs n] w = [VBytes w].
Proof.
  intros L. cbn [unpack_fields fsize unpack_one].
  rewrite firstn_all2 by lia. reflexivity.
Qed.

(** What [__parse_bstr] answers at an offset with two bytes to read. *)
Lemma parse_bstr_spec (stream : bytes) (o : Z) :
  0 <= o -> o + 2 <= len stream ->
  __parse_bstr stream (OffInt o)
  = (if le_sint (slice stream o (o + 2)) <? 0 then ret None
     else if len stream <? o + 2 + le_sint (slice stream o (o + 2)) then ret None
     else catch_struct_error
            (s <- utf8_decode
                    (slice stream (o + 2) (o + 2 + le_sint (slice stream o (o + 2)))) ;;
             ret (s, o + 2 + le_sint (slice stream o (o + 2))))).
Proof.
  intros Ho Hl. unfold __parse_bstr, __check_offset.
  replace (o <? len stream) with true by (symmetry; apply Z.ltb_lt; lia).
  unfold parse_bstr_body, unpack_from. cbn [need_int bind ret].
  change (calcsize [Fh]) with 2. rewrite window_ok by lia. cbn [bind ret].
  rewrite unpack_fields_short by (rewrite length_slice by lia; lia).
  change (geti [VInt (le_sint (slice stream o (o + 2)))] 0)
    with (le_sint (slice stream o (o + 2))).
  set (size := le_sint (slice stream o (o + 2))).
  destruct (Z.ltb_spec size 0) as [Neg|Pos].
  - replace (0 <=? size) with false by (symmetry; apply Z.leb_gt; lia).
    reflexivity.
  - replace (0 <=? size) with true by (symmetry; apply Z.leb_le; lia).
    replace (calcsize [Fs (Z.to_nat size)]) with size
      by (cbn [calcsize fsize]; lia).
    destruct (Z.ltb_spec (len stream) (o + 2 + size)) as [Over|Fit].
    + rewrite window_short by lia. reflexivity.
    + rewrite window_ok by lia. cbn [bind ret].
      rewrite unpack_fields_string by (rewrite length_slice by lia; lia).
      change (getb [VBytes (slice stream (o + 2) (o + 2 + size))] 0)
        with (slice stream (o + 2) (o + 2 + size)).
      destruct (utf8_decode (slice stream (o + 2) (o + 2 + size))); reflexivity.
Qed.

(** X8.  [__parse_bstr] fails softly on a bad length: when fewer than two
    bytes are left, when the signed 16-bit length is negative, or when it
    runs past the end of the stream, the [struct.error] is caught and the
    failure pair [(None, None)] comes back. *)
Theorem parse_bstr_bad_length : forall (stream : bytes) (o : Z),
  0 <= o < len stream ->
  len stream < o + 2
  \/ le_sint (slice stream o (o + 2)) < 0
  \/ len stream < o + 2 + le_sint (slice stream o (o + 2)) ->
  __parse_bstr stream (OffInt o) = ret None.
Proof.
  intros stream o Ho H.
  destruct (Z_lt_le_dec (len stream) (o + 2)) as [Short|Long].
  - unfold __parse_bstr, __check_offset.
    replace (o <? len stream) with true by (symmetry; apply Z.ltb_lt; lia).
    unfold parse_bstr_body, unpack_from. cbn [need_int bind ret].
    change (calcsize [Fh]) with 2. rewrite window_short by lia. reflexivity.
  - rewrite parse_bstr_spec by lia.
    destruct (Z.ltb_spec (le_sint (slice stream o (o + 2))) 0); [reflexivity|].
    destruct (Z.ltb_spec (len stream) (o + 2 + le_sint (slice stream o (o + 2))));
      [reflexivity|lia].
Qed.

Lemma parse_bstr_bad_length_witness :
  __parse_bstr [xff; xff; x61] (OffInt 0) = ret None.
Proof.
  apply (parse_bstr_bad_length [xff; xff; x61] 0).
  - vm_compute. split; [discriminate|reflexivity].
  - right. left. vm_compute. reflexivity.
Defined.

(** X9.  A payload that is not valid UTF-8 is no soft failure: the
    [UnicodeDecodeError] is not a [struct.error], so it leaves
    [__parse_bstr]. *)
Theorem parse_bstr_invalid_utf8 : forall (stream : bytes) (o : Z) (e : exn),
  0 <= o -> o + 2 <= len stream ->
  0 <= le_sint (slice stream o (o + 2)) ->
  o + 2 + le_sint (slice stream o (o + 2)) <= len stream ->
  utf8_decode (slice stream (o + 2) (o + 2 + le_sint (slice stream o (o + 2)))) = inl e ->
  __parse_bstr stream (OffInt o) = raise UnicodeDecodeError.
Proof.
  intros stream o e Ho Hl Hs Hf He. rewrite parse_bstr_spec by lia.
  replace (le_sint (slice stream o (o + 2)) <? 0) with false
    by (symmetry; apply Z.ltb_ge; lia).
  replace (len stream <? o + 2 + le_sint (slice stream o (o + 2))) with false
    by (symmetry; apply Z.ltb_ge; lia).
  rewrite He. cbn [bind].
  rewrite (utf8_decode_error _ _ (le_n _) e He). reflexivity.
Qed.

Lemma parse_bstr_invalid_utf8_witness :
  __parse_bstr [x01; x00; xff] (OffInt 0) = raise UnicodeDecodeError.
Proof.
  apply (parse_bstr_invalid_utf8 [x01; x00; xff] 0 UnicodeDecodeError).
  - lia.
  - vm_compute. discriminate.
  - vm_compute. discriminate.
  - vm_compute. discriminate.
  - vm_compute. reflexivity.
Defined.

Lemma len_le16 (z : Z) : len (le16 z) = 2.
Proof. reflexivity. Qed.

(** The bytes [__wrap_bstr] writes for a string decode to the string
    wherever they stand. *)
Lemma parse_bstr_at (stream : bytes) (o : Z) (s : pystr) (bs : bytes) :
  forallb is_scalar s = true -> utf8_encode s = ret bs -> len bs <= 32767 ->
  holds_at stream o (le16 (len bs) ++ bs) ->
  __parse_bstr stream (OffInt o) = ret (Some (s, o + 2 + len bs)).
Proof.
  intros Hs He Hl H. pose proof (len_nonneg bs) as H0.
  pose proof (holds_at_bounds _ _ _ H) as [Ho Hb].
  rewrite len_app, len_le16 in Hb.
  pose proof (holds_at_slice _ _ _ (holds_at_app_l _ _ _ _ H)) as S1.
  pose proof (holds_at_slice _ _ _ (holds_at_app_r _ _ _ _ H)) as S2.
  rewrite len_le16 in S1, S2.
  rewrite parse_bstr_spec by lia. rewrite S1.
  change (le16 (len bs)) with [z2b (len bs); z2b (len bs / 256)].
  rewrite unpack_short by lia.
  replace (len bs <? 0) with false by (symmetry; apply Z.ltb_ge; lia).
  replace (len stream <? o + 2 + len bs) with false by (symmetry; apply Z.ltb_ge; lia).
  rewrite S2, (utf8_decode_encode s bs Hs He). reflexivity.
Qed.

(** ** The timestamp of nine shorts *)

Lemma datetime_new_inv (y mo d h mi s : Z) (dt : datetime.t) :
  datetime_new y mo d h mi s = ret dt ->
  dt = datetime.mk y mo d h mi s
  /\ 1 <= y <= 9999 /\ 1 <= mo <= 12 /\ 1 <= d <= days_in_month y mo
  /\ 0 <= h <= 23 /\ 0 <= mi <= 59 /\ 0 <= s <= 59.
Proof.
  unfold datetime_new. intros H.
  destruct (Z.leb_spec 1 y), (Z.leb_spec y 9999); cbn [andb negb] in H;
    try discriminate H.
  destruct (Z.leb_spec 1 mo), (Z.leb_spec mo 12); cbn [andb negb] in H;
    try discriminate H.
  destruct (Z.leb_spec 1 d), (Z.leb_spec d (days_in_month y mo));
    cbn [andb negb] in H; try discriminate H.
  destruct (Z.leb_spec 0 h), (Z.leb_spec h 23); cbn [andb negb] in H;
    try discriminate H.
  destruct (Z.leb_spec 0 mi), (Z.leb_spec mi 59); cbn [andb negb] in H;
    try discriminate H.
  destruct (Z.leb_spec 0 s), (Z.leb_spec s 59); cbn [andb negb] in H;
    try discriminate H.
  apply ret_inj in H. subst dt. repeat split; assumption.
Qed.

Lemma days_in_month_bounds (y m : Z) : 28 <= days_in_month y m <= 31.
Proof.
  unfold days_in_month.
  destruct (m =? 2); [destruct (is_leap y); lia|].
  destruct ((m =? 4) || (m =? 6) || (m =? 9) || (m =? 11)); lia.
Qed.

Lemma days_before_month_aux_bounds (y : Z) (k : nat) :
  0 <= days_before_month_aux y k <= 31 * Z.of_nat k.
Proof.
  induction k as [|k IH]; [cbn; lia|].
  cbn [days_before_month_aux].
  pose proof (days_in_month_bounds y (Z.of_nat (S k))). lia.
Qed.

Lemma fits_short (z : Z) : -32768 <= z <= 32767 -> fits Fh (VInt z) = true.
Proof.
  intros H. unfold Fh. cbn [fits].
  change (0 <? Z.of_nat 2) with true.
  change (2 ^ (8 * Z.of_nat 2 - 1)) with 32768.
  apply andb_true_iff; split; [apply andb_true_iff; split|];
    [reflexivity|apply Z.leb_le; lia|apply Z.ltb_lt; lia].
Qed.

(** The nine shorts of a date the constructor accepts always pack; the
    year is stored less 1900 from 1900 on. *)
Lemma wrap_ASDFilewhen_fields (y mo d h mi s flag : Z) (dt : datetime.t) :
  datetime_new y mo d h mi s = ret dt ->
  -32768 <= flag <= 32767 ->
  exists b : bytes,
    __wrap_ASDFilewhen dt flag = ret b
    /\ len b = 18
    /\ unpack_from (repeat Fh 9) b (Some 0)
       = ret [VInt s; VInt mi; VInt h; VInt d; VInt (mo - 1);
              VInt (if 1900 <=? y then y - 1900 else y);
              VInt ((weekday dt + 1) mod 7); VInt (days_since_new_year dt);
              VInt flag].
Proof.
  intros Hdt Hflag.
  destruct (datetime_new_inv _ _ _ _ _ _ _ Hdt)
    as (-> & Hy & Hmo & Hd & Hh & Hmi & Hs).
  pose proof (days_in_month_bounds y mo) as Dm.
  unfold __wrap_ASDFilewhen.
  cbn [datetime.second datetime.minute datetime.hour datetime.day datetime.month
       datetime.year].
  cbv zeta.
  set (dt := datetime.mk y mo d h mi s).
  set (wd := (weekday dt + 1) mod 7).
  assert (Hwd : 0 <= wd < 7) by (apply Z.mod_pos_bound; lia).
  set (dy := days_since_new_year dt).
  assert (Hdy : 0 <= dy <= 371).
  { unfold dy, days_since_new_year, toordinal, dt.
    cbn [datetime.year datetime.month datetime.day].
    unfold days_before_month. change (Z.to_nat (1 - 1)) with 0%nat.
    cbn [days_before_month_aux].
    pose proof (days_before_month_aux_bounds y (Z.to_nat (mo - 1))). lia. }
  set (yr := if 1900 <=? y then y - 1900 else y).
  assert (Hyr : 0 <= yr <= 8099) by (unfold yr; destruct (Z.leb_spec 1900 y); lia).
  match goal with
  | |- exists b, pack ?fmt ?vals = _ /\ _ =>
      destruct (pack_unpack fmt vals) as (b & P & L & U)
  end.
  { cbn [repeat all_fit]. rewrite !fits_short by lia. reflexivity. }
  exists b. split; [exact P|]. split; [exact L|].
  assert (Hb : holds_at b 0 b).
  { exists [], []. rewrite app_nil_r. split; reflexivity. }
  rewrite (holds_at_unpack_from _ _ _ _ Hb L), U. reflexivity.
Qed.

(** The year [__parse_ASDFilewhen] reads for the year [y] of a written
    date *)
Lemma ASDFilewhen_year (y : Z) :
  (let yr := if 1900 <=? y then y - 1900 else y in
   if yr <? 1900 then yr + 1900 else yr) = y <-> 1900 <= y < 3800.
Proof.
  cbv zeta. destruct (Z.leb_spec 1900 y).
  - destruct (Z.ltb_spec (y - 1900) 1900); lia.
  - destruct (Z.ltb_spec y 1900); lia.
Qed.

(** X10.  The nine shorts [__wrap_ASDFilewhen] writes for a date built by
    [datetime.datetime(y, mo, d, h, mi, s)] always pack, and
    [__parse_ASDFilewhen] reads the date and the daylight-saving flag back
    exactly when the year lies in 1900 to 3799: an earlier year is stored
    unchanged and read 1900 years later, a later one is stored less 1900
    and read as stored. *)
Theorem ASDFilewhen_roundtrip :
  forall (y mo d h mi s flag : Z) (dt : datetime.t),
  datetime_new y mo d h mi s = ret dt ->
  -32768 <= flag <= 32767 ->
  exists b : bytes,
    __wrap_ASDFilewhen dt flag = ret b
    /\ len b = 18
    /\ ((w <- unpack_from (repeat Fh 9) b (Some 0) ;; __parse_ASDFilewhen w)
        = ret (dt, flag)
        <-> 1900 <= y < 3800).
Proof.
  intros y mo d h mi s flag dt Hdt Hflag.
  destruct (wrap_ASDFilewhen_fields y mo d h mi s flag dt Hdt Hflag)
    as (b & P & L & U).
  exists b. split; [exact P|]. split; [exact L|].
  rewrite U. cbn [bind ret].
  destruct (datetime_new_inv _ _ _ _ _ _ _ Hdt) as (-> & _).
  unfold __parse_ASDFilewhen. cbv zeta.
  change (geti _ 0) with s. change (geti _ 1) with mi. change (geti _ 2) with h.
  change (geti _ 3) with d. change (geti _ 4) with (mo - 1).
  change (geti _ 5) with (if 1900 <=? y then y - 1900 else y).
  change (geti _ 8) with flag.
  replace (mo - 1 + 1) with mo by lia.
  pose proof (ASDFilewhen_year y) as Y. cbv zeta in Y.
  set (yr' := if (if 1900 <=? y then y - 1900 else y) <? 1900
              then (if 1900 <=? y then y - 1900 else y) + 1900
              else if 1900 <=? y then y - 1900 else y) in *.
  destruct (datetime_new yr' mo d h mi s) as [e|dt'] eqn:E; cbn [bind ret].
  - split; [discriminate|]. intros R. exfalso.
    apply Y in R. rewrite R in E. rewrite E in Hdt. discriminate Hdt.
  - destruct (datetime_new_inv _ _ _ _ _ _ _ E) as (-> & _).
    split.
    + intros R. apply ret_inj in R. apply (f_equal fst) in R. cbn [fst] in R.
      injection R as R. apply Y. exact R.
    + intros R. apply Y in R. rewrite R. reflexivity.
Qed.

Lemma ASDFilewhen_roundtrip_witness :
  exists b : bytes,
    __wrap_ASDFilewhen (datetime.mk 2024 2 29 12 30 59) 1 = ret b
    /\ len b = 18
    /\ ((w <- unpack_from (repeat Fh 9) b (Some 0) ;; __parse_ASDFilewhen w)
        = ret (datetime.mk 2024 2 29 12 30 59, 1)
        <-> 1900 <= 2024 < 3800).
Proof.
  apply (ASDFilewhen_roundtrip 2024 2 29 12 30 59 1 (datetime.mk 2024 2 29 12 30 59)).
  - reflexivity.
  - lia.
Defined.

(** ** Spectrum arrays *)

Lemma all_fit_doubles (arr : list float) :
  forallb is_binary64 arr = true ->
  all_fit (repeat Fd (List.length arr)) (map VFloat arr) = true.
Proof.
  induction arr as [|x arr IH]; intros H; [reflexivity|].
  cbn [forallb] in H. apply andb_true_iff in H as [Hx Ha].
  cbn [List.length repeat map all_fit fits]. rewrite Hx, (IH Ha). reflexivity.
Qed.

Lemma pack_doubles_total (arr : list float) :
  exists b : bytes, pack (repeat Fd (List.length arr)) (map VFloat arr) = ret b.
Proof.
  induction arr as [|x arr [b IH]]; [now exists []|].
  cbn [List.length repeat map pack pack_one]. rewrite IH. cbn [bind ret]. eauto.
Qed.

(** X11.  [__wrap_spectra] succeeds exactly on an array of [channels]
    values, with [8 * channels] bytes; an array of any other length makes
    [struct.pack] raise and the failure pair comes back. *)
Theorem wrap_spectra_needs_channels_values :
  forall (self : ASDFile) (md : asdMetadatainfo.t) (arr : list float),
  metadata self = Some md ->
  0 <= asdMetadatainfo.channels md ->
  (len arr = asdMetadatainfo.channels md ->
   exists b : bytes,
     __wrap_spectra self (Some arr) = Wrapped b (asdMetadatainfo.channels md * 8)
     /\ len b = asdMetadatainfo.channels md * 8)
  /\ (len arr <> asdMetadatainfo.channels md ->
      __wrap_spectra self (Some arr) = WrappedNone).
Proof.
  intros self md arr Hm Hn. unfold __wrap_spectra. rewrite Hm.
  cbn [attr bind ret]. unfold doubles_format.
  replace (asdMetadatainfo.channels md <? 0) with false
    by (symmetry; apply Z.ltb_ge; lia).
  cbn [bind ret or_TypeError]. split.
  - intros L. replace (Z.to_nat (asdMetadatainfo.channels md)) with (List.length arr)
      by (unfold len in L; lia).
    destruct (pack_doubles_total arr) as [b P]. rewrite P. cbn [bind ret].
    exists b. split; [reflexivity|].
    apply pack_length in P. rewrite P, calcsize_doubles. unfold len in L. lia.
  - intros L.
    destruct (pack_count_mismatch (repeat Fd (Z.to_nat (asdMetadatainfo.channels md)))
                (map VFloat arr)) as [e E].
    { rewrite repeat_length, length_map. unfold len in L. lia. }
    rewrite E. reflexivity.
Qed.

Lemma wrap_spectra_needs_channels_values_witness :
  (len (map float_of_Z [1; 2; 3; 4; 5; 6; 7; 8; 9; 10]) = 10 ->
   exists b : bytes,
     __wrap_spectra (set_metadata __init__ (Some sample_normalise_metadata))
       (Some (map float_of_Z [1; 2; 3; 4; 5; 6; 7; 8; 9; 10]))
     = Wrapped b (10 * 8)
     /\ len b = 10 * 8)
  /\ (len (map float_of_Z [1; 2; 3; 4; 5; 6; 7; 8; 9; 10]) <> 10 ->
      __wrap_spectra (set_metadata __init__ (Some sample_normalise_metadata))
        (Some (map float_of_Z [1; 2; 3; 4; 5; 6; 7; 8; 9; 10]))
      = WrappedNone).
Proof.
  apply (wrap_spectra_needs_channels_values
           (set_metadata __init__ (Some sample_normalise_metadata))
           sample_normalise_metadata
           (map float_of_Z [1; 2; 3; 4; 5; 6; 7; 8; 9; 10])).
  - reflexivity.
  - vm_compute. discriminate.
Defined.

Lemma map_as_float_VFloat (arr : list float) : map as_float (map VFloat arr) = arr.
Proof.
  induction arr as [|x arr IH]; [reflexivity|]. cbn [map as_float]. now rewrite IH.
Qed.

(** X12.  A spectrum of [channels] binary64 values written by
    [__wrap_spectra] is read back unchanged by [__parse_spectra] from any
    stream that holds the bytes at the offset, and the offset advances by
    the length written. *)
Theorem spectra_roundtrip :
  forall (self : ASDFile) (md : asdMetadatainfo.t) (arr : list float),
  metadata self = Some md ->
  len arr = asdMetadatainfo.channels md ->
  0 < asdMetadatainfo.channels md ->
  forallb is_binary64 arr = true ->
  exists b : bytes,
    __wrap_spectra self (Some arr) = Wrapped b (len b)
    /\ forall (stream : bytes) (o : Z),
         holds_at stream o b ->
         exists (following : bytes) (n : Z),
           __parse_spectra stream self (OffInt o)
           = ret (SpectraOk arr following n (o + len b)).
Proof.
  intros self md arr Hm L Hn V.
  destruct (pack_unpack _ _ (all_fit_doubles arr V)) as (b & P & Lb & U).
  rewrite calcsize_doubles in Lb.
  assert (Lb' : len b = 8 * asdMetadatainfo.channels md) by (unfold len in *; lia).
  exists b. split.
  - unfold __wrap_spectra. rewrite Hm. cbn [attr bind ret]. unfold doubles_format.
    replace (asdMetadatainfo.channels md <? 0) with false
      by (symmetry; apply Z.ltb_ge; lia).
    cbn [bind ret or_TypeError].
    replace (Z.to_nat (asdMetadatainfo.channels md)) with (List.length arr)
      by (unfold len in L; lia).
    rewrite P. cbn [bind ret]. f_equal. lia.
  - intros stream o H. pose proof (holds_at_bounds _ _ _ H) as [Ho Hl].
    rewrite (parse_spectra_ok stream self md o Hm) by lia.
    do 2 eexists. f_equal.
    replace (o + asdMetadatainfo.channels md * 8) with (o + len b) by lia.
    f_equal. unfold spectra_at.
    replace (o + 8 * asdMetadatainfo.channels md) with (o + len b) by lia.
    rewrite (holds_at_slice _ _ _ H).
    replace (Z.to_nat (asdMetadatainfo.channels md)) with (List.length arr)
      by (unfold len in L; lia).
    rewrite U. apply map_as_float_VFloat.
Qed.

Lemma spectra_roundtrip_witness :
  exists b : bytes,
    __wrap_spectra (set_metadata __init__ (Some sample_normalise_metadata))
      (Some (map float_of_Z [1; 2; 3; 4; 5; 6; 7; 8; 9; 10]))
    = Wrapped b (len b)
    /\ forall (stream : bytes) (o : Z),
         holds_at stream o b ->
         exists (following : bytes) (n : Z),
           __parse_spectra stream (set_metadata __init__ (Some sample_normalise_metadata))
             (OffInt o)
           = ret (SpectraOk (map float_of_Z [1; 2; 3; 4; 5; 6; 7; 8; 9; 10])
                    following n (o + len b)).
Proof.
  apply (spectra_roundtrip (set_metadata __init__ (Some sample_normalise_metadata))
           sample_normalise_metadata (map float_of_Z [1; 2; 3; 4; 5; 6; 7; 8; 9; 10])).
  - reflexivity.
  - reflexivity.
  - vm_compute. reflexivity.
  - vm_compute. reflexivity.
Defined.

(** X13.  A spectrum cut short is no exception for [read]: when fewer than
    [8 * channels] bytes are left at the offset, [__parse_spectrumData]
    stores a record whose three fields are [None] and returns [None] as
    the next offset. *)
Theorem parse_spectrumData_truncated :
  forall (stream : bytes) (self : ASDFile) (md : asdMetadatainfo.t) (o : Z),
  metadata self = Some md ->
  0 <= o < len stream ->
  len stream < o + 8 * asdMetadatainfo.channels md ->
  __parse_spectrumData stream self (OffInt o)
  = ret (set_spectrumData self (Some (spectrumDataInfo._make None None None)), OffNone).
Proof.
  intros stream self md o Hm Ho Hl.
  unfold __parse_spectrumData, parse_spectrum_section, __check_offset.
  replace (o <? len stream) with true by (symmetry; apply Z.ltb_lt; lia).
  unfold __parse_spectra, __check_offset.
  replace (o <? len stream) with true by (symmetry; apply Z.ltb_lt; lia).
  unfold parse_spectra_body. rewrite Hm. cbn [attr bind ret].
  unfold doubles_format.
  destruct (Z.ltb_spec (asdMetadatainfo.channels md) 0) as [Neg|Pos]; [lia|].
  cbn [bind ret]. unfold unpack_from. cbn [need_int bind ret].
  rewrite calcsize_doubles, Z2Nat.id by lia.
  rewrite window_short by lia. reflexivity.
Qed.

Lemma parse_spectrumData_truncated_witness :
  __parse_spectrumData [x00; x00; x00]
    (set_metadata __init__ (Some sample_normalise_metadata)) (OffInt 0)
  = ret (set_spectrumData (set_metadata __init__ (Some sample_normalise_metadata))
           (Some (spectrumDataInfo._make None None None)),
         OffNone).
Proof.
  apply (parse_spectrumData_truncated [x00; x00; x00]
           (set_metadata __init__ (Some sample_normalise_metadata))
           sample_normalise_metadata 0).
  - reflexivity.
  - vm_compute. split; [discriminate|reflexivity].
  - vm_compute. reflexivity.
Defined.

(** ** What the section parsers assign *)

Ltac step_updates :=
  match goal with
  | |- updates _ _ (set_metadata _ _) => apply updates_metadata
  | |- updates _ _ (set_wavelengths _ _) => apply updates_wavelengths
  | |- updates _ _ (set_spectrumData _ _) => apply updates_spectrumData
  | |- updates _ _ (set_referenceFileHeader _ _) => apply updates_referenceFileHeader
  | |- updates _ _ (set_referenceData _ _) => apply updates_referenceData
  | |- updates _ _ (set_classifierData _ _) => apply updates_classifierData
  | |- updates _ _ (set_dependants _ _) => apply updates_dependants
  | |- updates _ _ (set_calibrationHeader _ _) => apply updates_calibrationHeader
  | |- updates _ _ (set_calibrationSeriesABS _ _) => apply updates_calibrationSeriesABS
  | |- updates _ _ (set_calibrationSeriesBSE _ _) => apply updates_calibrationSeriesBSE
  | |- updates _ _ (set_calibrationSeriesLMP _ _) => apply updates_calibrationSeriesLMP
  | |- updates _ _ (set_calibrationSeriesFO _ _) => apply updates_calibrationSeriesFO
  | |- updates _ _ (set_auditLog _ _) => apply updates_auditLog
  | |- updates _ _ (set_signature _ _) => apply updates_signature
  end.

Lemma updates_trans (allowed : field -> bool) (a b c : ASDFile) :
  updates allowed a b -> updates allowed b c -> updates allowed a c.
Proof.
  intros H1 H2. induction H2; [exact H1|step_updates; auto ..].
Qed.

Lemma updates_mono (allowed allowed' : field -> bool) (a b : ASDFile) :
  (forall f, allowed f = true -> allowed' f = true) ->
  updates allowed a b -> updates allowed' a b.
Proof.
  intros M H. induction H; [constructor|step_updates; auto ..].
Qed.

(** No section parser assigns the version, the stream or the marker. *)
Lemma updates_header (allowed : field -> bool) (a b : ASDFile) :
  updates allowed a b ->
  asdFileVersion b = asdFileVersion a
  /\ asdFileStream b = asdFileStream a
  /\ bom b = bom a.
Proof.
  intros H. induction H; [repeat split|exact IHupdates ..].
Qed.

Ltac kept H :=
  induction H as [|? ? ? ? ? IH|? ? ? ? ? IH|? ? ? ? ? IH|? ? ? ? ? IH|? ? ? ? ? IH
                  |? ? ? ? ? IH|? ? ? ? ? IH|? ? ? ? ? IH|? ? ? ? ? IH|? ? ? ? ? IH
                  |? ? ? ? ? IH|? ? ? ? ? IH|? ? ? ? ? IH|? ? ? ? ? IH];
  first [reflexivity|now repeat split|congruence|exact IH].

Lemma updates_keep_metadata (allowed : field -> bool) (a b : ASDFile) :
  allowed FMetadata = false -> updates allowed a b -> metadata b = metadata a.
Proof. intros F H. kept H. Qed.

Lemma updates_keep_wavelengths (allowed : field -> bool) (a b : ASDFile) :
  allowed FWavelengths = false -> updates allowed a b -> wavelengths b = wavelengths a.
Proof. intros F H. kept H. Qed.

Lemma updates_keep_spectrumData (allowed : field -> bool) (a b : ASDFile) :
  allowed FSpectrumData = false -> updates allowed a b ->
  spectrumData b = spectrumData a.
Proof. intros F H. kept H. Qed.

Lemma updates_keep_referenceFileHeader (allowed : field -> bool) (a b : ASDFile) :
  allowed FReferenceFileHeader = false -> updates allowed a b ->
  referenceFileHeader b = referenceFileHeader a.
Proof. intros F H. kept H. Qed.

Lemma updates_keep_referenceData (allowed : field -> bool) (a b : ASDFile) :
  allowed FReferenceData = false -> updates allowed a b ->
  referenceData b = referenceData a.
Proof. intros F H. kept H. Qed.

Lemma updates_keep_classifierData (allowed : field -> bool) (a b : ASDFile) :
  allowed FClassifierData = false -> updates allowed a b ->
  classifierData b = classifierData a.
Proof. intros F H. kept H. Qed.

Lemma updates_keep_dependants (allowed : field -> bool) (a b : ASDFile) :
  allowed FDependants = false -> updates allowed a b -> dependants b = dependants a.
Proof. intros F H. kept H. Qed.

Lemma updates_keep_calibrationHeader (allowed : field -> bool) (a b : ASDFile) :
  allowed FCalibrationHeader = false -> updates allowed a b ->
  calibrationHeader b = calibrationHeader a.
Proof. intros F H. kept H. Qed.

Lemma updates_keep_calibrationSeries (allowed : field -> bool) (a b : ASDFile) :
  allowed FCalibrationSeries = false -> updates allowed a b ->
  calibrationSeriesABS b = calibrationSeriesABS a
  /\ calibrationSeriesBSE b = calibrationSeriesBSE a
  /\ calibrationSeriesLMP b = calibrationSeriesLMP a
  /\ calibrationSeriesFO b = calibrationSeriesFO a.
Proof. intros F H. kept H. Qed.

Lemma updates_keep_auditLog (allowed : field -> bool) (a b : ASDFile) :
  allowed FAuditLog = false -> updates allowed a b -> auditLog b = auditLog a.
Proof. intros F H. kept H. Qed.

Lemma updates_keep_signature (allowed : field -> bool) (a b : ASDFile) :
  allowed FSignature = false -> updates allowed a b -> signature b = signature a.
Proof. intros F H. kept H. Qed.

(** The result of a decorated parser whose body either fails, leaving
    the object alone, or returns the object after one assignment *)
Ltac through_decorator H :=
  unfold __check_offset in H;
  match type of H with
  | match ?off with _ => _ end = _ =>
      destruct off as [?o| |];
      [destruct (o <? len _)| |]; try discriminate H; apply ret_inj in H
  end.

Ltac one_assignment E :=
  peel E; apply ret_inj in E; injection E as <- <-;
  first [apply updates_none|step_updates; [reflexivity|apply updates_none]].

Lemma parse_metadata_updates (stream : bytes) (self : ASDFile) (off : pyoff)
  (self' : ASDFile) (off' : pyoff) :
  __parse_metadata stream self off = ret (self', off') ->
  updates (only FMetadata) self self'.
Proof.
  unfold __parse_metadata. intros H. through_decorator H.
  - destruct (parse_metadata_body stream o self) as [e|[s1 o1]] eqn:E;
      injection H as <- <-; [apply updates_none|].
    unfold parse_metadata_body in E. one_assignment E.
  - injection H as <- <-. apply updates_none.
  - injection H as <- <-. apply updates_none.
Qed.

Lemma parse_spectrum_section_updates (f : field)
  (store : ASDFile -> option spectrumDataInfo.t -> ASDFile)
  (stream : bytes) (self : ASDFile) (off : pyoff) (self' : ASDFile) (off' : pyoff) :
  (forall a v, updates (only f) a (store a v)) ->
  parse_spectrum_section store stream self off = ret (self', off') ->
  updates (only f) self self'.
Proof.
  unfold parse_spectrum_section. intros S H. through_decorator H.
  - destruct (__parse_spectra stream self (OffInt o)) as [e|[? ? ? ?| |]];
      injection H as <- <-; first [apply S|apply updates_none].
  - injection H as <- <-. apply updates_none.
  - injection H as <- <-. apply updates_none.
Qed.

Lemma parse_spectrumData_updates (stream : bytes) (self : ASDFile) (off : pyoff)
  (self' : ASDFile) (off' : pyoff) :
  __parse_spectrumData stream self off = ret (self', off') ->
  updates (only FSpectrumData) self self'.
Proof.
  apply parse_spectrum_section_updates. intros a v.
  apply updates_spectrumData; [reflexivity|apply updates_none].
Qed.

Lemma parse_referenceData_updates (stream : bytes) (self : ASDFile) (off : pyoff)
  (self' : ASDFile) (off' : pyoff) :
  __parse_referenceData stream self off = ret (self', off') ->
  updates (only FReferenceData) self self'.
Proof.
  apply parse_spectrum_section_updates. intros a v.
  apply updates_referenceData; [reflexivity|apply updates_none].
Qed.

Lemma parse_referenceFileHeader_updates (stream : bytes) (self : ASDFile) (off : pyoff)
  (self' : ASDFile) (off' : pyoff) :
  __parse_referenceFileHeader stream self off = ret (self', off') ->
  updates (only FReferenceFileHeader) self self'.
Proof.
  unfold __parse_referenceFileHeader. intros H. through_decorator H.
  - destruct (parse_referenceFileHeader_body stream self o) as [e|[s1 o1]] eqn:E;
      injection H as <- <-; [apply updates_none|].
    unfold parse_referenceFileHeader_body in E. one_assignment E.
  - injection H as <- <-. apply updates_none.
  - injection H as <- <-. apply updates_none.
Qed.

Lemma parse_classifierData_updates (stream : bytes) (self : ASDFile) (off : pyoff)
  (self' : ASDFile) (off' : pyoff) :
  __parse_classifierData stream self off = ret (self', off') ->
  updates (only FClassifierData) self self'.
Proof.
  unfold __parse_classifierData. intros H. through_decorator H.
  - destruct (parse_classifierData_body stream self o) as [e|[s1 o1]] eqn:E;
      injection H as <- <-; [apply updates_none|].
    unfold parse_classifierData_body in E. one_assignment E.
  - injection H as <- <-. apply updates_none.
  - injection H as <- <-. apply updates_none.
Qed.

Lemma parse_dependentVariables_updates (stream : bytes) (self : ASDFile) (off : pyoff)
  (self' : ASDFile) (off' : pyoff) :
  __parse_dependentVariables stream self off = ret (self', off') ->
  updates (only FDependants) self self'.
Proof.
  unfold __parse_dependentVariables. intros H. through_decorator H.
  - destruct (parse_dependentVariables_body stream self o) as [e|[s1 o1]] eqn:E;
      injection H as <- <-; [apply updates_none|].
    unfold parse_dependentVariables_body in E. one_assignment E.
  - injection H as <- <-. apply updates_none.
  - injection H as <- <-. apply updates_none.
Qed.

Lemma parse_calibrationHeader_updates (stream : bytes) (self : ASDFile) (off : pyoff)
  (self' : ASDFile) (off' : pyoff) :
  __parse_calibrationHeader stream self off = ret (self', off') ->
  updates (only FCalibrationHeader) self self'.
Proof.
  unfold __parse_calibrationHeader. intros H. through_decorator H.
  - destruct (parse_calibrationHeader_body stream self o) as [e|[s1 o1]] eqn:E;
      injection H as <- <-; [apply updates_none|].
    unfold parse_calibrationHeader_body in E. one_assignment E.
  - injection H as <- <-. apply updates_none.
  - injection H as <- <-. apply updates_none.
Qed.

Lemma parse_signature_updates (stream : bytes) (self : ASDFile) (off : pyoff)
  (self' : ASDFile) (off' : pyoff) :
  __parse_signature stream self off = ret (self', off') ->
  updates (only FSignature) self self'.
Proof.
  unfold __parse_signature. intros H. through_decorator H.
  - destruct (parse_signature_body stream self o) as [e|[s1 o1]] eqn:E;
      injection H as <- <-; [apply updates_none|].
    unfold parse_signature_body in E. one_assignment E.
  - injection H as <- <-. apply updates_none.
  - injection H as <- <-. apply updates_none.
Qed.

Lemma calibration_loop_updates (stream : bytes) (series : list calibrationSerie) :
  forall st : ASDFile * pyoff,
  updates (only FCalibrationSeries) (fst st) (fst (calibration_loop stream series st)).
Proof.
  induction series as [|hdr rest IH]; intros st; [apply updates_none|].
  cbn [calibration_loop]. unfold calibration_slot.
  assert (S : forall (store : ASDFile -> option (list float) -> ASDFile),
             (forall a v, updates (only FCalibrationSeries) a (store a v)) ->
             updates (only FCalibrationSeries) (fst st)
               (fst match __parse_spectra stream (fst st) (snd st) with
                    | inr (SpectraOk spectra _ _ o') =>
                        calibration_loop stream rest (store (fst st) (Some spectra), OffInt o')
                    | inr SpectraNone4 =>
                        calibration_loop stream rest (store (fst st) None, OffNone)
                    | inr SpectraNone2 => st
                    | inl _ => st
                    end)).
  { intros store Hs.
    destruct (__parse_spectra stream (fst st) (snd st)) as [e|[? ? ? ?| |]];
      try apply updates_none.
    - eapply updates_trans; [apply Hs|]. apply (IH (_, _)).
    - eapply updates_trans; [apply Hs|]. apply (IH (_, _)). }
  destruct (cbtype hdr =? 0).
  { apply S. intros a v. apply updates_calibrationSeriesABS; [reflexivity|constructor]. }
  destruct (cbtype hdr =? 1).
  { apply S. intros a v. apply updates_calibrationSeriesBSE; [reflexivity|constructor]. }
  destruct (cbtype hdr =? 2).
  { apply S. intros a v. apply updates_calibrationSeriesLMP; [reflexivity|constructor]. }
  destruct (cbtype hdr =? 3).
  { apply S. intros a v. apply updates_calibrationSeriesFO; [reflexivity|constructor]. }
  apply IH.
Qed.

Lemma section_pair_updates (allowed : field -> bool)
  (first second : ASDFile -> pyoff -> M (ASDFile * pyoff)) (st : ASDFile * pyoff) :
  (forall self off self' off',
      first self off = ret (self', off') -> updates allowed self self') ->
  (forall self off self' off',
      second self off = ret (self', off') -> updates allowed self self') ->
  updates allowed (fst st) (fst (section_pair first second st)).
Proof.
  intros F S. unfold section_pair.
  destruct (first (fst st) (snd st)) as [e|[s1 o1]] eqn:E1; [apply updates_none|].
  cbn [fst snd].
  destruct (second s1 o1) as [e|[s2 o2]] eqn:E2; cbn [fst].
  - exact (F _ _ _ _ E1).
  - exact (updates_trans _ _ _ _ (F _ _ _ _ E1) (S _ _ _ _ E2)).
Qed.

Lemma parse_auditLog_updates (host : Host) (stream : bytes) (self : ASDFile)
  (off : pyoff) (self' : ASDFile) (off' : pyoff) :
  __parse_auditLog host stream self off = ret (self', off') ->
  updates (only FAuditLog) self self'.
Proof.
  unfold __parse_auditLog. intros H. through_decorator H.
  - destruct (parse_auditLog_body host stream self o) as [e|[s1 o1]] eqn:E;
      injection H as <- <-; [apply updates_none|].
    unfold parse_auditLog_body in E. peel E; try discriminate E.
    apply ret_inj in E. injection E as <- <-.
    apply updates_auditLog; [reflexivity|apply updates_none].
  - injection H as <- <-. apply updates_none.
  - injection H as <- <-. apply updates_none.
Qed.

Lemma read_metadata_spectrum_updates (stream : bytes) (st : ASDFile * pyoff) :
  updates (fields_of_version 1) (fst st) (fst (read_metadata_spectrum stream st)).
Proof.
  unfold read_metadata_spectrum.
  destruct (__parse_metadata stream (fst st) (snd st)) as [e|[self1 offset1]] eqn:E1;
    [apply updates_none|].
  apply parse_metadata_updates in E1.
  assert (U1 : updates (fields_of_version 1) (fst st) self1).
  { eapply updates_mono; [|exact E1]. intros [] F; first [reflexivity|discriminate F]. }
  destruct (wavelength_axis self1) as [e|w]; [exact U1|].
  assert (U2 : updates (fields_of_version 1) (fst st) (set_wavelengths self1 (Some w)))
    by (apply updates_wavelengths; [reflexivity|exact U1]).
  destruct (__parse_spectrumData stream (set_wavelengths self1 (Some w)) offset1)
    as [e|[self2 offset2]] eqn:E2; [exact U2|].
  apply parse_spectrumData_updates in E2.
  eapply updates_trans; [exact U2|].
  eapply updates_mono; [|exact E2]. intros [] F; first [reflexivity|discriminate F].
Qed.

Lemma read_calibration_updates (stream : bytes) (st : ASDFile * pyoff) :
  updates (fields_of_version 7) (fst st) (fst (read_calibration stream st)).
Proof.
  unfold read_calibration.
  destruct (__parse_calibrationHeader stream (fst st) (snd st)) as [e|st1] eqn:E1;
    [apply updates_none|].
  destruct st1 as [self1 offset1]. apply parse_calibrationHeader_updates in E1.
  assert (U1 : updates (fields_of_version 7) (fst st) self1).
  { eapply updates_mono; [|exact E1]. intros [] F; first [reflexivity|discriminate F]. }
  unfold read_calibrationSeries. cbn [fst].
  destruct (calibrationHeader self1) as [h|]; [|exact U1].
  destruct (0 <? calibrationHeaderInfo.calibrationNum h); [|exact U1].
  eapply updates_trans; [exact U1|].
  eapply updates_mono;
    [|exact (calibration_loop_updates stream _ (self1, offset1))].
  intros [] F; first [reflexivity|discriminate F].
Qed.

Lemma fields_of_version_mono (v w : Z) (f : field) :
  v <= w -> fields_of_version v f = true -> fields_of_version w f = true.
Proof.
  intros L. destruct f; cbn [fields_of_version]; intros F;
    first [apply Z.ltb_lt in F; apply Z.ltb_lt; lia
          |apply Z.leb_le in F; apply Z.leb_le; lia].
Qed.

(** [read] assigns only the attributes of the blocks its version
    reaches. *)
Lemma read_sections_updates (host : Host) (stream : bytes) (self : ASDFile) (o : Z) :
  updates (fields_of_version (asdFileVersion self)) self
    (fst (read_sections host stream self o)).
Proof.
  unfold read_sections, read_through_dependants.
  set (v := asdFileVersion self).
  set (st0 := (self, OffInt o)).
  change self with (fst st0) at 1.
  set (st1 := if 0 <? v then read_metadata_spectrum stream st0 else st0).
  assert (U1 : updates (fields_of_version v) (fst st0) (fst st1)).
  { unfold st1. destruct (Z.ltb_spec 0 v); [|apply updates_none].
    eapply updates_mono; [|apply read_metadata_spectrum_updates].
    intros f. apply fields_of_version_mono. lia. }
  set (st2 := if 2 <=? v
              then section_pair (__parse_referenceFileHeader stream)
                     (__parse_referenceData stream) st1
              else st1).
  assert (U2 : updates (fields_of_version v) (fst st0) (fst st2)).
  { unfold st2. destruct (Z.leb_spec 2 v) as [V|V]; [|exact U1].
    eapply updates_trans; [exact U1|].
    apply section_pair_updates; intros s1 o1 s2 o2 E.
    - apply parse_referenceFileHeader_updates in E.
      eapply updates_mono; [|exact E].
      intros [] F; try discriminate F. apply Z.leb_le. exact V.
    - apply parse_referenceData_updates in E.
      eapply updates_mono; [|exact E].
      intros [] F; try discriminate F. apply Z.leb_le. exact V. }
  set (st3 := if 6 <=? v
              then section_pair (__parse_classifierData stream)
                     (__parse_dependentVariables stream) st2
              else st2).
  assert (U3 : updates (fields_of_version v) (fst st0) (fst st3)).
  { unfold st3. destruct (Z.leb_spec 6 v) as [V|V]; [|exact U2].
    eapply updates_trans; [exact U2|].
    apply section_pair_updates; intros s1 o1 s2 o2 E.
    - apply parse_classifierData_updates in E.
      eapply updates_mono; [|exact E].
      intros [] F; try discriminate F. apply Z.leb_le. exact V.
    - apply parse_dependentVariables_updates in E.
      eapply updates_mono; [|exact E].
      intros [] F; try discriminate F. apply Z.leb_le. exact V. }
  set (st4 := if 7 <=? v then read_calibration stream st3 else st3).
  assert (U4 : updates (fields_of_version v) (fst st0) (fst st4)).
  { unfold st4. destruct (Z.leb_spec 7 v) as [V|V]; [|exact U3].
    eapply updates_trans; [exact U3|].
    eapply updates_mono; [|apply read_calibration_updates].
    intros f. apply fields_of_version_mono. exact V. }
  destruct (Z.leb_spec 8 v) as [V|V]; [|exact U4].
  eapply updates_trans; [exact U4|].
  apply section_pair_updates; intros s1 o1 s2 o2 E.
  - apply parse_auditLog_updates in E.
    eapply updates_mono; [|exact E].
    intros [] F; try discriminate F. apply Z.leb_le. exact V.
  - apply parse_signature_updates in E.
    eapply updates_mono; [|exact E].
    intros [] F; try discriminate F. apply Z.leb_le. exact V.
Qed.

(** ** The version tag *)

Lemma utf8_decode_length : forall (n : nat) (bs : bytes),
  (List.length bs <= n)%nat ->
  forall s : pystr, utf8_decode bs = ret s -> (List.length s <= List.length bs)%nat.
Proof.
  induction n as [|n IH]; intros bs Hn s H.
  - destruct bs; [|cbn [List.length] in Hn; lia].
    apply ret_inj in H. subst s. cbn. lia.
  - destruct bs as [|b0 r]; [apply ret_inj in H; subst s; cbn; lia|].
    cbn [List.length] in Hn. cbn [utf8_decode] in H.
    assert (K : forall (q : bytes) (c : Z) (t : pystr),
               (List.length q <= n)%nat ->
               bind (utf8_decode q) (fun s => ret (c :: s)) = ret t ->
               (List.length t <= S (List.length q))%nat).
    { intros q c t Hq Ht. destruct (utf8_decode q) as [e'|s'] eqn:E;
        [discriminate Ht|]. cbn [bind] in Ht. apply ret_inj in Ht. subst t.
      cbn [List.length]. pose proof (IH q Hq s' E). lia. }
    destruct (b2z b0 <? 128).
    { pose proof (K r _ _ ltac:(lia) H). cbn [List.length]. lia. }
    destruct (b2z b0 <? 192); [discriminate H|].
    destruct (b2z b0 <? 224).
    { destruct r as [|b1 r1]; [discriminate H|]. cbn [List.length] in Hn.
      destruct (cont b1) as [e1|c1]; cbn [bind] in H; [discriminate H|].
      destruct (_ <? 128); [discriminate H|].
      pose proof (K r1 _ _ ltac:(lia) H). cbn [List.length]. lia. }
    destruct (b2z b0 <? 240).
    { destruct r as [|b1 [|b2 r2]]; try discriminate H. cbn [List.length] in Hn.
      destruct (cont b1) as [e1|c1]; cbn [bind] in H; [discriminate H|].
      destruct (cont b2) as [e2|c2]; cbn [bind] in H; [discriminate H|].
      destruct (_ || _); [discriminate H|].
      pose proof (K r2 _ _ ltac:(lia) H). cbn [List.length]. lia. }
    destruct (b2z b0 <? 248); [|discriminate H].
    destruct r as [|b1 [|b2 [|b3 r3]]]; try discriminate H. cbn [List.length] in Hn.
    destruct (cont b1) as [e1|c1]; cbn [bind] in H; [discriminate H|].
    destruct (cont b2) as [e2|c2]; cbn [bind] in H; [discriminate H|].
    destruct (cont b3) as [e3|c3]; cbn [bind] in H; [discriminate H|].
    destruct (_ || _); [discriminate H|].
    pose proof (K r3 _ _ ltac:(lia) H). cbn [List.length]. lia.
Qed.

Lemma str_eqb_length (x : pystr) : forall y : pystr,
  str_eqb x y = true -> List.length x = List.length y.
Proof.
  induction x as [|a x IH]; intros [|b y] H; cbn [str_eqb] in H;
    try discriminate H; [reflexivity|].
  apply andb_true_iff in H as [_ H]. cbn [List.length]. now rewrite (IH y H).
Qed.

Lemma length_slice_to_le {A : Type} (s : list A) (k : Z) :
  0 <= k -> (List.length (slice_to s k) <= Z.to_nat k)%nat.
Proof.
  intros Hk. unfold slice_to, norm_index. destruct (Z.ltb_spec k 0); [lia|].
  rewrite length_firstn. lia.
Qed.

(** The version [__validate_fileVersion] answers is -1 or one of 1 to 8:
    the key ["Invalid"] of the table has seven characters and is never
    read from three bytes. *)
Lemma validate_fileVersion_range (stream : option bytes) :
  fst (__validate_fileVersion stream) = -1
  \/ 1 <= fst (__validate_fileVersion stream) <= 8.
Proof.
  unfold __validate_fileVersion. destruct stream as [s|]; [|now left].
  cbn [or_TypeError bind ret].
  destruct (utf8_decode (slice_to s 3)) as [e|t] eqn:E; [now left|].
  cbn [bind]. unfold version_dict. cbn [dict_get].
  destruct (str_eqb t (str_of "Invalid")) eqn:E0.
  { exfalso. apply str_eqb_length in E0.
    pose proof (utf8_decode_length _ _ (le_n _) t E).
    pose proof (length_slice_to_le s 3 ltac:(lia)).
    change (List.length (str_of "Invalid")) with 7%nat in E0.
    change (Z.to_nat 3) with 3%nat in *. lia. }
  repeat match goal with
         | |- context [if ?c then _ else _] => destruct c; [right; cbn; lia|]
         end.
  left. reflexivity.
Qed.

(** ** [read] *)

Lemma slice_to_from (content : bytes) (k : Z) :
  slice_to content k ++ slice_from content k = content.
Proof. unfold slice_to, slice_from. apply firstn_skipn. Qed.

(** X14.  After [read] the version is the one [__validate_fileVersion]
    answers for the stored stream, and it is -1 or one of 1 to 8 (never
    0); the stream is the content of the file without a trailing marker
    [FF FE FD]; a marker found is remembered, and a file without one
    leaves the marker of an earlier [read] in place. *)
Theorem read_keeps_version_and_stream :
  forall (host : Host) (self : ASDFile) (file : option bytes),
  asdFileVersion (fst (read host self file))
  = fst (__validate_fileVersion (asdFileStream (fst (read host self file))))
  /\ (asdFileVersion (fst (read host self file)) = -1
      \/ 1 <= asdFileVersion (fst (read host self file)) <= 8)
  /\ match file with
     | Some content =>
         asdFileStream (fst (read host self file)) = Some (stream_of content)
         /\ (if bytes_eqb (slice_from content (-3)) marker
             then bom (fst (read host self file)) = Some marker
                  /\ stream_of content ++ marker = content
             else bom (fst (read host self file)) = bom self
                  /\ stream_of content = content)
     | None =>
         asdFileStream (fst (read host self file)) = asdFileStream self
         /\ bom (fst (read host self file)) = bom self
     end.
Proof.
  intros host self file. unfold read.
  set (self1 := match file with
                | Some content => load self content
                | None => self
                end).
  pose proof (validate_fileVersion_range (asdFileStream self1)) as R.
  destruct (__validate_fileVersion (asdFileStream self1)) as [version offset] eqn:V.
  cbn [fst] in R.
  set (self2 := set_asdFileVersion self1 version).
  assert (H : asdFileVersion (fst match asdFileStream self2 with
                                  | Some stream =>
                                      (fst (read_sections host stream self2 offset), true)
                                  | None => (self2, true)
                                  end) = version
              /\ asdFileStream (fst match asdFileStream self2 with
                                    | Some stream =>
                                        (fst (read_sections host stream self2 offset), true)
                                    | None => (self2, true)
                                    end) = asdFileStream self1
              /\ bom (fst match asdFileStream self2 with
                          | Some stream =>
                              (fst (read_sections host stream self2 offset), true)
                          | None => (self2, true)
                          end) = bom self1).
  { destruct (asdFileStream self2) as [stream|]; cbn [fst].
    - destruct (updates_header _ _ _ (read_sections_updates host stream self2 offset))
        as (A & B & C).
      rewrite A, B, C. repeat split.
    - repeat split. }
  destruct H as (A & B & C). rewrite A, B, C, V. cbn [fst].
  split; [reflexivity|]. split; [exact R|].
  unfold self1. destruct file as [content|]; [|split; reflexivity].
  unfold load, stream_of, marker.
  destruct (bytes_eqb (slice_from content (-3)) [xff; xfe; xfd]) eqn:E.
  - apply bytes_eqb_eq in E. cbn [asdFileStream bom set_asdFileStream set_bom].
    rewrite E. repeat split. rewrite <- E at 1. apply slice_to_from.
  - repeat split.
Qed.

(** X15.  [read] assigns nothing beyond the blocks its version reaches:
    with a version below 2 the reference header and data, below 6 the
    classifier and dependent variables, below 7 the calibration header and
    the four series, below 8 the audit log and the signature, and without
    a valid tag the metadata, the wavelengths and the spectrum too, keep
    the values they had before the call; [read] never resets them. *)
Theorem read_assigns_only_the_sections_of_its_version :
  forall (host : Host) (self : ASDFile) (file : option bytes),
  (asdFileVersion (fst (read host self file)) <= 0 ->
   metadata (fst (read host self file)) = metadata self
   /\ wavelengths (fst (read host self file)) = wavelengths self
   /\ spectrumData (fst (read host self file)) = spectrumData self)
  /\ (asdFileVersion (fst (read host self file)) < 2 ->
      referenceFileHeader (fst (read host self file)) = referenceFileHeader self
      /\ referenceData (fst (read host self file)) = referenceData self)
  /\ (asdFileVersion (fst (read host self file)) < 6 ->
      classifierData (fst (read host self file)) = classifierData self
      /\ dependants (fst (read host self file)) = dependants self)
  /\ (asdFileVersion (fst (read host self file)) < 7 ->
      calibrationHeader (fst (read host self file)) = calibrationHeader self
      /\ calibrationSeriesABS (fst (read host self file)) = calibrationSeriesABS self
      /\ calibrationSeriesBSE (fst (read host self file)) = calibrationSeriesBSE self
      /\ calibrationSeriesLMP (fst (read host self file)) = calibrationSeriesLMP self
      /\ calibrationSeriesFO (fst (read host self file)) = calibrationSeriesFO self)
  /\ (asdFileVersion (fst (read host self file)) < 8 ->
      auditLog (fst (read host self file)) = auditLog self
      /\ signature (fst (read host self file)) = signature self).
Proof.
  intros host self file.
  assert (G : exists self2 : ASDFile,
             updates (fields_of_version (asdFileVersion self2)) self2
               (fst (read host self file))
             /\ metadata self2 = metadata self
             /\ wavelengths self2 = wavelengths self
             /\ spectrumData self2 = spectrumData self
             /\ referenceFileHeader self2 = referenceFileHeader self
             /\ referenceData self2 = referenceData self
             /\ classifierData self2 = classifierData self
             /\ dependants self2 = dependants self
             /\ calibrationHeader self2 = calibrationHeader self
             /\ calibrationSeriesABS self2 = calibrationSeriesABS self
             /\ calibrationSeriesBSE self2 = calibrationSeriesBSE self
             /\ calibrationSeriesLMP self2 = calibrationSeriesLMP self
             /\ calibrationSeriesFO self2 = calibrationSeriesFO self
             /\ auditLog self2 = auditLog self
             /\ signature self2 = signature self).
  { unfold read.
    set (self1 := match file with
                  | Some content => load self content
                  | None => self
                  end).
    assert (S1 : metadata self1 = metadata self
                 /\ wavelengths self1 = wavelengths self
                 /\ spectrumData self1 = spectrumData self
                 /\ referenceFileHeader self1 = referenceFileHeader self
                 /\ referenceData self1 = referenceData self
                 /\ classifierData self1 = classifierData self
                 /\ dependants self1 = dependants self
                 /\ calibrationHeader self1 = calibrationHeader self
                 /\ calibrationSeriesABS self1 = calibrationSeriesABS self
                 /\ calibrationSeriesBSE self1 = calibrationSeriesBSE self
                 /\ calibrationSeriesLMP self1 = calibrationSeriesLMP self
                 /\ calibrationSeriesFO self1 = calibrationSeriesFO self
                 /\ auditLog self1 = auditLog self
                 /\ signature self1 = signature self).
    { unfold self1. destruct file as [content|]; [|repeat split].
      unfold load. destruct (bytes_eqb _ _); repeat split. }
    destruct (__validate_fileVersion (asdFileStream self1)) as [version offset].
    exists (set_asdFileVersion self1 version). split; [|exact S1].
    destruct (asdFileStream (set_asdFileVersion self1 version)) as [stream|];
      cbn [fst]; [apply read_sections_updates|apply updates_none]. }
  destruct G as (self2 & U & M1 & M2 & M3 & M4 & M5 & M6 & M7 & M8 & M9 & M10
                 & M11 & M12 & M13 & M14).
  destruct (updates_header _ _ _ U) as (V & _).
  rewrite V. set (v := asdFileVersion self2) in *.
  assert (T : forall f : field,
             (match f with
              | FMetadata | FWavelengths | FSpectrumData => v <= 0
              | FReferenceFileHeader | FReferenceData => v < 2
              | FClassifierData | FDependants => v < 6
              | FCalibrationHeader | FCalibrationSeries => v < 7
              | FAuditLog | FSignature => v < 8
              end) -> fields_of_version v f = false).
  { intros [] L; cbn [fields_of_version];
      first [apply Z.ltb_ge; lia|apply Z.leb_gt; lia]. }
  repeat split.
  - rewrite <- M1. exact (updates_keep_metadata _ _ _ (T FMetadata H) U).
  - rewrite <- M2. exact (updates_keep_wavelengths _ _ _ (T FWavelengths H) U).
  - rewrite <- M3. exact (updates_keep_spectrumData _ _ _ (T FSpectrumData H) U).
  - rewrite <- M4.
    exact (updates_keep_referenceFileHeader _ _ _ (T FReferenceFileHeader H) U).
  - rewrite <- M5. exact (updates_keep_referenceData _ _ _ (T FReferenceData H) U).
  - rewrite <- M6. exact (updates_keep_classifierData _ _ _ (T FClassifierData H) U).
  - rewrite <- M7. exact (updates_keep_dependants _ _ _ (T FDependants H) U).
  - rewrite <- M8.
    exact (updates_keep_calibrationHeader _ _ _ (T FCalibrationHeader H) U).
  - rewrite <- M9.
    exact (proj1 (updates_keep_calibrationSeries _ _ _ (T FCalibrationSeries H) U)).
  - rewrite <- M10.
    exact (proj1 (proj2 (updates_keep_calibrationSeries _ _ _
                           (T FCalibrationSeries H) U))).
  - rewrite <- M11.
    exact (proj1 (proj2 (proj2 (updates_keep_calibrationSeries _ _ _
                                  (T FCalibrationSeries H) U)))).
  - rewrite <- M12.
    exact (proj2 (proj2 (proj2 (updates_keep_calibrationSeries _ _ _
                                  (T FCalibrationSeries H) U)))).
  - rewrite <- M13. exact (updates_keep_auditLog _ _ _ (T FAuditLog H) U).
  - rewrite <- M14. exact (updates_keep_signature _ _ _ (T FSignature H) U).
Qed.

(** ** [write] *)

(** X16.  An object whose version is not positive (a fresh one, or one
    whose [read] found no valid tag) is written as an empty file, or as
    the marker alone when one is set, and [write] returns normally. *)
Theorem write_without_version_writes_only_the_marker :
  forall (host : Host) (self : ASDFile),
  asdFileVersion self <= 0 ->
  write host self
  = (match bom self with
     | Some b => b
     | None => []
     end, None).
Proof.
  intros host self H. unfold write, write_steps. cbv zeta.
  replace (0 <? asdFileVersion self) with false by (symmetry; apply Z.ltb_ge; lia).
  replace (2 <=? asdFileVersion self) with false by (symmetry; apply Z.leb_gt; lia).
  replace (7 <=? asdFileVersion self) with false by (symmetry; apply Z.leb_gt; lia).
  replace (8 <=? asdFileVersion self) with false by (symmetry; apply Z.leb_gt; lia).
  cbn [app]. destruct (bom self) as [[|b r]|]; reflexivity.
Qed.

Lemma write_without_version_writes_only_the_marker_witness :
  write sample_host __init__ = ([], None).
Proof.
  apply (write_without_version_writes_only_the_marker sample_host __init__).
  cbn [asdFileVersion __init__]. lia.
Defined.

Lemma run_writes_raises (steps : list (M bytes)) : forall (out : bytes) (e : exn),
  In (inl e) steps -> exists e' : exn, snd (run_writes steps out) = Some e'.
Proof.
  induction steps as [|[e0|b] r IH]; intros out e H.
  - destruct H.
  - cbn [run_writes snd]. eauto.
  - cbn [run_writes]. destruct H as [H|H]; [discriminate H|]. eauto.
Qed.

(** X17.  From version 8 on [write] writes the audit log and the signature
    unconditionally: an object without an audit log or without a
    signature makes it raise (the wrapper's [(None, None)] reaches
    [fileHandle.write]), whatever else the object holds. *)
Theorem write_version8_needs_audit_log_and_signature :
  forall (host : Host) (self : ASDFile),
  8 <= asdFileVersion self ->
  auditLog self = None \/ signature self = None ->
  exists e : exn, snd (write host self) = Some e.
Proof.
  intros host self V H. unfold write.
  apply run_writes_raises with (e := TypeError).
  unfold write_steps. cbv zeta.
  replace (8 <=? asdFileVersion self) with true by (symmetry; apply Z.leb_le; lia).
  apply in_or_app; right. apply in_or_app; right. apply in_or_app; right.
  apply in_or_app; left.
  destruct H as [H|H].
  - left. unfold __wrap_auditLog. rewrite H. reflexivity.
  - right. left. unfold __wrap_signature. rewrite H. reflexivity.
Qed.

Lemma write_version8_needs_audit_log_and_signature_witness :
  exists e : exn, snd (write sample_host (set_asdFileVersion __init__ 8)) = Some e.
Proof.
  apply (write_version8_needs_audit_log_and_signature sample_host
           (set_asdFileVersion __init__ 8)).
  - cbn [asdFileVersion set_asdFileVersion]. lia.
  - left. reflexivity.
Defined.

Lemma run_writes_last (steps : list (M bytes)) : forall (out b : bytes),
  snd (run_writes (steps ++ [ret b]) out) = None ->
  exists body : bytes, fst (run_writes (steps ++ [ret b]) out) = body ++ b.
Proof.
  induction steps as [|[e0|b0] r IH]; intros out b H.
  - exists out. reflexivity.
  - discriminate H.
  - cbn [app run_writes] in *. exact (IH _ _ H).
Qed.

(** X18.  When [write] returns normally the file ends with the marker the
    object holds, so a marker taken off by [read] is put back. *)
Theorem write_ends_with_the_marker :
  forall (host : Host) (self : ASDFile) (b : bytes),
  bom self = Some b ->
  snd (write host self) = None ->
  exists body : bytes, fst (write host self) = body ++ b.
Proof.
  intros host self b Hb. unfold write, write_steps. cbv zeta. rewrite Hb.
  destruct b as [|b0 r].
  - intros _. eexists. symmetry. apply app_nil_r.
  - rewrite !app_assoc. apply run_writes_last.
Qed.

Lemma write_ends_with_the_marker_witness :
  exists body : bytes,
    fst (write sample_host (set_bom __init__ (Some marker))) = body ++ marker.
Proof.
  apply (write_ends_with_the_marker sample_host (set_bom __init__ (Some marker)) marker).
  - reflexivity.
  - reflexivity.
Defined.

(** ** Audit log *)

Lemma wrap_auditEvents_loop_last (host : Host) (events : list (option auditInfo.t)) :
  forall (e : option auditInfo.t) (b : bytes) (last : option bytes),
  (forall x, In x events -> exists bx, __wrap_auditLogEvent host x = Some bx) ->
  __wrap_auditLogEvent host e = Some b ->
  wrap_auditEvents_loop host (events ++ [e]) last = ret (Some b).
Proof.
  induction events as [|x r IH]; intros e b last Hall He.
  - cbn [app wrap_auditEvents_loop]. rewrite He. reflexivity.
  - cbn [app wrap_auditEvents_loop].
    destruct (Hall x (or_introl eq_refl)) as [bx Hx]. rewrite Hx.
    cbn [or_TypeError bind ret]. apply IH; [|exact He].
    intros y Hy. apply Hall. now right.
Qed.

(** X19.  [__wrap_auditEvents] writes the last event only: every event is
    serialised, and what is returned is the 16-bit length of the last
    serialisation followed by it; an empty list gives the failure pair. *)
Theorem wrap_auditEvents_keeps_last_event :
  forall (host : Host) (events : list (option auditInfo.t)) (e : option auditInfo.t)
         (b : bytes),
  (forall x, In x events -> exists bx, __wrap_auditLogEvent host x = Some bx) ->
  __wrap_auditLogEvent host e = Some b ->
  len b <= 32767 ->
  __wrap_auditEvents host (events ++ [e]) = Wrapped (le16 (len b) ++ b) (2 + len b)
  /\ __wrap_auditEvents host [] = WrappedNone.
Proof.
  intros host events e b Hall He Hl. split; [|reflexivity].
  unfold __wrap_auditEvents.
  rewrite (wrap_auditEvents_loop_last host events e b None Hall He).
  cbn [bind ret]. pose proof (len_nonneg b).
  rewrite pack_short by lia. cbn [bind ret].
  change [z2b (len b); z2b (len b / 256)] with (le16 (len b)).
  rewrite len_app, len_le16. reflexivity.
Qed.

Lemma wrap_auditEvents_keeps_last_event_witness :
  __wrap_auditEvents sample_naming_host
    ([sample_event "first"; sample_event "second"] ++ [sample_event "last"])
  = Wrapped (le16 4 ++ [x6c; x61; x73; x74]) (2 + 4)
  /\ __wrap_auditEvents sample_naming_host [] = WrappedNone.
Proof.
  apply (wrap_auditEvents_keeps_last_event sample_naming_host
           [sample_event "first"; sample_event "second"] (sample_event "last")
           [x6c; x61; x73; x74]).
  - intros x [<-|[<-|[]]]; eexists; reflexivity.
  - reflexivity.
  - vm_compute. discriminate.
Defined.

Lemma unpack_fields_int (signed : bool) (n : nat) (w : bytes) :
  List.length w = n ->
  unpack_fields [Fint signed n] w = [VInt (if signed then le_sint w else le_uint w)].
Proof.
  intros L. cbn [unpack_fields fsize unpack_one].
  rewrite firstn_all2 by lia. reflexivity.
Qed.

(** X20.  The last block of [read] stores an audit log only for a positive
    event count: when the count at the offset is zero or negative, or the
    bytes for it are missing, the audit log is not stored, the next offset
    is lost, and the signature after it is not parsed either. *)
Theorem read_skips_signature_without_audit_events :
  forall (host : Host) (stream : bytes) (self : ASDFile) (o : Z),
  0 <= o ->
  len stream < o + Z.of_nat (sizeof_long host)
  \/ le_sint (slice stream o (o + Z.of_nat (sizeof_long host))) <= 0 ->
  section_pair (__parse_auditLog host stream) (__parse_signature stream)
    (self, OffInt o)
  = (self, OffPair).
Proof.
  intros host stream self o Ho H. unfold section_pair. cbn [fst snd].
  unfold __parse_auditLog, __check_offset.
  destruct (Z.ltb_spec o (len stream)) as [In|Out]; [|reflexivity].
  assert (B : exists e : exn, parse_auditLog_body host stream self o = inl e).
  { unfold parse_auditLog_body, unpack_from. cbn [need_int bind ret].
    replace (calcsize [native_long host]) with (Z.of_nat (sizeof_long host))
      by (unfold native_long; cbn [calcsize fsize]; lia).
    destruct (Z_lt_le_dec (len stream) (o + Z.of_nat (sizeof_long host)))
      as [Short|Long].
    - rewrite window_short by lia. eexists. reflexivity.
    - destruct H as [H|H]; [lia|].
      rewrite window_ok by lia. cbn [bind ret]. unfold native_long.
      rewrite unpack_fields_int by (rewrite length_slice by lia; lia).
      change (geti [VInt ?z] 0) with z.
      replace (0 <? le_sint (slice stream o (o + Z.of_nat (sizeof_long host))))
        with false by (symmetry; apply Z.ltb_ge; lia).
      eexists. reflexivity. }
  destruct B as [e B]. rewrite B. reflexivity.
Qed.

Lemma read_skips_signature_without_audit_events_witness :
  section_pair (__parse_auditLog sample_host [x00; x00; x00; x00; x01])
    (__parse_signature [x00; x00; x00; x00; x01]) (__init__, OffInt 0)
  = (__init__, OffPair).
Proof.
  apply (read_skips_signature_without_audit_events sample_host
           [x00; x00; x00; x00; x01] __init__ 0).
  - lia.
  - right. vm_compute. discriminate.
Defined.

(** ** Calibration series *)

Lemma len_cons {A : Type} (x : A) (l : list A) : len (x :: l) = 1 + len l.
Proof. unfold len. cbn [List.length]. lia. Qed.

(** X21.  The calibration loop reads one array of [channels] doubles for
    every descriptor whose type tag is 0, 1, 2 or 3, and none for any
    other tag: when the bytes are there, the offset after the loop is the
    offset before it plus [8 * channels] for each such descriptor. *)
Theorem calibration_loop_advances_per_known_descriptor :
  forall (stream : bytes) (md : asdMetadatainfo.t) (series : list calibrationSerie)
         (self : ASDFile) (o : Z),
  metadata self = Some md ->
  0 < asdMetadatainfo.channels md ->
  0 <= o ->
  o + 8 * asdMetadatainfo.channels md * len (filter known_tag series) <= len stream ->
  snd (calibration_loop stream series (self, OffInt o))
  = OffInt (o + 8 * asdMetadatainfo.channels md * len (filter known_tag series)).
Proof.
  intros stream md series. induction series as [|hdr rest IH];
    intros self o Hm Hn Ho Hl.
  - cbn [calibration_loop filter snd]. f_equal. change (len (@nil calibrationSerie)) with 0.
    lia.
  - cbn [calibration_loop filter] in *. unfold calibration_slot, known_tag in *.
    cbn [fst snd].
    pose proof (len_nonneg (filter known_tag rest)) as Hr. unfold known_tag in Hr.
    assert (S : forall store : ASDFile -> option (list float) -> ASDFile,
               (forall a v, metadata (store a v) = metadata a) ->
               0 <= cbtype hdr <= 3 ->
               snd match __parse_spectra stream self (OffInt o) with
                   | inr (SpectraOk spectra _ _ o') =>
                       calibration_loop stream rest (store self (Some spectra), OffInt o')
                   | inr SpectraNone4 =>
                       calibration_loop stream rest (store self None, OffNone)
                   | inr SpectraNone2 => (self, OffInt o)
                   | inl _ => (self, OffInt o)
                   end
               = OffInt (o + 8 * asdMetadatainfo.channels md
                               * len (filter (fun h => (0 <=? cbtype h) && (cbtype h <=? 3))
                                        (hdr :: rest)))).
    { intros store Hs Ht. cbn [filter].
      replace ((0 <=? cbtype hdr) && (cbtype hdr <=? 3)) with true in *
        by (symmetry; apply andb_true_iff; split; apply Z.leb_le; lia).
      rewrite len_cons in *.
      rewrite (parse_spectra_ok stream self md o Hm) by nia. unfold ret.
      rewrite IH; [f_equal; lia|rewrite Hs; exact Hm|lia|lia|nia]. }
    destruct (Z.eqb_spec (cbtype hdr) 0) as [E0|N0].
    { apply S; [reflexivity|lia]. }
    destruct (Z.eqb_spec (cbtype hdr) 1) as [E1|N1].
    { apply S; [reflexivity|lia]. }
    destruct (Z.eqb_spec (cbtype hdr) 2) as [E2|N2].
    { apply S; [reflexivity|lia]. }
    destruct (Z.eqb_spec (cbtype hdr) 3) as [E3|N3].
    { apply S; [reflexivity|lia]. }
    replace ((0 <=? cbtype hdr) && (cbtype hdr <=? 3)) with false in *
      by (symmetry; apply andb_false_iff;
          destruct (Z.leb_spec 0 (cbtype hdr)); [right; apply Z.leb_gt; lia|now left]).
    apply IH; assumption.
Qed.

Lemma calibration_loop_advances_per_known_descriptor_witness :
  snd (calibration_loop (stream_of sample_v7)
         [(2, [], 0, 0, 0); (9, [], 0, 0, 0); (0, [], 0, 0, 0)]
         (fst (read_through_dependants (stream_of sample_v7)
                 (set_asdFileVersion __init__ 7) 3), OffInt 662))
  = OffInt (662 + 8 * 1 * 2).
Proof.
  exact (calibration_loop_advances_per_known_descriptor (stream_of sample_v7)
           (sample_decoded_metadata (slice_to sample_v7 484))
           [(2, [], 0, 0, 0); (9, [], 0, 0, 0); (0, [], 0, 0, 0)]
           (fst (read_through_dependants (stream_of sample_v7)
                   (set_asdFileVersion __init__ 7) 3))
           662 eq_refl eq_refl ltac:(discriminate) ltac:(discriminate)).
Defined.

(** ** Metadata *)

Lemma slice_of_window (s : bytes) (o : Z) (n j k : nat) :
  0 <= o -> (j + k <= n)%nat -> o + Z.of_nat n <= len s ->
  firstn k (skipn j (firstn n (skipn (Z.to_nat o) s)))
  = slice s (o + Z.of_nat j) (o + Z.of_nat j + Z.of_nat k).
Proof.
  intros Ho Hjk Hl.
  rewrite skipn_firstn_comm, firstn_firstn, skipn_skipn.
  replace (Nat.min k (n - j)) with k by lia.
  rewrite <- slice_window by lia.
  rewrite Nat2Z.id. f_equal. f_equal. lia.
Qed.

Lemma length_lstrip0 (b : bytes) : (List.length (lstrip0 b) <= List.length b)%nat.
Proof.
  induction b as [|x r IH]; [cbn; lia|].
  cbn [lstrip0]. destruct x; cbn [List.length] in *; lia.
Qed.

Lemma length_strip0 (b : bytes) : (List.length (strip0 b) <= List.length b)%nat.
Proof.
  unfold strip0. rewrite length_rev.
  pose proof (length_lstrip0 (rev (lstrip0 b))) as H1.
  rewrite length_rev in H1. pose proof (length_lstrip0 b). lia.
Qed.

(** X22.  With the 481 bytes of the record in place, [__parse_metadata]
    fails exactly when the nine shorts at bytes 157 to 174 of the record
    are no date that [datetime.datetime] accepts (a zero-filled field has
    day 0): then nothing is stored and the next offset is [None];
    otherwise the record is stored with that date and the offset advances
    by 481. *)
Theorem parse_metadata_needs_a_valid_date :
  forall (stream : bytes) (self : ASDFile) (o : Z),
  0 <= o -> o + 481 <= len stream ->
  match __parse_ASDFilewhen
          (unpack_fields (repeat Fh 9) (slice stream (o + 157) (o + 157 + 18))) with
  | inr (date, flag) =>
      exists md : asdMetadatainfo.t,
        __parse_metadata stream self (OffInt o)
        = ret (set_metadata self (Some md), OffInt (o + 481))
        /\ asdMetadatainfo.when md = date
        /\ asdMetadatainfo.daylighSavingsFlag md = flag
  | inl _ => __parse_metadata stream self (OffInt o) = ret (self, OffNone)
  end.
Proof.
  intros stream self o Ho Hl.
  set (X := slice stream (o + 157) (o + 157 + 18)).
  assert (LX : len X = 18).
  { unfold len, X. rewrite length_slice by lia. lia. }
  assert (HX : holds_at X 0 X).
  { exists [], []. rewrite app_nil_r. split; reflexivity. }
  eassert (P : __parse_metadata stream self (OffInt o) = _).
  { unfold __parse_metadata, __check_offset.
    replace (o <? len stream) with true by (symmetry; apply Z.ltb_lt; lia).
    unfold parse_metadata_body, unpack_from at 1. cbn [need_int bind ret].
    change (calcsize asdMetadataFormat) with 481. unfold window.
    replace (o <? 0) with false by (symmetry; apply Z.ltb_ge; lia).
    replace (len stream - o <? 481) with false by (symmetry; apply Z.ltb_ge; lia).
    cbn [bind ret]. change (Z.to_nat 481) with 481%nat.
    set (W := firstn 481 (skipn (Z.to_nat o) stream)).
    change (getb (unpack_fields asdMetadataFormat W) 1) with (firstn 18 (skipn 157 W)).
    unfold W at 1.
    rewrite (slice_of_window stream o 481 157 18) by lia.
    change (Z.of_nat 157) with 157. change (Z.of_nat 18) with 18. fold X.
    rewrite (holds_at_unpack_from (repeat Fh 9) X 0 X HX LX). cbn [bind ret].
    reflexivity. }
  rewrite P. clear P.
  destruct (__parse_ASDFilewhen (unpack_fields (repeat Fh 9) X)) as [e|[date flag]];
    cbn [bind ret fst snd]; [reflexivity|].
  eexists. split; [reflexivity|]. split; reflexivity.
Qed.

Lemma parse_metadata_needs_a_valid_date_witness :
  __parse_metadata (zeros 481) __init__ (OffInt 0) = ret (__init__, OffNone).
Proof.
  exact (parse_metadata_needs_a_valid_date (zeros 481) __init__ 0
           ltac:(discriminate) ltac:(discriminate)).
Defined.

(** X23.  A decoded metadata record keeps its fixed-width blocks at full
    width: the application data has 128 bytes, the GPS block 56, the
    smart-detector block 27 and the stripped comment at most 157, so
    [__wrap_metadata] pads none of the blocks and
    [__parse_SmartDetector] decodes the smart-detector block of every
    decoded record. *)
Theorem decoded_metadata_blocks :
  forall (stream : bytes) (self self' : ASDFile) (o o' : Z),
  0 <= o ->
  __parse_metadata stream self (OffInt o) = ret (self', OffInt o') ->
  exists md : asdMetadatainfo.t,
    metadata self' = Some md
    /\ len (asdMetadatainfo.comments md) <= 157
    /\ len (asdMetadatainfo.appData_str md) = 128
    /\ len (asdMetadatainfo.gpsData_str md) = 56
    /\ len (asdMetadatainfo.smartDetectorType md) = 27
    /\ exists sd : smartDetectorInfo.t,
         __parse_SmartDetector (asdMetadatainfo.smartDetectorType md) = Some sd.
Proof.
  intros stream self self' o o' Ho H.
  unfold __parse_metadata, __check_offset in H.
  destruct (o <? len stream); [|discriminate H].
  destruct (parse_metadata_body stream o self) as [e|[s1 o1]] eqn:E;
    [discriminate H|].
  apply ret_inj in H. injection H as <- <-.
  unfold parse_metadata_body in E.
  destruct (unpack_from asdMetadataFormat stream (Some o)) as [e|v] eqn:Hu;
    [discriminate E|].
  cbn [bind] in E.
  destruct (unpack_from (repeat Fh 9) (getb v 1) (Some 0)) as [e|w]; [discriminate E|].
  cbn [bind] in E.
  destruct (__parse_ASDFilewhen w) as [e|wd]; [discriminate E|].
  cbn [bind] in E. apply ret_inj in E. injection E as <- _.
  unfold unpack_from in Hu. cbn [need_int bind ret] in Hu.
  destruct (window (calcsize asdMetadataFormat) stream o) as [e|W] eqn:Hw;
    [discriminate Hu|].
  apply window_inr in Hw; [|assumption|vm_compute; discriminate].
  change (calcsize asdMetadataFormat) with 481 in Hw. destruct Hw as [Hl HW].
  change (Z.to_nat 481) with 481%nat in HW.
  assert (LW : List.length W = 481%nat).
  { subst W. rewrite length_firstn, length_skipn. unfold len in Hl. lia. }
  cbn [bind] in Hu. apply ret_inj in Hu. subst v. clear HW.
  eexists. split; [reflexivity|].
  cbn [asdMetadatainfo.comments asdMetadatainfo.appData_str
       asdMetadatainfo.gpsData_str asdMetadatainfo.smartDetectorType].
  assert (L0 : List.length (getb (unpack_fields asdMetadataFormat W) 0) = 157%nat).
  { change (getb (unpack_fields asdMetadataFormat W) 0) with (firstn 157 W).
    rewrite length_firstn. lia. }
  assert (L17 : List.length (getb (unpack_fields asdMetadataFormat W) 17) = 128%nat).
  { unfold getb, asdMetadataFormat, Fb, Fl, FH.
    cbn [nth unpack_fields unpack_one as_bytes fsize].
    rewrite length_firstn, ?length_skipn. lia. }
  assert (L18 : List.length (getb (unpack_fields asdMetadataFormat W) 18) = 56%nat).
  { unfold getb, asdMetadataFormat, Fb, Fl, FH.
    cbn [nth unpack_fields unpack_one as_bytes fsize].
    rewrite length_firstn, ?length_skipn. lia. }
  assert (L45 : List.length (getb (unpack_fields asdMetadataFormat W) 45) = 27%nat).
  { unfold getb, asdMetadataFormat, Fb, Fl, FH, Fh, FL.
    cbn [nth unpack_fields unpack_one as_bytes fsize].
    rewrite length_firstn, ?length_skipn. lia. }
  pose proof (length_strip0 (getb (unpack_fields asdMetadataFormat W) 0)) as Ls.
  assert (L27 : len (getb (unpack_fields asdMetadataFormat W) 45) = 27)
    by (unfold len; lia).
  repeat split; try (unfold len; lia).
  apply parse_SmartDetector_exact. exact L27.
Qed.

Lemma decoded_metadata_blocks_witness :
  exists md : asdMetadatainfo.t,
    metadata (match __parse_metadata sample_v1 __init__ (OffInt 3) with
              | inr (s, _) => s
              | inl _ => __init__
              end) = Some md
    /\ len (asdMetadatainfo.comments md) <= 157
    /\ len (asdMetadatainfo.appData_str md) = 128
    /\ len (asdMetadatainfo.gpsData_str md) = 56
    /\ len (asdMetadatainfo.smartDetectorType md) = 27
    /\ exists sd : smartDetectorInfo.t,
         __parse_SmartDetector (asdMetadatainfo.smartDetectorType md) = Some sd.
Proof.
  refine (decoded_metadata_blocks sample_v1 __init__
            (match __parse_metadata sample_v1 __init__ (OffInt 3) with
             | inr (s, _) => s
             | inl _ => __init__
             end)
            3 484 _ _).
  - lia.
  - vm_compute. reflexivity.
Defined.

(** ** Sections written and read back *)

Lemma parse_Bool_at (stream : bytes) (o : Z) (b : bool) :
  holds_at stream o (fst (__wrap_Bool b)) ->
  __parse_Bool stream (OffInt o) = ret (Some (b, o + 2)).
Proof.
  intros H. assert (L : len (fst (__wrap_Bool b)) = 2) by (destruct b; reflexivity).
  unfold __parse_Bool, __check_offset.
  rewrite (holds_at_lt _ _ _ H) by lia.
  pose proof (holds_at_slice _ _ _ H) as S. rewrite L in S.
  unfold parse_Bool_body. rewrite S. destruct b; reflexivity.
Qed.

Lemma fits_signed (n : nat) (z : Z) :
  (0 < n)%nat ->
  - 2 ^ (8 * Z.of_nat n - 1) <= z < 2 ^ (8 * Z.of_nat n - 1) ->
  fits (Fint true n) (VInt z) = true.
Proof.
  intros Hn Hz. cbn [fits].
  apply andb_true_iff; split; [apply andb_true_iff; split|];
    [apply Z.ltb_lt; lia|apply Z.leb_le; lia|apply Z.ltb_lt; lia].
Qed.

Lemma fits_unsigned (n : nat) (z : Z) :
  0 <= z < 2 ^ (8 * Z.of_nat n) -> fits (Fint false n) (VInt z) = true.
Proof.
  intros Hz. cbn [fits].
  apply andb_true_iff; split; [apply Z.leb_le; lia|apply Z.ltb_lt; lia].
Qed.

Lemma wrappable_spec (s : pystr) :
  wrappable s = true ->
  exists bs : bytes,
    forallb is_scalar s = true /\ utf8_encode s = ret bs /\ len bs <= 32767.
Proof.
  unfold wrappable. intros H. apply andb_true_iff in H as [Hs H].
  destruct (utf8_encode s) as [e|bs]; [discriminate H|].
  exists bs. apply Z.leb_le in H. auto.
Qed.

(** The bytes [__wrap_bstr] gives for a string it can write, and what
    they decode to wherever they stand. *)
Lemma wrap_bstr_bytes_ok (s : pystr) :
  wrappable s = true ->
  exists b : bytes,
    wrap_bstr_bytes s = ret b
    /\ __wrap_bstr (ArgStr s) = ret (Some (b, len b))
    /\ 2 <= len b
    /\ forall (stream : bytes) (o : Z),
         holds_at stream o b ->
         __parse_bstr stream (OffInt o) = ret (Some (s, o + len b)).
Proof.
  intros W. destruct (wrappable_spec s W) as (bs & Hs & He & Hl).
  pose proof (len_nonneg bs) as H0.
  assert (Hw : __wrap_bstr (ArgStr s)
               = ret (Some (le16 (len bs) ++ bs, len (le16 (len bs) ++ bs)))).
  { unfold __wrap_bstr, wrap_bstr_body. rewrite He. cbn [bind ret].
    rewrite pack_short by lia. cbn [bind ret]. rewrite pack_string_exact.
    reflexivity. }
  exists (le16 (len bs) ++ bs). split; [|split; [exact Hw|split]].
  - unfold wrap_bstr_bytes. rewrite Hw. reflexivity.
  - rewrite len_app, len_le16. lia.
  - intros stream o H. rewrite (parse_bstr_at stream o s bs Hs He Hl H).
    rewrite len_app, len_le16. do 3 f_equal. lia.
Qed.

Lemma wrap_bstrs_ok (l : list pystr) :
  forallb wrappable l = true ->
  exists b : bytes,
    wrap_bstrs l = ret b
    /\ forall (stream : bytes) (o : Z),
         holds_at stream o b ->
         bstr_fields (List.length l) stream o = ret (l, o + len b).
Proof.
  induction l as [|s l IH]; intros H.
  - exists []. split; [reflexivity|]. intros stream o _.
    cbn [List.length bstr_fields]. do 2 f_equal. change (len (@nil byte)) with 0. lia.
  - cbn [forallb] in H. apply andb_true_iff in H as [Hs Hl].
    destruct (wrap_bstr_bytes_ok s Hs) as (b1 & W1 & _ & _ & P1).
    destruct (IH Hl) as (b2 & W2 & P2).
    exists (b1 ++ b2). split.
    + cbn [wrap_bstrs]. rewrite W1, W2. reflexivity.
    + intros stream o H. cbn [List.length bstr_fields].
      rewrite (P1 stream o (holds_at_app_l _ _ _ _ H)). cbn [bind ret or_TypeError].
      rewrite (P2 stream (o + len b1) (holds_at_app_r _ _ _ _ H)). cbn [bind ret].
      rewrite len_app. do 2 f_equal. lia.
Qed.

(** X24.  A reference file header written by [__wrap_referenceFileHeader]
    is read back by [__parse_referenceFileHeader] with the same flag,
    times and description, wherever the bytes stand in the stream; the
    record keeps exactly the bytes written and the offset advances by
    their number.  The times are 64-bit and the description is a string
    that [__wrap_bstr] can write. *)
Theorem referenceFileHeader_roundtrip :
  forall (self : ASDFile) (h : asdreferenceFileHeaderInfo.t) (s : pystr),
  referenceFileHeader self = Some h ->
  asdreferenceFileHeaderInfo.referenceDescription h = Some s ->
  wrappable s = true ->
  - 2 ^ 63 <= asdreferenceFileHeaderInfo.referenceTime h < 2 ^ 63 ->
  - 2 ^ 63 <= asdreferenceFileHeaderInfo.spectrumTime h < 2 ^ 63 ->
  exists b : bytes,
    __wrap_referenceFileHeader self = Wrapped b (len b)
    /\ forall (stream : bytes) (other : ASDFile) (o : Z),
         holds_at stream o b ->
         __parse_referenceFileHeader stream other (OffInt o)
         = ret (set_referenceFileHeader other
                  (Some (asdreferenceFileHeaderInfo._make
                           (asdreferenceFileHeaderInfo.referenceFlag h)
                           (asdreferenceFileHeaderInfo.referenceTime h)
                           (asdreferenceFileHeaderInfo.spectrumTime h)
                           (Some s) b (len b))),
                OffInt (o + len b)).
Proof.
  intros self h s Hh Hd Hs Ht1 Ht2.
  destruct (pack_unpack [Fq; Fq]
              [VInt (asdreferenceFileHeaderInfo.referenceTime h);
               VInt (asdreferenceFileHeaderInfo.spectrumTime h)])
    as (tb & Pt & Lt & Ut).
  { cbn [all_fit]. unfold Fq. rewrite !fits_signed by (try exact Ht1; try exact Ht2; lia).
    reflexivity. }
  change (calcsize [Fq; Fq]) with 16 in Lt.
  destruct (wrap_bstr_bytes_ok s Hs) as (db & _ & Wd & Ld & Pd).
  set (fb := fst (__wrap_Bool (asdreferenceFileHeaderInfo.referenceFlag h))).
  assert (Lf : len fb = 2) by (unfold fb; destruct (asdreferenceFileHeaderInfo.referenceFlag h); reflexivity).
  exists (fb ++ tb ++ db). split.
  - unfold __wrap_referenceFileHeader. rewrite Hh. cbn [attr bind ret].
    unfold __wrap_Bool. rewrite Pt. cbn [bind ret]. rewrite Hd. cbn [arg_of].
    rewrite Wd. cbn [bind ret or_TypeError]. f_equal.
    rewrite !len_app, Lf, Lt. change (calcsize [Fq; Fq]) with 16. lia.
  - intros stream other o H.
    pose proof (holds_at_app_l _ _ _ _ H) as H1.
    pose proof (holds_at_app_r _ _ _ _ H) as H23. rewrite Lf in H23.
    pose proof (holds_at_app_l _ _ _ _ H23) as H2.
    pose proof (holds_at_app_r _ _ _ _ H23) as H3. rewrite Lt in H3.
    unfold __parse_referenceFileHeader, __check_offset.
    rewrite (holds_at_lt _ _ _ H1) by lia.
    unfold parse_referenceFileHeader_body.
    rewrite (parse_Bool_at stream o _ H1). cbn [bind ret or_TypeError].
    rewrite (holds_at_unpack_from [Fq; Fq] stream (o + 2) tb H2 Lt), Ut.
    cbn [bind ret]. change (calcsize [Fq; Fq]) with 16.
    rewrite (Pd stream (o + 2 + 16) H3). cbn [bind ret option_map fst snd slice_opt off_of].
    replace (o + 2 + 16 + len db) with (o + len (fb ++ tb ++ db))
      by (rewrite !len_app; lia).
    rewrite (holds_at_slice _ _ _ H). reflexivity.
Qed.

Lemma referenceFileHeader_roundtrip_witness :
  exists b : bytes,
    __wrap_referenceFileHeader
      (set_referenceFileHeader __init__ (Some sample_reference_header))
    = Wrapped b (len b)
    /\ forall (stream : bytes) (other : ASDFile) (o : Z),
         holds_at stream o b ->
         __parse_referenceFileHeader stream other (OffInt o)
         = ret (set_referenceFileHeader other
                  (Some (asdreferenceFileHeaderInfo._make true 1 2
                           (Some (str_of "ref")) b (len b))),
                OffInt (o + len b)).
Proof.
  apply (referenceFileHeader_roundtrip
           (set_referenceFileHeader __init__ (Some sample_reference_header))
           sample_reference_header (str_of "ref")).
  - reflexivity.
  - reflexivity.
  - reflexivity.
  - vm_compute. split; [discriminate|reflexivity].
  - vm_compute. split; [discriminate|reflexivity].
Defined.

(** X25.  A signature written by [__wrap_signature] is read back by
    [__parse_signature] field for field, wherever the bytes stand; the
    record keeps exactly the bytes written.  The flag is a signed byte,
    the time 64-bit, the seven strings such that [__wrap_bstr] can write
    them and the signature block has its 128 bytes. *)
Theorem signature_roundtrip :
  forall (self : ASDFile) (g : signatureInfo.t),
  signature self = Some g ->
  -128 <= signatureInfo.signed g <= 127 ->
  - 2 ^ 63 <= signatureInfo.signatureTime g < 2 ^ 63 ->
  forallb wrappable
    [signatureInfo.userDomain g; signatureInfo.userLogin g; signatureInfo.userName g;
     signatureInfo.source g; signatureInfo.reason g; signatureInfo.notes g;
     signatureInfo.publicKey g] = true ->
  len (signatureInfo.signature g) = 128 ->
  exists b : bytes,
    __wrap_signature self = Wrapped b (len b)
    /\ forall (stream : bytes) (other : ASDFile) (o : Z),
         holds_at stream o b ->
         __parse_signature stream other (OffInt o)
         = ret (set_signature other
                  (Some (signatureInfo._make (signatureInfo.signed g)
                           (signatureInfo.signatureTime g) (signatureInfo.userDomain g)
                           (signatureInfo.userLogin g) (signatureInfo.userName g)
                           (signatureInfo.source g) (signatureInfo.reason g)
                           (signatureInfo.notes g) (signatureInfo.publicKey g)
                           (signatureInfo.signature g) b (len b))),
                OffInt (o + len b)).
Proof.
  intros self g Hg Hsg Ht Hs Hl.
  destruct (pack_unpack [Fb] [VInt (signatureInfo.signed g)]) as (b1 & P1 & L1 & U1).
  { cbn [all_fit]. unfold Fb. rewrite fits_signed; [reflexivity|lia|].
    change (2 ^ (8 * Z.of_nat 1 - 1)) with 128. lia. }
  destruct (pack_unpack [Fq] [VInt (signatureInfo.signatureTime g)])
    as (b2 & P2 & L2 & U2).
  { cbn [all_fit]. unfold Fq. rewrite fits_signed; [reflexivity|lia|exact Ht]. }
  destruct (wrap_bstrs_ok _ Hs) as (b3 & P3 & R3). cbn [List.length] in R3.
  destruct (pack_unpack [Fs 128] [VBytes (signatureInfo.signature g)])
    as (b4 & P4 & L4 & U4).
  { cbn [all_fit fits]. unfold len in Hl.
    replace (List.length (signatureInfo.signature g)) with 128%nat by lia.
    reflexivity. }
  change (calcsize [Fb]) with 1 in L1. change (calcsize [Fq]) with 8 in L2.
  change (calcsize [Fs 128]) with 128 in L4.
  exists (b1 ++ b2 ++ b3 ++ b4). split.
  - unfold __wrap_signature. rewrite Hg. cbn [attr bind ret].
    rewrite P1. cbn [bind ret]. rewrite P2. cbn [bind ret]. rewrite P3.
    cbn [bind ret]. rewrite P4. reflexivity.
  - intros stream other o H.
    pose proof (holds_at_app_l _ _ _ _ H) as H1.
    pose proof (holds_at_app_r _ _ _ _ H) as T1. rewrite L1 in T1.
    pose proof (holds_at_app_l _ _ _ _ T1) as H2.
    pose proof (holds_at_app_r _ _ _ _ T1) as T2. rewrite L2 in T2.
    pose proof (holds_at_app_l _ _ _ _ T2) as H3.
    pose proof (holds_at_app_r _ _ _ _ T2) as H4.
    unfold __parse_signature, __check_offset.
    rewrite (holds_at_lt _ _ _ H1) by lia.
    unfold parse_signature_body.
    rewrite (holds_at_unpack_from [Fb] stream o b1 H1 L1), U1. cbn [bind ret].
    change (calcsize [Fb]) with 1.
    rewrite (holds_at_unpack_from [Fq] stream (o + 1) b2 H2 L2), U2. cbn [bind ret].
    change (calcsize [Fq]) with 8.
    rewrite (R3 stream (o + 1 + 8) H3). cbn [bind ret].
    rewrite (holds_at_unpack_from [Fs 128] stream (o + 1 + 8 + len b3) b4 H4 L4), U4.
    cbn [bind ret]. change (calcsize [Fs 128]) with 128.
    replace (o + 1 + 8 + len b3 + 128) with (o + len (b1 ++ b2 ++ b3 ++ b4))
      by (rewrite !len_app; lia).
    rewrite (holds_at_slice _ _ _ H). reflexivity.
Qed.

Lemma signature_roundtrip_witness :
  exists b : bytes,
    __wrap_signature (set_signature __init__ (Some sample_signature)) = Wrapped b (len b)
    /\ forall (stream : bytes) (other : ASDFile) (o : Z),
         holds_at stream o b ->
         __parse_signature stream other (OffInt o)
         = ret (set_signature other
                  (Some (signatureInfo._make 1 5 (str_of "lab") (str_of "kc")
                           (str_of "Kai") (str_of "asd") (str_of "check") []
                           (str_of "key") (zeros 128) b (len b))),
                OffInt (o + len b)).
Proof.
  apply (signature_roundtrip (set_signature __init__ (Some sample_signature))
           sample_signature).
  - reflexivity.
  - vm_compute. split; discriminate.
  - vm_compute. split; [discriminate|reflexivity].
  - vm_compute. reflexivity.
  - reflexivity.
Defined.

Lemma lstrip0_zeros (k : nat) (y : bytes) : lstrip0 (zeros k ++ y) = lstrip0 y.
Proof. induction k as [|k IH]; [reflexivity|exact IH]. Qed.

Lemma lstrip0_app_zeros (a : bytes) (k : nat) :
  lstrip0 (a ++ zeros k)
  = match lstrip0 a with
    | [] => []
    | _ => lstrip0 a ++ zeros k
    end.
Proof.
  induction a as [|x r IH].
  - cbn [app lstrip0]. rewrite <- (app_nil_r (zeros k)), lstrip0_zeros. reflexivity.
  - destruct x; first [exact IH|reflexivity].
Qed.

Lemma rev_zeros (k : nat) : rev (zeros k) = zeros k.
Proof.
  unfold zeros. induction k as [|k IH]; [reflexivity|].
  cbn [repeat rev]. rewrite IH. symmetry. apply repeat_cons.
Qed.

(** Padding with zero bytes does not show after [strip]. *)
Lemma strip0_ljust0 (n : nat) (a : bytes) : strip0 (ljust0 n a) = strip0 a.
Proof.
  unfold ljust0, strip0. rewrite lstrip0_app_zeros.
  destruct (lstrip0 a) as [|x r] eqn:E; [reflexivity|].
  rewrite rev_app_distr, rev_zeros, lstrip0_zeros. reflexivity.
Qed.

Lemma length_ljust0 (n : nat) (a : bytes) :
  (List.length a <= n)%nat -> List.length (ljust0 n a) = n.
Proof.
  intros H. unfold ljust0, zeros. rewrite length_app, repeat_length. lia.
Qed.

Lemma wrap_calibrationSeries_ok (l : list calibrationSerie) :
  forallb descriptor_fits l = true ->
  exists b : bytes,
    wrap_calibrationSeries l = ret b
    /\ len b = 29 * len l
    /\ forall (stream : bytes) (o : Z),
         holds_at stream o b ->
         parse_calibrationSeries (List.length l) stream o
         = ret (map stripped_descriptor l, o + len b).
Proof.
  induction l as [|d l IH]; intros H.
  - exists []. split; [reflexivity|]. split; [reflexivity|]. intros stream o _.
    cbn [List.length parse_calibrationSeries map]. do 2 f_equal.
    change (len (@nil byte)) with 0. lia.
  - cbn [forallb] in H. apply andb_true_iff in H as [Hd Hl].
    destruct d as [[[[ty name] it] g1] g2]. unfold descriptor_fits in Hd.
    apply andb_true_iff in Hd as [Hd F5]. apply andb_true_iff in Hd as [Hd F4].
    apply andb_true_iff in Hd as [Hd F3]. apply andb_true_iff in Hd as [F1 F2].
    apply Z.leb_le in F2.
    destruct (pack_unpack calibrationSeries_buffer_format
                [VInt ty; VBytes (ljust0 20 name); VInt it; VInt g1; VInt g2])
      as (b1 & P1 & L1 & U1).
    { unfold calibrationSeries_buffer_format. cbn [all_fit].
      rewrite F1, F3, F4, F5. cbn [fits andb].
      rewrite length_ljust0 by (unfold len in F2; lia). reflexivity. }
    change (calcsize calibrationSeries_buffer_format) with 29 in L1.
    destruct (IH Hl) as (b2 & P2 & L2 & R2).
    exists (b1 ++ b2). split; [|split].
    + cbn [wrap_calibrationSeries]. rewrite P1, P2. reflexivity.
    + rewrite len_app, len_cons, L1, L2. lia.
    + intros stream o H. cbn [List.length parse_calibrationSeries].
      rewrite (holds_at_unpack_from calibrationSeries_buffer_format stream o b1
                 (holds_at_app_l _ _ _ _ H) L1), U1.
      cbn [bind ret]. change (calcsize calibrationSeries_buffer_format) with 29.
      pose proof (holds_at_app_r _ _ _ _ H) as H2. rewrite L1 in H2.
      rewrite (R2 stream (o + 29) H2). cbn [bind ret map stripped_descriptor].
      change (getb _ 1) with (ljust0 20 name). rewrite strip0_ljust0.
      rewrite len_app, L1.
      replace (o + (29 + len b2)) with (o + 29 + len b2) by lia. reflexivity.
Qed.

(** X26.  A calibration header written by [__wrap_calibrationHeader] is
    read back by [__parse_calibrationHeader] with the same count and the
    same descriptors, each name without zero bytes at its ends; the header
    takes [1 + 29 * count] bytes.  The count is the number of descriptors
    and fits a signed byte, a name has at most 20 bytes and the numbers
    fit their fields. *)
Theorem calibrationHeader_roundtrip :
  forall (self : ASDFile) (h : calibrationHeaderInfo.t),
  calibrationHeader self = Some h ->
  calibrationHeaderInfo.calibrationNum h = len (calibrationHeaderInfo.calibrationSeries h) ->
  calibrationHeaderInfo.calibrationNum h <= 127 ->
  forallb descriptor_fits (calibrationHeaderInfo.calibrationSeries h) = true ->
  exists b : bytes,
    __wrap_calibrationHeader self = Wrapped b (len b)
    /\ len b = 1 + 29 * calibrationHeaderInfo.calibrationNum h
    /\ forall (stream : bytes) (other : ASDFile) (o : Z),
         holds_at stream o b ->
         __parse_calibrationHeader stream other (OffInt o)
         = ret (set_calibrationHeader other
                  (Some (calibrationHeaderInfo._make
                           (calibrationHeaderInfo.calibrationNum h)
                           (map stripped_descriptor
                              (calibrationHeaderInfo.calibrationSeries h))
                           b (len b))),
                OffInt (o + len b)).
Proof.
  intros self h Hh Hn Hmax Hf.
  pose proof (len_nonneg (calibrationHeaderInfo.calibrationSeries h)) as H0.
  destruct (pack_unpack [Fb] [VInt (calibrationHeaderInfo.calibrationNum h)])
    as (b1 & P1 & L1 & U1).
  { cbn [all_fit]. unfold Fb. rewrite fits_signed; [reflexivity|lia|].
    change (2 ^ (8 * Z.of_nat 1 - 1)) with 128. lia. }
  change (calcsize [Fb]) with 1 in L1.
  destruct (wrap_calibrationSeries_ok _ Hf) as (b2 & P2 & L2 & R2).
  assert (E : (if 0 <? calibrationHeaderInfo.calibrationNum h
               then wrap_calibrationSeries (calibrationHeaderInfo.calibrationSeries h)
               else ret []) = ret b2).
  { destruct (Z.ltb_spec 0 (calibrationHeaderInfo.calibrationNum h)); [exact P2|].
    destruct (calibrationHeaderInfo.calibrationSeries h) as [|d l].
    - apply ret_inj in P2. now subst b2.
    - rewrite len_cons in Hn. pose proof (len_nonneg l). lia. }
  exists (b1 ++ b2). split; [|split].
  - unfold __wrap_calibrationHeader. rewrite Hh. cbn [attr bind ret].
    rewrite P1. cbn [bind ret]. rewrite E. reflexivity.
  - rewrite len_app, L1, L2. lia.
  - intros stream other o H.
    pose proof (holds_at_app_l _ _ _ _ H) as H1.
    pose proof (holds_at_app_r _ _ _ _ H) as H2. rewrite L1 in H2.
    unfold __parse_calibrationHeader, __check_offset.
    rewrite (holds_at_lt _ _ _ H1) by lia.
    unfold parse_calibrationHeader_body.
    rewrite (holds_at_unpack_from [Fb] stream o b1 H1 L1), U1. cbn [bind ret].
    change (geti [VInt ?z] 0) with z.
    change (calcsize [Fb]) with 1.
    change (calcsize calibrationSeries_buffer_format) with 29.
    replace (o + 1 + 29 * calibrationHeaderInfo.calibrationNum h)
      with (o + len (b1 ++ b2)) by (rewrite len_app; lia).
    rewrite (holds_at_slice _ _ _ H).
    destruct (Z.ltb_spec 0 (calibrationHeaderInfo.calibrationNum h)) as [Pos|Zero].
    + replace (Z.to_nat (calibrationHeaderInfo.calibrationNum h))
        with (List.length (calibrationHeaderInfo.calibrationSeries h))
        by (unfold len in Hn; lia).
      rewrite (R2 stream (o + 1) H2). cbn [bind ret].
      rewrite len_app, L1.
      replace (o + (1 + len b2)) with (o + 1 + len b2) by lia. reflexivity.
    + destruct (calibrationHeaderInfo.calibrationSeries h) as [|d l].
      * cbn [map]. apply ret_inj in P2. subst b2.
        rewrite len_app, L1. change (len (@nil byte)) with 0.
        replace (o + (1 + 0)) with (o + 1) by lia. reflexivity.
      * rewrite len_cons in Hn. pose proof (len_nonneg l). lia.
Qed.

Lemma calibrationHeader_roundtrip_witness :
  exists b : bytes,
    __wrap_calibrationHeader (set_calibrationHeader __init__ (Some sample_two_descriptors))
    = Wrapped b (len b)
    /\ len b = 1 + 29 * 2
    /\ forall (stream : bytes) (other : ASDFile) (o : Z),
         holds_at stream o b ->
         __parse_calibrationHeader stream other (OffInt o)
         = ret (set_calibrationHeader other
                  (Some (calibrationHeaderInfo._make 2
                           (map stripped_descriptor
                              [(2, [x6c; x61; x6d; x70], 17, 1, 2);
                               (0, [x61; x62; x73], 34, 3, 4)])
                           b (len b))),
                OffInt (o + len b)).
Proof.
  apply (calibrationHeader_roundtrip
           (set_calibrationHeader __init__ (Some sample_two_descriptors))
           sample_two_descriptors).
  - reflexivity.
  - reflexivity.
  - vm_compute. discriminate.
  - vm_compute. reflexivity.
Defined.

Lemma dimension_header_ok (count : Z) :
  0 <= count < 2 ^ 32 ->
  exists b : bytes, dimension_header count = ret b /\ len b = 10.
Proof.
  intros H. unfold dimension_header.
  destruct (pack_unpack [FH] [VInt 1]) as (a & Pa & La & _); [reflexivity|].
  destruct (pack_unpack [FI] [VInt count]) as (b & Pb & Lb & _).
  { cbn [all_fit]. unfold FI. rewrite fits_unsigned; [reflexivity|exact H]. }
  destruct (pack_unpack [FI] [VInt 0]) as (c & Pc & Lc & _); [reflexivity|].
  rewrite Pa, Pb, Pc. cbn [bind ret]. eexists. split; [reflexivity|].
  rewrite !len_app, La, Lb, Lc. reflexivity.
Qed.

Lemma wrap_constituantType_ok (item : option merterialReportInfo.t) :
  constituant_fits item = true ->
  exists (b : bytes),
    wrap_constituantType_body item = ret b
    /\ 0 < len b
    /\ forall (stream : bytes) (o : Z),
         holds_at stream o b ->
         exists r : merterialReportInfo.t * Z,
           __parse_constituantType stream (OffInt o) = ret (Some r)
           /\ Some (fst r) = item /\ snd r = o + len b.
Proof.
  destruct item as [it|]; [|discriminate]. cbn [constituant_fits]. intros F.
  repeat match type of F with
         | _ && _ = true => let F' := fresh "F" in apply andb_true_iff in F as [F F']
         end.
  destruct (wrap_bstrs_ok [merterialReportInfo.constituentName it;
                           merterialReportInfo.passFail it]) as (b1 & P1 & R1).
  { cbn [forallb].
    repeat match goal with
           | H : wrappable _ = true |- _ => rewrite H; clear H
           end.
    reflexivity. }
  cbn [List.length] in R1.
  match goal with
  | |- context [wrap_constituantType_body] =>
      destruct (pack_unpack constituantFormat
                  [VFloat (merterialReportInfo.mDistance it);
                   VFloat (merterialReportInfo.mDistanceLimit it);
                   VFloat (merterialReportInfo.concentration it);
                   VFloat (merterialReportInfo.concentrationLimit it);
                   VFloat (merterialReportInfo.fRatio it);
                   VFloat (merterialReportInfo.residual it);
                   VFloat (merterialReportInfo.residualLimit it);
                   VFloat (merterialReportInfo.scores it);
                   VFloat (merterialReportInfo.scoresLimit it);
                   VInt (merterialReportInfo.modelType it);
                   VFloat (merterialReportInfo.reserved1 it);
                   VFloat (merterialReportInfo.reserved2 it)])
        as (b2 & P2 & L2 & U2)
  end.
  { unfold constituantFormat, Fl. cbn [all_fit fits].
    repeat match goal with
           | H : is_binary64 _ = true |- _ => rewrite H; clear H
           end.
    match goal with
    | H : fits Fl _ = true |- _ => unfold Fl in H; cbn [fits] in H; rewrite H
    end. reflexivity. }
  change (calcsize constituantFormat) with 92 in L2.
  exists (b1 ++ b2). split; [|split].
  - unfold wrap_constituantType_body. cbn [attr bind ret]. rewrite P1.
    cbn [bind ret]. rewrite P2. reflexivity.
  - rewrite len_app, L2. pose proof (len_nonneg b1). lia.
  - intros stream o H.
    pose proof (len_nonneg b1) as N1.
    pose proof (holds_at_app_l _ _ _ _ H) as H1.
    pose proof (holds_at_app_r _ _ _ _ H) as H2.
    unfold __parse_constituantType, __check_offset.
    rewrite (holds_at_lt _ _ _ H) by (rewrite len_app, L2; lia).
    unfold parse_constituantType_body.
    rewrite (R1 stream o H1). cbn [bind ret].
    rewrite (holds_at_unpack_from constituantFormat stream (o + len b1) b2 H2 L2), U2.
    cbn [bind ret catch]. eexists. split; [reflexivity|]. cbn [fst snd]. split.
    + destruct it. reflexivity.
    + change (calcsize constituantFormat) with 92. rewrite len_app, L2. lia.
Qed.

Lemma wrap_constituants_ok (items : list (option merterialReportInfo.t)) :
  forallb constituant_fits items = true ->
  exists b : bytes,
    wrap_constituants (List.length items) items = ret b
    /\ forall (stream : bytes) (o : Z),
         holds_at stream o b ->
         parse_constituants (List.length items) stream (Some o)
         = ret (items, Some (o + len b)).
Proof.
  induction items as [|item items IH]; intros H.
  - exists []. split; [reflexivity|]. intros stream o _.
    cbn [List.length parse_constituants]. do 3 f_equal.
    change (len (@nil byte)) with 0. lia.
  - cbn [forallb] in H. apply andb_true_iff in H as [Hi Hl].
    destruct (wrap_constituantType_ok item Hi) as (b1 & P1 & L1 & R1).
    destruct (IH Hl) as (b2 & P2 & R2).
    exists (b1 ++ b2). split.
    + cbn [List.length wrap_constituants]. rewrite P1. cbn [catch or_TypeError bind ret].
      rewrite P2. reflexivity.
    + intros stream o H. cbn [List.length parse_constituants off_of].
      destruct (R1 stream o (holds_at_app_l _ _ _ _ H)) as ([it o1] & E1 & Ei & Eo).
      cbn [fst snd] in Ei, Eo. subst o1.
      rewrite E1. cbn [bind ret option_map fst snd].
      rewrite (R2 stream (o + len b1) (holds_at_app_r _ _ _ _ H)). cbn [bind ret].
      rewrite Ei, len_app.
      replace (o + (len b1 + len b2)) with (o + len b1 + len b2) by lia. reflexivity.
Qed.

(** X27.  Classifier data written by [__wrap_classifierData] is read back
    by [__parse_classifierData] field for field, constituents included,
    wherever the bytes stand; the ten bytes the parser skips before the
    constituents are the dimension header the writer puts there, and the
    two it skips for a count of zero are the two zero bytes written.  The
    codes are signed bytes, the twenty strings and the constituent names
    such that [__wrap_bstr] can write them, the count is the number of
    constituents and fits 16 bits, and the constituents' numbers are
    binary64 values and a 32-bit model type. *)
Theorem classifierData_roundtrip :
  forall (self : ASDFile) (c : asdClassifierDataInfo.t),
  classifierData self = Some c ->
  -128 <= asdClassifierDataInfo.yCode c <= 127 ->
  -128 <= asdClassifierDataInfo.yModelType c <= 127 ->
  forallb wrappable
    [asdClassifierDataInfo.title c; asdClassifierDataInfo.subtitle c;
     asdClassifierDataInfo.productName c; asdClassifierDataInfo.vendor c;
     asdClassifierDataInfo.lotNumber c; asdClassifierDataInfo.sample c;
     asdClassifierDataInfo.modelName c; asdClassifierDataInfo.operator c;
     asdClassifierDataInfo.dateTime c; asdClassifierDataInfo.instrument c;
     asdClassifierDataInfo.serialNumber c; asdClassifierDataInfo.displayMode c;
     asdClassifierDataInfo.comments c; asdClassifierDataInfo.units c;
     asdClassifierDataInfo.filename c; asdClassifierDataInfo.username c;
     asdClassifierDataInfo.reserved1 c; asdClassifierDataInfo.reserved2 c;
     asdClassifierDataInfo.reserved3 c; asdClassifierDataInfo.reserved4 c] = true ->
  asdClassifierDataInfo.constituantCount c
  = len (asdClassifierDataInfo.constituantItems c) ->
  asdClassifierDataInfo.constituantCount c <= 65535 ->
  forallb constituant_fits (asdClassifierDataInfo.constituantItems c) = true ->
  exists b : bytes,
    __wrap_classifierData self = Wrapped b (len b)
    /\ forall (stream : bytes) (other : ASDFile) (o : Z),
         holds_at stream o b ->
         __parse_classifierData stream other (OffInt o)
         = ret (set_classifierData other
                  (Some (asdClassifierDataInfo._make
                           (asdClassifierDataInfo.yCode c)
                           (asdClassifierDataInfo.yModelType c)
                           (asdClassifierDataInfo.title c)
                           (asdClassifierDataInfo.subtitle c)
                           (asdClassifierDataInfo.productName c)
                           (asdClassifierDataInfo.vendor c)
                           (asdClassifierDataInfo.lotNumber c)
                           (asdClassifierDataInfo.sample c)
                           (asdClassifierDataInfo.modelName c)
                           (asdClassifierDataInfo.operator c)
                           (asdClassifierDataInfo.dateTime c)
                           (asdClassifierDataInfo.instrument c)
                           (asdClassifierDataInfo.serialNumber c)
                           (asdClassifierDataInfo.displayMode c)
                           (asdClassifierDataInfo.comments c)
                           (asdClassifierDataInfo.units c)
                           (asdClassifierDataInfo.filename c)
                           (asdClassifierDataInfo.username c)
                           (asdClassifierDataInfo.reserved1 c)
                           (asdClassifierDataInfo.reserved2 c)
                           (asdClassifierDataInfo.reserved3 c)
                           (asdClassifierDataInfo.reserved4 c)
                           (asdClassifierDataInfo.constituantCount c)
                           (asdClassifierDataInfo.constituantItems c)
                           b (len b))),
                OffInt (o + len b)).
Proof.
  intros self c Hc Hy Hm Hs Hn Hmax Hi.
  pose proof (len_nonneg (asdClassifierDataInfo.constituantItems c)) as N0.
  destruct (pack_unpack [Fb; Fb] [VInt (asdClassifierDataInfo.yCode c);
                                  VInt (asdClassifierDataInfo.yModelType c)])
    as (b1 & P1 & L1 & U1).
  { cbn [all_fit]. unfold Fb.
    rewrite !fits_signed
      by (try lia; change (2 ^ (8 * Z.of_nat 1 - 1)) with 128; lia).
    reflexivity. }
  change (calcsize [Fb; Fb]) with 2 in L1.
  destruct (wrap_bstrs_ok _ Hs) as (b2 & P2 & R2). cbn [List.length] in R2.
  destruct (pack_unpack [FH] [VInt (asdClassifierDataInfo.constituantCount c)])
    as (b3 & P3 & L3 & U3).
  { cbn [all_fit]. unfold FH. rewrite fits_unsigned; [reflexivity|].
    change (2 ^ (8 * Z.of_nat 2)) with 65536. lia. }
  change (calcsize [FH]) with 2 in L3.
  destruct (wrap_constituants_ok _ Hi) as (b5 & P5 & R5).
  destruct (dimension_header_ok (asdClassifierDataInfo.constituantCount c))
    as (b4 & P4 & L4); [change (2 ^ 32) with 4294967296; lia|].
  set (count := asdClassifierDataInfo.constituantCount c) in *.
  set (tail := if 0 <? count then b4 ++ b5 else [x00; x00]).
  assert (E : (if 0 <? count
               then d <- dimension_header count ;;
                    items <- wrap_constituants (Z.to_nat count)
                               (asdClassifierDataInfo.constituantItems c) ;;
                    ret (d ++ items)
               else if count =? 0 then ret [x00; x00] else ret [])
              = ret tail).
  { unfold tail. destruct (Z.ltb_spec 0 count) as [Pos|Zero].
    - rewrite P4. cbn [bind ret].
      replace (Z.to_nat count)
        with (List.length (asdClassifierDataInfo.constituantItems c))
        by (unfold len in Hn; lia).
      rewrite P5. reflexivity.
    - replace (count =? 0) with true by (symmetry; apply Z.eqb_eq; lia).
      reflexivity. }
  exists (b1 ++ b2 ++ b3 ++ tail). split.
  - unfold __wrap_classifierData. rewrite Hc. cbn [attr bind ret].
    rewrite P1. cbn [bind ret]. rewrite P2. cbn [bind ret]. fold count.
    rewrite P3. cbn [bind ret]. rewrite E. reflexivity.
  - intros stream other o H.
    pose proof (holds_at_app_l _ _ _ _ H) as H1.
    pose proof (holds_at_app_r _ _ _ _ H) as T1. rewrite L1 in T1.
    pose proof (holds_at_app_l _ _ _ _ T1) as H2.
    pose proof (holds_at_app_r _ _ _ _ T1) as T2.
    pose proof (holds_at_app_l _ _ _ _ T2) as H3.
    pose proof (holds_at_app_r _ _ _ _ T2) as H4. rewrite L3 in H4.
    unfold __parse_classifierData, __check_offset.
    rewrite (holds_at_lt _ _ _ H1) by lia.
    unfold parse_classifierData_body.
    rewrite (holds_at_unpack_from [Fb; Fb] stream o b1 H1 L1), U1. cbn [bind ret].
    change (calcsize [Fb; Fb]) with 2.
    rewrite (R2 stream (o + 2) H2). cbn [bind ret].
    rewrite (holds_at_unpack_from [FH] stream (o + 2 + len b2) b3 H3 L3), U3.
    cbn [bind ret]. change (geti [VInt count] 0) with count.
    change (calcsize [FH]) with 2.
    assert (T : (if 0 <? count
                 then parse_constituants (Z.to_nat count) stream
                        (Some (o + 2 + len b2 + 2 + 10))
                 else ret ([], Some (o + 2 + len b2 + 2 + 2)))
                = ret (asdClassifierDataInfo.constituantItems c,
                       Some (o + len (b1 ++ b2 ++ b3 ++ tail)))).
    { unfold tail in *. destruct (Z.ltb_spec 0 count) as [Pos|Zero].
      - replace (Z.to_nat count)
          with (List.length (asdClassifierDataInfo.constituantItems c))
          by (unfold len in Hn; lia).
        pose proof (holds_at_app_r _ _ _ _ H4) as H5. rewrite L4 in H5.
        rewrite (R5 stream _ H5). do 3 f_equal. rewrite !len_app, L1, L3, L4. lia.
      - destruct (asdClassifierDataInfo.constituantItems c) as [|x l].
        + do 3 f_equal. rewrite !len_app, L1, L3. change (len [x00; x00]) with 2. lia.
        + rewrite len_cons in Hn. pose proof (len_nonneg l). lia. }
    rewrite T. cbn [bind ret slice_opt off_of].
    rewrite (holds_at_slice _ _ _ H). reflexivity.
Qed.

Lemma classifierData_roundtrip_witness :
  exists b : bytes,
    __wrap_classifierData (set_classifierData __init__ (Some sample_classifierData))
    = Wrapped b (len b)
    /\ forall (stream : bytes) (other : ASDFile) (o : Z),
         holds_at stream o b ->
         __parse_classifierData stream other (OffInt o)
         = ret (set_classifierData other
                  (Some (asdClassifierDataInfo._make 1 2 (str_of "title") [] [] [] []
                           [] [] [] [] [] [] [] [] [] [] [] [] [] [] [] 2
                           [Some sample_constituant; Some sample_constituant]
                           b (len b))),
                OffInt (o + len b)).
Proof.
  apply (classifierData_roundtrip
           (set_classifierData __init__ (Some sample_classifierData))
           sample_classifierData).
  - reflexivity.
  - vm_compute. split; discriminate.
  - vm_compute. split; discriminate.
  - vm_compute. reflexivity.
  - reflexivity.
  - vm_compute. discriminate.
  - vm_compute. reflexivity.
Defined.

(** ** Dependent variables written and read back *)

Lemma wrap_dependent_labels_all (l : list pystr) :
  wrap_dependent_labels (List.length l) l = wrap_bstrs l.
Proof.
  induction l as [|s l IH]; [reflexivity|].
  cbn [List.length wrap_dependent_labels wrap_bstrs]. rewrite IH. reflexivity.
Qed.

Lemma wrap_dependent_values_ok (values : list float) :
  forallb is_binary32 values = true ->
  exists b : bytes,
    wrap_dependent_values (List.length values) values = ret b
    /\ forall (stream : bytes) (o : Z),
         holds_at stream o b ->
         parse_dependent_values (List.length values) stream o
         = ret (values, o + len b).
Proof.
  induction values as [|x l IH]; intros H.
  - exists []. split; [reflexivity|]. intros stream o _.
    cbn [List.length parse_dependent_values]. do 2 f_equal.
    change (len (@nil byte)) with 0. lia.
  - cbn [forallb] in H. apply andb_true_iff in H as [Hx Hl].
    destruct (pack_unpack [Ff] [VFloat x]) as (b1 & P1 & L1 & U1).
    { cbn [all_fit fits]. rewrite Hx. reflexivity. }
    destruct (IH Hl) as (b2 & P2 & R2).
    exists (b1 ++ b2). split.
    + cbn [List.length wrap_dependent_values]. rewrite P1. cbn [bind ret].
      rewrite P2. reflexivity.
    + intros stream o H. cbn [List.length parse_dependent_values].
      rewrite (holds_at_unpack_from [Ff] stream o b1 (holds_at_app_l _ _ _ _ H) L1), U1.
      cbn [bind ret]. rewrite <- L1.
      rewrite (R2 stream (o + len b1) (holds_at_app_r _ _ _ _ H)). cbn [bind ret].
      change (getf [VFloat x] 0) with x. rewrite len_app.
      do 2 f_equal. lia.
Qed.

(** X28.  Dependent variables written by [__wrap_dependentVariables] are
    read back by [__parse_dependentVariables] wherever the bytes stand:
    the flag, the count, the labels and the values return, the record
    keeps exactly the bytes written and the offset advances by their
    number.  The two runs of ten bytes the parser skips are the dimension
    headers the writer puts before the labels and before the values.  With
    a count of zero the writer puts four zero bytes and the parser reads
    the labels as [b''] and the values as [0], whatever they were.  The
    count is the number of labels and of values and fits 16 bits, the
    labels are strings [__wrap_bstr] can write and the values binary32. *)
Theorem dependentVariables_roundtrip :
  forall (self : ASDFile) (d : dependantInfo.t) (labels : list pystr)
         (values : list float),
  dependants self = Some d ->
  dependantInfo.dependentVariableCount d = len labels ->
  len values = len labels ->
  len labels <= 32767 ->
  (0 < len labels ->
   dependantInfo.dependentVariableLabels d = LabelList labels
   /\ dependantInfo.dependentVariableValue d = ValueList values) ->
  forallb wrappable labels = true ->
  forallb is_binary32 values = true ->
  exists b : bytes,
    __wrap_dependentVariables self = Wrapped b (len b)
    /\ forall (stream : bytes) (other : ASDFile) (o : Z),
         holds_at stream o b ->
         __parse_dependentVariables stream other (OffInt o)
         = ret (set_dependants other
                  (Some (dependantInfo._make
                           (dependantInfo.saveDependentVariables d)
                           (len labels)
                           (if 0 <? len labels then LabelList labels else LabelBytes [])
                           (if 0 <? len labels then ValueList values else ValueInt 0)
                           b (len b))),
                OffInt (o + len b)).
Proof.
  intros self d labels values Hd Hc Hv Hmax Hlv Hl Hf.
  pose proof (len_nonneg labels) as N0.
  set (flag := dependantInfo.saveDependentVariables d).
  set (b1 := fst (__wrap_Bool flag)).
  assert (L1 : len b1 = 2) by (unfold b1; destruct flag; reflexivity).
  assert (E1 : __wrap_Bool flag = (b1, 2)) by (unfold b1; destruct flag; reflexivity).
  destruct (pack_unpack [Fh] [VInt (len labels)]) as (b2 & P2 & L2 & U2).
  { cbn [all_fit]. rewrite fits_short by lia. reflexivity. }
  change (calcsize [Fh]) with 2 in L2.
  destruct (dimension_header_ok (len labels)) as (h & Ph & Lh);
    [change (2 ^ 32) with 4294967296; lia|].
  destruct (wrap_bstrs_ok _ Hl) as (b3 & P3 & R3).
  destruct (wrap_dependent_values_ok _ Hf) as (b4 & P4 & R4).
  assert (Nl : Z.to_nat (len labels) = List.length labels) by (unfold len; lia).
  assert (Nv : Z.to_nat (len labels) = List.length values) by (unfold len in *; lia).
  set (body := if 0 <? len labels
               then (b1 ++ b2) ++ h ++ b3 ++ h ++ b4
               else (b1 ++ b2) ++ [x00; x00; x00; x00]).
  exists body. split.
  - unfold __wrap_dependentVariables. rewrite Hd. cbn [attr bind ret].
    fold flag. rewrite E1, Hc, P2. cbn [bind ret]. unfold body.
    destruct (Z.ltb_spec 0 (len labels)) as [Pos|Zero].
    + destruct (Hlv Pos) as [El Ev]. rewrite Ph, El, Ev. cbn [bind ret].
      rewrite Nl, wrap_dependent_labels_all, P3. cbn [bind ret].
      rewrite <- Nl, Nv, P4. reflexivity.
    + replace (len labels =? 0) with true by (symmetry; apply Z.eqb_eq; lia).
      reflexivity.
  - intros stream other o H.
    assert (H12 : holds_at stream o (b1 ++ b2)).
    { unfold body in H. destruct (0 <? len labels);
        exact (holds_at_app_l _ _ _ _ H). }
    pose proof (holds_at_app_l _ _ _ _ H12) as H1.
    pose proof (holds_at_app_r _ _ _ _ H12) as H2. rewrite L1 in H2.
    unfold __parse_dependentVariables, __check_offset.
    rewrite (holds_at_lt _ _ _ H1) by lia.
    unfold parse_dependentVariables_body.
    rewrite (parse_Bool_at stream o flag H1). cbn [bind ret or_TypeError].
    rewrite (holds_at_unpack_from [Fh] stream (o + 2) b2 H2 L2), U2.
    cbn [bind ret]. change (geti [VInt (len labels)] 0) with (len labels).
    change (calcsize [Fh]) with 2.
    cbv zeta. unfold body in *.
    destruct (Z.ltb_spec 0 (len labels)) as [Pos|Zero].
    + pose proof (holds_at_app_r _ _ _ _ H) as T1.
      rewrite len_app, L1, L2 in T1.
      pose proof (holds_at_app_r _ _ _ _ T1) as T3. rewrite Lh in T3.
      pose proof (holds_at_app_l _ _ _ _ T3) as H3.
      pose proof (holds_at_app_r _ _ _ _ T3) as T4.
      pose proof (holds_at_app_r _ _ _ _ T4) as H4. rewrite Lh in H4.
      replace (o + (2 + 2) + 10) with (o + 2 + 2 + 10) in H3 by lia.
      replace (o + (2 + 2) + 10 + len b3 + 10)
        with (o + 2 + 2 + 10 + len b3 + 10) in H4 by lia.
      rewrite Nl, (R3 stream _ H3). cbn [bind ret].
      rewrite <- Nl, Nv, (R4 stream _ H4). cbn [bind ret].
      assert (Lb : o + 2 + 2 + 10 + len b3 + 10 + len b4
                   = o + len ((b1 ++ b2) ++ h ++ b3 ++ h ++ b4)).
      { rewrite !len_app, L1, L2, Lh. lia. }
      rewrite Lb, (holds_at_slice _ _ _ H). reflexivity.
    + replace (len labels =? 0) with true by (symmetry; apply Z.eqb_eq; lia).
      assert (Lb : o + 2 + 2 + 4 = o + len ((b1 ++ b2) ++ [x00; x00; x00; x00])).
      { rewrite !len_app, L1, L2. change (len [x00; x00; x00; x00]) with 4. lia. }
      rewrite Lb, (holds_at_slice _ _ _ H).
      replace (len labels) with 0 by lia. reflexivity.
Qed.

Lemma dependentVariables_roundtrip_witness :
  exists b : bytes,
    __wrap_dependentVariables (set_dependants __init__ (Some sample_dependants))
    = Wrapped b (len b)
    /\ forall (stream : bytes) (other : ASDFile) (o : Z),
         holds_at stream o b ->
         __parse_dependentVariables stream other (OffInt o)
         = ret (set_dependants other
                  (Some (dependantInfo._make true 2
                           (LabelList [str_of "x"; str_of "y"])
                           (ValueList [float_of_Z 1; float_of_Z 2])
                           b (len b))),
                OffInt (o + len b)).
Proof.
  apply (dependentVariables_roundtrip
           (set_dependants __init__ (Some sample_dependants))
           sample_dependants [str_of "x"; str_of "y"] [float_of_Z 1; float_of_Z 2]).
  - reflexivity.
  - reflexivity.
  - reflexivity.
  - vm_compute. discriminate.
  - intros _. split; reflexivity.
  - vm_compute. reflexivity.
  - vm_compute. reflexivity.
Defined.

(** ** The smart detector block *)

(** X29.  [__parse_SmartDetector] decodes a block exactly when it has 27
    bytes, the size of ['<i f f f h b f f']; what [__wrap_SmartDetector]
    returns has 27 bytes; and a record whose serial number fits 32 bits,
    status 16 bits and average 8 bits, with binary32 floats, is written
    and read back unchanged. *)
Theorem SmartDetector_roundtrip :
  (forall d : bytes,
     (exists r : smartDetectorInfo.t, __parse_SmartDetector d = Some r) <-> len d = 27)
  /\ (forall (r : smartDetectorInfo.t) (b : bytes),
        __wrap_SmartDetector r = Some b -> len b = 27)
  /\ (forall r : smartDetectorInfo.t,
        - 2 ^ 31 <= smartDetectorInfo.serialNumber r < 2 ^ 31 ->
        - 2 ^ 15 <= smartDetectorInfo.status r < 2 ^ 15 ->
        - 2 ^ 7 <= smartDetectorInfo.avg r < 2 ^ 7 ->
        forallb is_binary32
          [smartDetectorInfo.signal r; smartDetectorInfo.dark r;
           smartDetectorInfo.ref r; smartDetectorInfo.humid r;
           smartDetectorInfo.temp r] = true ->
        exists b : bytes,
          __wrap_SmartDetector r = Some b /\ __parse_SmartDetector b = Some r).
Proof.
  split; [exact parse_SmartDetector_exact|]. split.
  - intros r b H. unfold __wrap_SmartDetector in H.
    match type of H with
    | catch ?p = _ => destruct p as [e|b'] eqn:P; [discriminate H|]
    end.
    cbn [catch] in H. injection H as <-.
    pose proof (pack_length _ _ _ P) as L. exact L.
  - intros r Hs Ht Ha Hf. cbn [forallb] in Hf.
    repeat match type of Hf with
           | _ && _ = true => let F := fresh "F" in apply andb_true_iff in Hf as [F Hf]
           end.
    match goal with
    | |- exists b, __wrap_SmartDetector _ = _ /\ _ =>
        unfold __wrap_SmartDetector;
        match goal with
        | |- exists b, catch (pack ?fmt ?vals) = _ /\ _ =>
            destruct (pack_unpack fmt vals) as (b & P & L & U)
        end
    end.
    { unfold smartDetectorFormat, Fi, Fh, Fb. cbn [all_fit].
      rewrite !fits_signed by (try lia; cbn; lia).
      cbn [fits].
      repeat match goal with
             | H : is_binary32 _ = true |- _ => rewrite H; clear H
             end.
      reflexivity. }
    exists b. rewrite P. split; [reflexivity|].
    unfold __parse_SmartDetector, unpack. rewrite L, Z.eqb_refl, U.
    destruct r. reflexivity.
Qed.

Lemma SmartDetector_roundtrip_witness :
  ((exists r : smartDetectorInfo.t, __parse_SmartDetector (zeros 27) = Some r)
   <-> len (zeros 27) = 27)
  /\ (exists b : bytes,
        __wrap_SmartDetector sample_smartDetector = Some b
        /\ __parse_SmartDetector b = Some sample_smartDetector).
Proof.
  split.
  - apply (proj1 SmartDetector_roundtrip (zeros 27)).
  - apply (proj2 (proj2 SmartDetector_roundtrip) sample_smartDetector).
    + vm_compute. split; [discriminate|reflexivity].
    + vm_compute. split; [discriminate|reflexivity].
    + vm_compute. split; [discriminate|reflexivity].
    + vm_compute. reflexivity.
Defined.

(** ** Metadata written and read back *)

Lemma parse_ASDFilewhen_fields (dt : datetime.t) (wd dy flag : Z) :
  valid_datetime dt ->
  1900 <= datetime.year dt < 3800 ->
  __parse_ASDFilewhen
    [VInt (datetime.second dt); VInt (datetime.minute dt); VInt (datetime.hour dt);
     VInt (datetime.day dt); VInt (datetime.month dt - 1);
     VInt (if 1900 <=? datetime.year dt then datetime.year dt - 1900
           else datetime.year dt);
     VInt wd; VInt dy; VInt flag]
  = ret (dt, flag).
Proof.
  intros V Y. unfold __parse_ASDFilewhen. cbv zeta.
  change (geti _ 0) with (datetime.second dt).
  change (geti _ 1) with (datetime.minute dt).
  change (geti _ 2) with (datetime.hour dt).
  change (geti _ 3) with (datetime.day dt).
  change (geti _ 4) with (datetime.month dt - 1).
  change (geti _ 5) with (if 1900 <=? datetime.year dt then datetime.year dt - 1900
                          else datetime.year dt).
  change (geti _ 8) with flag.
  replace (datetime.month dt - 1 + 1) with (datetime.month dt) by lia.
  pose proof (proj2 (ASDFilewhen_year (datetime.year dt)) Y) as E. cbv zeta in E.
  rewrite E. unfold valid_datetime in V. rewrite V. reflexivity.
Qed.

Lemma metadata_values_fit (md : asdMetadatainfo.t) (when_bytes : bytes) :
  metadata_fits md = true -> len when_bytes = 18 ->
  all_fit asdMetadataFormat (metadata_values md when_bytes) = true.
Proof.
  unfold metadata_fits, metadata_values, asdMetadataFormat. intros F L.
  cbn [all_fit] in F |- *.
  apply andb_true_iff in F as [F0 F]. apply andb_true_iff in F as [_ F].
  rewrite F0, F. cbn [fits andb].
  rewrite andb_true_r. apply Nat.eqb_eq. unfold len in L. lia.
Qed.

(** X30.  Metadata written by [__wrap_metadata] are read back by
    [__parse_metadata] wherever the 481 bytes stand: every field returns,
    the comments without the zero bytes at their ends and the three
    blocks padded to 128, 56 and 27 bytes; the offset advances by 481.
    The record keeps the first 484 bytes of the stream, whatever the
    offset.  The fields are such that [struct.pack] stores them without
    loss, the date is valid with a year from 1900 to 3799, and the
    daylight-saving flag fits 16 bits. *)
Theorem metadata_roundtrip :
  forall (self : ASDFile) (md : asdMetadatainfo.t),
  metadata self = Some md ->
  metadata_fits md = true ->
  valid_datetime (asdMetadatainfo.when md) ->
  1900 <= datetime.year (asdMetadatainfo.when md) < 3800 ->
  -32768 <= asdMetadatainfo.daylighSavingsFlag md <= 32767 ->
  exists b : bytes,
    __wrap_metadata self = Wrapped b 481
    /\ len b = 481
    /\ forall (stream : bytes) (other : ASDFile) (o : Z),
         holds_at stream o b ->
         __parse_metadata stream other (OffInt o)
         = ret (set_metadata other
                  (Some (stored_metadata md (slice_to stream 484))),
                OffInt (o + 481)).
Proof.
  intros self md Hm Hf Hv Hy Hflag.
  destruct (wrap_ASDFilewhen_fields _ _ _ _ _ _ _ _ Hv Hflag) as (wb & Pw & Lw & Uw).
  destruct (pack_unpack asdMetadataFormat (metadata_values md wb)
              (metadata_values_fit md wb Hf Lw)) as (b & P & L & U).
  change (calcsize asdMetadataFormat) with 481 in L.
  exists b. split; [|split; [exact L|]].
  - unfold __wrap_metadata. rewrite Hm. cbn [attr bind ret].
    unfold wrap_metadata_body. rewrite Pw. cbn [bind ret].
    change (pack asdMetadataFormat _) with (pack asdMetadataFormat (metadata_values md wb)).
    rewrite P. unfold ret. rewrite L. reflexivity.
  - intros stream other o H.
    assert (Q : parse_metadata_body stream o other
                = ret (set_metadata other
                         (Some (stored_metadata md (slice_to stream 484))),
                       o + 481)).
    { unfold parse_metadata_body.
      rewrite (holds_at_unpack_from asdMetadataFormat stream o b H L), U.
      cbn [bind ret].
      change (getb (metadata_values md wb) 1) with wb.
      rewrite Uw. cbn [bind ret].
      rewrite (parse_ASDFilewhen_fields _ _ _ _ Hv Hy). cbn [bind ret fst snd].
      change (getb (metadata_values md wb) 0)
        with (ljust0 157 (asdMetadatainfo.comments md)).
      rewrite strip0_ljust0.
      unfold stored_metadata.
      destruct md; cbn [asdMetadatainfo.darkTime asdMetadatainfo.referenceTime].
      destruct darkTime, referenceTime. reflexivity. }
    unfold __parse_metadata, __check_offset.
    rewrite (holds_at_lt _ _ _ H) by lia.
    rewrite Q. reflexivity.
Qed.

Lemma metadata_roundtrip_witness :
  exists b : bytes,
    __wrap_metadata (set_metadata __init__ (Some sample_flagged_metadata))
    = Wrapped b 481
    /\ len b = 481
    /\ forall (stream : bytes) (other : ASDFile) (o : Z),
         holds_at stream o b ->
         __parse_metadata stream other (OffInt o)
         = ret (set_metadata other
                  (Some (stored_metadata sample_flagged_metadata
                           (slice_to stream 484))),
                OffInt (o + 481)).
Proof.
  apply (metadata_roundtrip (set_metadata __init__ (Some sample_flagged_metadata))
           sample_flagged_metadata).
  - reflexivity.
  - vm_compute. reflexivity.
  - reflexivity.
  - vm_compute. split; [discriminate|reflexivity].
  - vm_compute. split; discriminate.
Defined.
